(** * Booking and payment backend: a shallow embedding of [index.js]

    The server is an Express application over three MongoDB collections
    ([bookings], [payments], [users]) and the Stripe checkout API.  Every
    route handler is an [async] function whose body is a [try] block with a
    catch-all that answers 500.  The embedding follows that shape:

    - JavaScript values are the inductive type [value]; numbers are IEEE
      binary64 floats (Rocq's primitive floats), objects are ordered lists of
      named fields.
    - A collection is the list of its documents in natural order; the
      driver calls [findOne], [insertOne], [updateOne] are functions on such
      lists.  Field names are atomic: the update operator [$set] is modelled
      for plain top-level field names.
    - A handler is a computation in the monad [M]: it threads the [world]
      (the three collections and the log of provider calls), and either
      continues, has sent a response, or has thrown.  Writes made before an
      exception stay in the world, as they do in the database.
    - What the platform supplies and the repository does not contain (string
      to number conversion, the [ObjectId] constructor, the local time zone,
      the Stripe client) is a field of the records [Engine] and
      [Stripe.Client], over which the development is parametric. *)

From Stdlib Require Import ZArith List String Ascii Bool Lia.
From Stdlib Require Import Floats.PrimFloat Floats.SpecFloat Floats.FloatOps Floats.FloatAxioms.
From Stdlib Require Import Numbers.DecimalString.
From Stdlib Require Import Sorting.Permutation Sorting.Sorted.
Import ListNotations.

Set Warnings "-register-all".
Local Open Scope string_scope.
Local Open Scope list_scope.
Local Open Scope Z_scope.

(** ** JavaScript values *)

Inductive value : Type :=
| VUndefined
| VNull
| VBool (b : bool)
| VNum (x : float)
| VStr (s : string)
| VObjectId (hex : string)
| VDate (t : Z)
| VArray (items : list value)
| VObject (fields : list (string * value)).

(** An object literal, a request body, a stored document. *)
Definition obj := list (string * value).

Module JS.

(** [o.k]: the value of a property, [undefined] when it is absent. *)
Fixpoint lookup (k : string) (o : obj) : option value :=
  match o with
  | [] => None
  | (k', v) :: o' => if String.eqb k k' then Some v else lookup k o'
  end.

Definition get (k : string) (o : obj) : value :=
  match lookup k o with Some v => v | None => VUndefined end.

(** [o.k = v]: overwrite in place, or append a new property. *)
Fixpoint set (k : string) (v : value) (o : obj) : obj :=
  match o with
  | [] => [(k, v)]
  | (k', v') :: o' =>
      if String.eqb k k' then (k', v) :: o' else (k', v') :: set k v o'
  end.

(** [delete o.k]. *)
Fixpoint delete (k : string) (o : obj) : obj :=
  match o with
  | [] => []
  | (k', v') :: o' =>
      if String.eqb k k' then delete k o' else (k', v') :: delete k o'
  end.

(** [{...a, ...b}]: the properties of [b] assigned onto [a] in order. *)
Definition assign (a b : obj) : obj :=
  fold_left (fun acc kv => set (fst kv) (snd kv) acc) b a.

(** *** Numbers *)

Definition is_nan (x : float) : bool :=
  match Prim2SF x with S754_nan => true | _ => false end.

Definition is_zero (x : float) : bool :=
  match Prim2SF x with S754_zero _ => true | _ => false end.


(** The number nearest to the integer [n]. *)
Definition of_Z (n : Z) : float :=
  SF2Prim (binary_normalize prec emax n 0 false).

(** [Math.round]: the integer closest to [x], ties towards [+Infinity];
    [NaN], the infinities and the zeros are returned unchanged, and a
    negative [x] that rounds to zero gives [-0].  A finite [x] is
    [(-1)^s * m * 2^e]; when [e >= 0] it is an integer already. *)
Definition Math_round (x : float) : float :=
  match Prim2SF x with
  | S754_finite s m e =>
      if 0 <=? e then x
      else
        let d := 2 ^ (- e) in
        let n := if s then (d - 2 * Z.pos m) / (2 * d)
                 else (2 * Z.pos m + d) / (2 * d) in
        if n =? 0 then (if s then PrimFloat.opp PrimFloat.zero else PrimFloat.zero)
        else of_Z n
  | _ => x
  end.

(** *** Conversions that need no string parsing *)

(** [ToBoolean]. *)
Definition truthy (v : value) : bool :=
  match v with
  | VUndefined | VNull => false
  | VBool b => b
  | VNum x => negb (is_zero x || is_nan x)
  | VStr s => negb (String.eqb s "")
  | VObjectId _ | VDate _ | VArray _ | VObject _ => true
  end.

(** [a || b]. *)
Definition or (a b : value) : value := if truthy a then a else b.

End JS.

Notation "a '|||' b" := (JS.or a b) (at level 50, left associativity).

(** ** What the platform supplies

    The JavaScript engine, the BSON library and the process environment are
    not part of the repository.  Their behaviour on the inputs where the
    handlers depend on it is a field of [Engine]; nothing is assumed about
    these fields unless a theorem says so. *)

Record Engine : Type := {
  (** [Number(s)] for a string [s]. *)
  StringToNumber : string -> float;
  (** [Number(v)] for a value that is not a primitive (an array, an object,
      an [ObjectId]). *)
  ObjectToNumber : value -> float;
  (** [v.toString()]. *)
  ToString : value -> string;
  (** [new ObjectId(v)]: [inr hex] for an accepted input, [inl message] when
      the constructor throws. *)
  ObjectId_new : value -> string + string;
  (** [new Date(v)] for a string, an array or an object: the time value, or
      [None] for an invalid date. *)
  Date_parse : value -> option Z;
  (** Offset of local time from UTC, in milliseconds, at a UTC instant and at
      a local instant. *)
  LocalTZA : Z -> Z;
  LocalTZA_of_local : Z -> Z;
  (** [process.env.SITE_DOMAIN], as it prints in a template string. *)
  SITE_DOMAIN : string
}.

(** ** MongoDB collections *)

Module Mongo.

Definition collection := list obj.

(** Equality of numbers as the server compares them: [NaN] equals [NaN]. *)
Definition num_eqb (x y : float) : bool :=
  PrimFloat.eqb x y || (JS.is_nan x && JS.is_nan y).

Fixpoint value_eqb (a b : value) {struct a} : bool :=
  match a, b with
  | VUndefined, VUndefined => true
  | VNull, VNull => true
  | VBool x, VBool y => Bool.eqb x y
  | VNum x, VNum y => num_eqb x y
  | VStr x, VStr y => String.eqb x y
  | VObjectId x, VObjectId y => String.eqb x y
  | VDate x, VDate y => Z.eqb x y
  | VArray xs, VArray ys =>
      (fix items (xs ys : list value) {struct xs} : bool :=
         match xs, ys with
         | [], [] => true
         | x :: xs', y :: ys' => value_eqb x y && items xs' ys'
         | _, _ => false
         end) xs ys
  | VObject xs, VObject ys =>
      (fix fields (xs ys : list (string * value)) {struct xs} : bool :=
         match xs, ys with
         | [], [] => true
         | (k, x) :: xs', (k', y) :: ys' =>
             String.eqb k k' && value_eqb x y && fields xs' ys'
         | _, _ => false
         end) xs ys
  | _, _ => false
  end.

(** One condition [{k: q}] of a query document.  A [null] (or
    [undefined], which the driver serialises as [null]) matches a field
    that is null or missing; any other value matches an equal field, or an
    array field with an equal element. *)
Definition match_field (stored : option value) (q : value) : bool :=
  match q with
  | VNull | VUndefined =>
      match stored with
      | None | Some VNull | Some VUndefined => true
      | Some _ => false
      end
  | _ =>
      match stored with
      | Some (VArray items) =>
          value_eqb (VArray items) q || existsb (fun v => value_eqb v q) items
      | Some v => value_eqb v q
      | None => false
      end
  end.

Definition matches (query : obj) (d : obj) : bool :=
  forallb (fun c => match_field (JS.lookup (fst c) d) (snd c)) query.

(** [collection.findOne(query)]: the first match in natural order. *)
Definition findOne (query : obj) (c : collection) : option obj :=
  find (matches query) c.

(** [collection.countDocuments(query)]. *)
Definition countDocuments (query : obj) (c : collection) : nat :=
  List.length (filter (matches query) c).

Definition has_id (id : value) (c : collection) : bool :=
  existsb (fun d => value_eqb (JS.get "_id" d) id) c.

(** [collection.insertOne(doc)].  The driver assigns a generated
    [ObjectId] when the document carries no [_id]; the server rejects a
    duplicate [_id] ([inl], the call throws).  The result is the
    [insertedId] and the collection with the document appended. *)
Definition insertOne (fresh : string) (d : obj) (c : collection)
  : string + (value * collection) :=
  let d' := match JS.get "_id" d with
            | VNull | VUndefined => JS.set "_id" (VObjectId fresh) d
            | _ => d
            end in
  let id := JS.get "_id" d' in
  if has_id id c then inl "E11000 duplicate key error"
  else inr (id, (c ++ [d'])%list).

Record UpdateResult : Type := {
  matchedCount : Z;
  modifiedCount : Z;
  upsertedId : value
}.

(** The first document satisfying [p] replaced by its image under [g]. *)
Fixpoint update_first (p : obj -> bool) (g : obj -> obj) (c : collection)
  : collection :=
  match c with
  | [] => []
  | d :: c' => if p d then g d :: c' else d :: update_first p g c'
  end.

Definition doc_eqb (a b : obj) : bool := value_eqb (VObject a) (VObject b).

(** [$set] may not change the [_id] of the document it is applied to. *)
Definition changes_id (upd d : obj) : bool :=
  match JS.lookup "_id" upd with
  | Some v => negb (value_eqb v (JS.get "_id" d))
  | None => false
  end.

(** [collection.updateOne(query, {$set: upd}, {upsert})]. *)
Definition updateOne (fresh : string) (query upd : obj) (upsert : bool)
    (c : collection) : string + (UpdateResult * collection) :=
  match findOne query c with
  | Some d =>
      if changes_id upd d
      then inl "Performing an update on the path '_id' would modify the immutable field '_id'"
      else
        let d' := JS.assign d upd in
        inr ({| matchedCount := 1;
                modifiedCount := if doc_eqb d d' then 0 else 1;
                upsertedId := VNull |},
             update_first (matches query) (fun _ => d') c)
  | None =>
      if upsert then
        let d' := JS.assign (JS.assign [("_id", VObjectId fresh)] query) upd in
        let id := JS.get "_id" d' in
        if has_id id c then inl "E11000 duplicate key error"
        else inr ({| matchedCount := 0; modifiedCount := 0; upsertedId := id |},
                  (c ++ [d'])%list)
      else inr ({| matchedCount := 0; modifiedCount := 0; upsertedId := VNull |}, c)
  end.

Definition result_value (r : UpdateResult) : value :=
  VObject [("acknowledged", VBool true);
           ("modifiedCount", VNum (JS.of_Z (modifiedCount r)));
           ("upsertedId", upsertedId r);
           ("upsertedCount",
             VNum (JS.of_Z (match upsertedId r with VNull => 0 | _ => 1 end)));
           ("matchedCount", VNum (JS.of_Z (matchedCount r)))].

(** [collection.find(query)], before any sort. *)
Definition find (query : obj) (c : collection) : list obj :=
  filter (matches query) c.

(** The collection without the first document satisfying [p]. *)
Fixpoint remove_first (p : obj -> bool) (c : collection) : collection :=
  match c with
  | [] => []
  | d :: c' => if p d then c' else d :: remove_first p c'
  end.

(** [collection.deleteOne(query)]: the [deletedCount] and what is left. *)
Definition deleteOne (query : obj) (c : collection) : Z * collection :=
  match findOne query c with
  | Some _ => (1, remove_first (matches query) c)
  | None => (0, c)
  end.

Definition delete_value (deletedCount : Z) : value :=
  VObject [("acknowledged", VBool true);
           ("deletedCount", VNum (JS.of_Z deletedCount))].

(** A value as the driver sends it: [undefined] goes out as [null]. *)
Definition serialize (v : value) : value :=
  match v with VUndefined => VNull | _ => v end.

End Mongo.

(** ** The payment provider

    Checkout sessions as the Stripe API documents them: identifiers and the
    currency are strings or [null], the amount is an integer number of minor
    units or [null], metadata maps strings to strings. *)

Module Stripe.

Record Session : Type := {
  payment_intent : option string;
  amount_total : option Z;
  currency : option string;
  metadata : option (list (string * string));
  payment_status : string;
  customer_email : option string
}.

(** The argument of [stripe.checkout.sessions.create]. *)
Record Params : Type := {
  payment_method_types : list string;
  mode : string;
  params_customer_email : value;
  price_currency : string;
  unit_amount : value;
  product_name : value;
  quantity : Z;
  params_metadata : obj;
  success_url : string;
  cancel_url : string
}.

(** The client: [retrieve] answers with the session or throws; [create]
    sees the calls made so far (every call opens a distinct session) and
    answers with the session's [url] or throws. *)
Record Client : Type := {
  sessions_retrieve : value -> string + Session;
  sessions_create : list Params -> Params -> string + value
}.

Definition opt_string (o : option string) : value :=
  match o with Some s => VStr s | None => VNull end.

Definition opt_amount (o : option Z) : value :=
  match o with Some n => VNum (JS.of_Z n) | None => VNull end.

(** [session.metadata || {}], as an object. *)
Definition meta (s : Session) : obj :=
  match metadata s with
  | Some kvs => map (fun kv => (fst kv, VStr (snd kv))) kvs
  | None => []
  end.

End Stripe.

(** ** The world and the handler monad *)

Record world : Type := {
  bookingCollection : Mongo.collection;
  paymentCollection : Mongo.collection;
  usersCollection : Mongo.collection;
  (** Calls of [stripe.checkout.sessions.create], oldest first. *)
  stripe_created : list Stripe.Params
}.

Record response : Type := { status : Z; body : value }.

(** One incoming call: the request, and what the platform hands out while it
    runs (the clock read by [new Date()], the identifier the driver would
    generate for an inserted document). *)
Record call : Type := {
  req_body : obj;
  req_query : obj;
  req_params : obj;
  now : Z;
  fresh_id : string
}.

Inductive outcome (A : Type) : Type :=
| Next (a : A)
| Sent (r : response)
| Thrown (message : string).
Arguments Next {A} a.
Arguments Sent {A} r.
Arguments Thrown {A} message.

Definition M (A : Type) : Type := world -> outcome A * world.

Definition ret {A} (a : A) : M A := fun w => (Next a, w).

Definition bind {A B} (m : M A) (k : A -> M B) : M B :=
  fun w =>
    match m w with
    | (Next a, w') => k a w'
    | (Sent r, w') => (Sent r, w')
    | (Thrown e, w') => (Thrown e, w')
    end.

Notation "x <- m ;; k" := (bind m (fun x => k))
  (at level 100, m at next level, right associativity).
Notation "m ;;; k" := (bind m (fun _ => k))
  (at level 100, right associativity).

(** [return res.status(s).send(b)]. *)
Definition send {A} (s : Z) (b : value) : M A :=
  fun w => (Sent {| status := s; body := b |}, w).

(** A driver or provider call that may throw. *)
Definition try {A} (r : string + A) : M A :=
  fun w => match r with inl e => (Thrown e, w) | inr a => (Next a, w) end.

Definition bookings : M Mongo.collection := fun w => (Next (bookingCollection w), w).
Definition payments : M Mongo.collection := fun w => (Next (paymentCollection w), w).
Definition users : M Mongo.collection := fun w => (Next (usersCollection w), w).

Definition put_bookings (c : Mongo.collection) : M unit :=
  fun w => (Next tt, {| bookingCollection := c;
                        paymentCollection := paymentCollection w;
                        usersCollection := usersCollection w;
                        stripe_created := stripe_created w |}).

Definition put_payments (c : Mongo.collection) : M unit :=
  fun w => (Next tt, {| bookingCollection := bookingCollection w;
                        paymentCollection := c;
                        usersCollection := usersCollection w;
                        stripe_created := stripe_created w |}).

Definition put_users (c : Mongo.collection) : M unit :=
  fun w => (Next tt, {| bookingCollection := bookingCollection w;
                        paymentCollection := paymentCollection w;
                        usersCollection := c;
                        stripe_created := stripe_created w |}).

(** [try { ... } catch (error) { res.status(500).send(onError(error)) }]
    around a handler body that always ends by sending. *)
Definition route (onError : string -> value) (h : M Empty_set)
  : world -> response * world :=
  fun w =>
    match h w with
    | (Next e, _) => match e with end
    | (Sent r, w') => (r, w')
    | (Thrown e, w') => ({| status := 500; body := onError e |}, w')
    end.

Definition message (m : string) : value := VObject [("message", VStr m)].

Definition failure (m : string) (e : string) : value :=
  VObject [("message", VStr m); ("error", VStr e)].

(** ** Dates

    Time values are integers, milliseconds since the epoch; the functions
    below are the ones of the ECMAScript specification (section "Date
    objects"), on the proleptic Gregorian calendar. *)

Module JSDate.

Definition msPerDay : Z := 86400000.

(** [TimeClip]: a time value beyond 8.64e15 ms is an invalid date. *)
Definition TimeClip (t : Z) : option Z :=
  if Z.abs t <=? 8640000000000000 then Some t else None.

Definition Day (t : Z) : Z := t / msPerDay.

Definition DayFromYear (y : Z) : Z :=
  365 * (y - 1970) + (y - 1969) / 4 - (y - 1901) / 100 + (y - 1601) / 400.

Definition InLeapYear (y : Z) : bool :=
  ((y mod 4 =? 0) && negb (y mod 100 =? 0)) || (y mod 400 =? 0).

(** The largest [y] with [DayFromYear y <= day]: an estimate from the mean
    length of a year, corrected by one where it is off. *)
Definition YearFromDay (day : Z) : Z :=
  let y := 1970 + (400 * day) / 146097 in
  if day <? DayFromYear y then y - 1
  else if DayFromYear (y + 1) <=? day then y + 1
  else y.

Definition YearFromTime (t : Z) : Z := YearFromDay (Day t).

(** Day number, within its year, of the first day of month [m] (0-11). *)
Definition month_start (leap : bool) (m : Z) : Z :=
  let l := if leap then 1 else 0 in
  match m with
  | 0 => 0
  | 1 => 31
  | 2 => 59 + l
  | 3 => 90 + l
  | 4 => 120 + l
  | 5 => 151 + l
  | 6 => 181 + l
  | 7 => 212 + l
  | 8 => 243 + l
  | 9 => 273 + l
  | 10 => 304 + l
  | _ => 334 + l
  end.

Definition MonthFromTime (t : Z) : Z :=
  let y := YearFromTime t in
  let d := Day t - DayFromYear y in
  let leap := InLeapYear y in
  if d <? month_start leap 1 then 0
  else if d <? month_start leap 2 then 1
  else if d <? month_start leap 3 then 2
  else if d <? month_start leap 4 then 3
  else if d <? month_start leap 5 then 4
  else if d <? month_start leap 6 then 5
  else if d <? month_start leap 7 then 6
  else if d <? month_start leap 8 then 7
  else if d <? month_start leap 9 then 8
  else if d <? month_start leap 10 then 9
  else if d <? month_start leap 11 then 10
  else 11.

(** [MakeDay(year, month, 1)]. *)
Definition MakeDay (year month : Z) : Z :=
  let ym := year + month / 12 in
  let mn := month mod 12 in
  DayFromYear ym + month_start (InLeapYear ym) mn.

Definition DateFromTime (t : Z) : Z :=
  let y := YearFromTime t in
  Day t - DayFromYear y - month_start (InLeapYear y) (MonthFromTime t) + 1.

Definition decimal (n : Z) : string :=
  DecimalString.NilZero.string_of_uint (N.to_uint (Z.to_N n)).

(** [String(n).padStart(width, "0")] for [n >= 0]. *)
Definition pad (width : nat) (n : Z) : string :=
  let s := decimal n in
  String.concat "" (repeat "0" (width - String.length s)) ++ s.

(** [new Date(t).toISOString()]: [YYYY-MM-DDTHH:mm:ss.sssZ], with a signed
    six-digit year outside 0-9999. *)
Definition toISOString (t : Z) : string :=
  let y := YearFromTime t in
  let ms := t mod msPerDay in
  (if (0 <=? y) && (y <=? 9999) then pad 4 y
   else (if y <? 0 then "-" else "+") ++ pad 6 (Z.abs y))
  ++ "-" ++ pad 2 (MonthFromTime t + 1)
  ++ "-" ++ pad 2 (DateFromTime t)
  ++ "T" ++ pad 2 (ms / 3600000)
  ++ ":" ++ pad 2 (ms / 60000 mod 60)
  ++ ":" ++ pad 2 (ms / 1000 mod 60)
  ++ "." ++ pad 3 (ms mod 1000) ++ "Z".

(** The integral part of a number, [None] for [NaN] and the infinities. *)
Definition trunc (x : float) : option Z :=
  match Prim2SF x with
  | S754_zero _ => Some 0
  | S754_finite s m e =>
      let a := if 0 <=? e then Z.pos m * 2 ^ e else Z.pos m / 2 ^ (- e) in
      Some (if s then - a else a)
  | _ => None
  end.

Section Local.

Context (eng : Engine).

(** [new Date(v)], as its time value; [None] is [Invalid Date]. *)
Definition Date_new (v : value) : option Z :=
  match v with
  | VDate t => TimeClip t
  | VUndefined => None
  | VNull => Some 0
  | VBool b => Some (if b then 1 else 0)
  | VNum x => match trunc x with Some t => TimeClip t | None => None end
  | VStr _ | VObjectId _ | VArray _ | VObject _ => Date_parse eng v
  end.

Definition LocalTime (t : Z) : Z := t + LocalTZA eng t.
Definition UTC (t : Z) : Z := t - LocalTZA_of_local eng t.

Definition getFullYear (t : Z) : Z := YearFromTime (LocalTime t).
Definition getMonth (t : Z) : Z := MonthFromTime (LocalTime t).

(** [new Date(year, month, 1).getTime()]; a year from 0 to 99 stands for
    1900 + year. *)
Definition Date_ym (year month : Z) : option Z :=
  let yr := if (0 <=? year) && (year <=? 99) then 1900 + year else year in
  TimeClip (UTC (MakeDay yr month * msPerDay)).

End Local.

End JSDate.

(** ** The route handlers *)

Section Server.

Context (eng : Engine) (stripe : Stripe.Client).

(** [Number(v)]. *)
Definition ToNumber (v : value) : float :=
  match v with
  | VUndefined => PrimFloat.nan
  | VNull => PrimFloat.zero
  | VBool b => if b then PrimFloat.one else PrimFloat.zero
  | VNum x => x
  | VStr s => StringToNumber eng s
  | VDate t => JS.of_Z t
  | VObjectId _ | VArray _ | VObject _ => ObjectToNumber eng v
  end.

(** [a * b]. *)
Definition times (a b : value) : value :=
  VNum (PrimFloat.mul (ToNumber a) (ToNumber b)).

(** [new ObjectId(v)], inside a handler. *)
Definition ObjectId (v : value) : M value :=
  hex <- try (ObjectId_new eng v) ;; ret (VObjectId hex).

(** *** [POST /bookings] *)

Definition post_bookings (c : call) : world -> response * world :=
  route (failure "Failed to create booking")
    (let booking := req_body c in
     if negb (JS.truthy (JS.get "tourId" booking))
        || negb (JS.truthy (JS.get "userEmail" booking))
        || negb (JS.truthy (JS.get "travelDate" booking))
     then
       send 400 (message
         "Missing required fields: tourId, userEmail, and travelDate are required")
     else
       let booking := JS.set "createdAt" (VDate (now c)) booking in
       let booking :=
         JS.set "status" (JS.get "status" booking ||| VStr "pending") booking in
       let booking :=
         JS.set "paymentStatus"
           (JS.get "paymentStatus" booking ||| VStr "unpaid") booking in
       coll <- bookings ;;
       result <- try (Mongo.insertOne (fresh_id c) booking coll) ;;
       put_bookings (snd result) ;;;
       send 200 (VObject [("acknowledged", VBool true);
                          ("insertedId", fst result)])).

(** *** [POST /create-checkout-session] *)

(** The charge in minor units:
    [Math.round(Number(finalPrice || originalTotal ||
       pricePerPerson * (guests || numberOfGuests || 1)) * 100) || 0]. *)
Definition amount (booking : obj) : value :=
  VNum (JS.Math_round
          (PrimFloat.mul
             (ToNumber
                (JS.get "finalPrice" booking
                 ||| JS.get "originalTotal" booking
                 ||| times (JS.get "pricePerPerson" booking)
                       (JS.get "guests" booking
                        ||| JS.get "numberOfGuests" booking
                        ||| VNum PrimFloat.one)))
             100%float))
  ||| VNum PrimFloat.zero.

(** [v?.toString() || ""]. *)
Definition toString_or_empty (v : value) : value :=
  match v with
  | VUndefined | VNull => VStr ""
  | _ => VStr (ToString eng v) ||| VStr ""
  end.

Definition checkout_params (booking : obj) : Stripe.Params :=
  {| Stripe.payment_method_types := ["card"];
     Stripe.mode := "payment";
     Stripe.params_customer_email := JS.get "userEmail" booking ||| VUndefined;
     Stripe.price_currency := "usd";
     Stripe.unit_amount := amount booking;
     Stripe.product_name := JS.get "tourTitle" booking ||| VStr "Tour Booking";
     Stripe.quantity := 1;
     Stripe.params_metadata :=
       [("bookingId", VStr (ToString eng (JS.get "_id" booking)));
        ("tourId", toString_or_empty (JS.get "tourId" booking));
        ("userEmail", JS.get "userEmail" booking ||| VStr "")];
     Stripe.success_url :=
       SITE_DOMAIN eng ++ "/payment-success?session_id={CHECKOUT_SESSION_ID}";
     Stripe.cancel_url := SITE_DOMAIN eng ++ "/dashboard/my-booking" |}.

(** [await stripe.checkout.sessions.create(params)]: the call reaches the
    provider, and is logged, whether or not it then throws. *)
Definition create_session (p : Stripe.Params) : M value :=
  fun w =>
    let w' := {| bookingCollection := bookingCollection w;
                 paymentCollection := paymentCollection w;
                 usersCollection := usersCollection w;
                 stripe_created := (stripe_created w ++ [p])%list |} in
    match Stripe.sessions_create stripe (stripe_created w) p with
    | inl e => (Thrown e, w')
    | inr url => (Next url, w')
    end.

Definition post_create_checkout_session (c : call)
  : world -> response * world :=
  route (failure "Failed to create checkout session")
    (let bookingId := JS.get "bookingId" (req_body c) in
     if negb (JS.truthy bookingId) then
       send 400 (message "bookingId is required")
     else
       id <- ObjectId bookingId ;;
       coll <- bookings ;;
       match Mongo.findOne [("_id", id)] coll with
       | None => send 404 (message "Booking not found")
       | Some booking =>
           if negb (JS.truthy (amount booking)) then
             send 400 (message "Invalid booking amount")
           else
             url <- create_session (checkout_params booking) ;;
             send 200 (VObject [("url", url)])
       end).

(** *** [GET /booking-success] *)

Definition paymentDoc (c : call) (session : Stripe.Session) : obj :=
  let meta := Stripe.meta session in
  [("bookingId", JS.get "bookingId" meta ||| VStr "");
   ("tourId", JS.get "tourId" meta ||| VStr "");
   ("userEmail", JS.get "userEmail" meta
                 ||| Stripe.opt_string (Stripe.customer_email session));
   ("amount", Stripe.opt_amount (Stripe.amount_total session));
   ("currency", Stripe.opt_string (Stripe.currency session));
   ("transactionId", Stripe.opt_string (Stripe.payment_intent session));
   ("paymentStatus", VStr (Stripe.payment_status session));
   ("createdAt", VDate (now c))].

(** The [$set] document of the booking update. *)
Definition booking_paid (c : call) (transactionId : value) : obj :=
  [("paymentStatus", VStr "paid");
   ("status", VStr "confirmed");
   ("transactionId", transactionId);
   ("updatedAt", VStr (JSDate.toISOString (now c)))].

Definition get_booking_success (c : call) : world -> response * world :=
  route (failure "Failed to confirm booking")
    (let sessionId := JS.get "session_id" (req_query c) in
     if negb (JS.truthy sessionId) then
       send 400 (message "Missing session_id")
     else
       session <- try (Stripe.sessions_retrieve stripe sessionId) ;;
       let transactionId := Stripe.opt_string (Stripe.payment_intent session) in
       let meta := Stripe.meta session in
       pays <- payments ;;
       match Mongo.findOne [("transactionId", transactionId)] pays with
       | Some existing =>
           send 200 (VObject [("message", VStr "already exists");
                              ("transactionId", transactionId);
                              ("payment", VObject existing)])
       | None =>
           if String.eqb (Stripe.payment_status session) "paid" then
             payResult <- try (Mongo.insertOne (fresh_id c)
                                 (paymentDoc c session) pays) ;;
             put_payments (snd payResult) ;;;
             (if JS.truthy (JS.get "bookingId" meta) then
                id <- ObjectId (JS.get "bookingId" meta) ;;
                coll <- bookings ;;
                updated <- try (Mongo.updateOne (fresh_id c) [("_id", id)]
                                  (booking_paid c transactionId) false coll) ;;
                put_bookings (snd updated)
              else ret tt) ;;;
             booking <- (if JS.truthy (JS.get "bookingId" meta) then
                           id <- ObjectId (JS.get "bookingId" meta) ;;
                           coll <- bookings ;;
                           ret (match Mongo.findOne [("_id", id)] coll with
                                | Some b => VObject b
                                | None => VNull
                                end)
                         else ret VNull) ;;
             send 200 (VObject [("success", VBool true);
                                ("transactionId", transactionId);
                                ("paymentId", fst payResult);
                                ("bookingId", JS.get "bookingId" meta);
                                ("booking", booking)])
           else
             send 200 (VObject [("success", VBool false);
                                ("message", VStr "Payment not completed")])
       end).

(** *** [POST /users] *)

Definition post_users (c : call) : world -> response * world :=
  route (failure "Failed to save user")
    (let user := req_body c in
     if negb (JS.truthy (JS.get "email" user)) then
       send 400 (message "Email is required")
     else
       let user := JS.set "role" (JS.get "role" user ||| VStr "user") user in
       let user := JS.set "updatedAt" (VDate (now c)) user in
       coll <- users ;;
       result <- try (Mongo.updateOne (fresh_id c)
                        [("email", JS.get "email" user)] user true coll) ;;
       put_users (snd result) ;;;
       send 200 (Mongo.result_value (fst result))).

(** *** [PATCH /users/profile/:email] *)

Definition patch_users_profile (c : call) : world -> response * world :=
  route (fun _ => message "Failed to update user profile")
    (let email := JS.get "email" (req_params c) in
     let updated := req_body c in
     let updated := JS.delete "email" updated in
     let updated := JS.delete "role" updated in
     coll <- users ;;
     result <- try (Mongo.updateOne (fresh_id c) [("email", email)]
                      (JS.assign updated [("updatedAt", VDate (now c))])
                      false coll) ;;
     put_users (snd result) ;;;
     send 200 (Mongo.result_value (fst result))).

End Server.

(** ** The other routes

    The routes below read or write the same collections.  Two more things
    come from outside the repository: the order in which the database
    returns a sorted cursor, and the verification of a Firebase token. *)

Record Database : Type := {
  (** [cursor.sort({ [key]: -1 }).toArray()] on the documents found. *)
  sort_desc : string -> list obj -> list obj
}.

Record Firebase : Type := {
  (** [admin.auth().verifyIdToken(idToken)]: [inr email] with the [email]
      of the decoded token, [inl message] when the call rejects. *)
  verifyIdToken : value -> string + value
}.

(** [s.split(sep)] for a separator of one character. *)
Fixpoint split (sep : ascii) (s : string) : list string :=
  match s with
  | EmptyString => [EmptyString]
  | String a s' =>
      if Ascii.eqb a sep then EmptyString :: split sep s'
      else match split sep s' with
           | piece :: rest => String a piece :: rest
           | [] => [String a EmptyString]
           end
  end.

(** [token.split(" ")[1]]. *)
Definition idToken (token : string) : value :=
  match nth_error (split " " token) 1 with
  | Some piece => VStr piece
  | None => VUndefined
  end.

Section Routes.

Context (eng : Engine) (db : Database) (firebase : Firebase).

(** *** [verifyFBToken] *)

(** The middleware in front of a handler [next], which may read the
    [decoded_email] the middleware leaves on the request. *)
Definition verifyFBToken (authorization : option string)
    (next : value -> world -> response * world)
  : world -> response * world :=
  fun w =>
    match authorization with
    | None => ({| status := 401; body := message "unauthorized access" |}, w)
    | Some token =>
        if negb (JS.truthy (VStr token)) then
          ({| status := 401; body := message "unauthorized access" |}, w)
        else
          match verifyIdToken firebase (idToken token) with
          | inl _ =>
              ({| status := 401; body := message "unauthorized access" |}, w)
          | inr decoded_email => next decoded_email w
          end
    end.

(** *** [GET /bookings] *)

(** The query document built from the query string. *)
Definition bookings_query (c : call) : obj :=
  let email := JS.get "email" (req_query c) in
  let status := JS.get "status" (req_query c) in
  let userId := JS.get "userId" (req_query c) in
  let query := [] in
  let query := if JS.truthy email then JS.set "userEmail" email query
               else query in
  let query := if JS.truthy status then JS.set "status" status query
               else query in
  let query := if JS.truthy userId then JS.set "userId" userId query
               else query in
  query.

Definition get_bookings (c : call) : world -> response * world :=
  route (failure "Failed to fetch bookings")
    (coll <- bookings ;;
     send 200
       (VArray (map VObject
                  (sort_desc db "createdAt"
                     (Mongo.find (bookings_query c) coll))))).

(** *** [GET /bookings/:id] *)

Definition get_bookings_id (c : call) : world -> response * world :=
  route (failure "Failed to fetch booking")
    (id <- ObjectId eng (JS.get "id" (req_params c)) ;;
     coll <- bookings ;;
     match Mongo.findOne [("_id", id)] coll with
     | None => send 404 (message "Booking not found")
     | Some result => send 200 (VObject result)
     end).

(** *** [PATCH /bookings/:id] *)

Definition patch_bookings_id (c : call) : world -> response * world :=
  route (failure "Failed to update booking")
    (let updateData := req_body c in
     id <- ObjectId eng (JS.get "id" (req_params c)) ;;
     coll <- bookings ;;
     result <- try (Mongo.updateOne (fresh_id c) [("_id", id)]
                      (JS.assign updateData
                         [("updatedAt", VStr (JSDate.toISOString (now c)))])
                      false coll) ;;
     put_bookings (snd result) ;;;
     if Mongo.matchedCount (fst result) =? 0 then
       send 404 (message "Booking not found")
     else send 200 (Mongo.result_value (fst result))).

(** *** [DELETE /bookings/:id] *)

Definition delete_bookings_id (c : call) : world -> response * world :=
  route (failure "Failed to delete booking")
    (id <- ObjectId eng (JS.get "id" (req_params c)) ;;
     coll <- bookings ;;
     let result := Mongo.deleteOne [("_id", id)] coll in
     put_bookings (snd result) ;;;
     if fst result =? 0 then send 404 (message "Booking not found")
     else send 200 (Mongo.delete_value (fst result))).

(** *** [GET /users] *)

(** The handler behind the middleware. *)
Definition list_users (c : call) : world -> response * world :=
  route (fun _ => message "Failed to get users")
    (let role := JS.get "role" (req_query c) in
     let query := [] in
     let query := if JS.truthy role then JS.set "role" role query
                  else query in
     coll <- users ;;
     send 200
       (VArray (map VObject
                  (sort_desc db "updatedAt" (Mongo.find query coll))))).

Definition get_users (authorization : option string) (c : call)
  : world -> response * world :=
  verifyFBToken authorization (fun _ => list_users c).

(** *** [GET /users/profile/:email] *)

Definition get_users_profile (c : call) : world -> response * world :=
  route (fun _ => message "Failed to get user profile")
    (let email := JS.get "email" (req_params c) in
     coll <- users ;;
     match Mongo.findOne [("email", email)] coll with
     | None => send 404 (message "User not found")
     | Some user => send 200 (VObject user)
     end).

(** *** [GET /users/:email/role] *)

Definition get_users_role (c : call) : world -> response * world :=
  route (fun _ => message "Failed to get user role")
    (let email := JS.get "email" (req_params c) in
     coll <- users ;;
     let role := match Mongo.findOne [("email", email)] coll with
                 | Some user => JS.get "role" user
                 | None => VUndefined
                 end in
     send 200 (VObject [("role", role ||| VStr "user")])).

(** *** [PATCH /users/:id/role] *)

Definition patch_users_role (c : call) : world -> response * world :=
  route (fun _ => message "Failed to update role")
    (let role := JS.get "role" (req_body c) in
     id <- ObjectId eng (JS.get "id" (req_params c)) ;;
     coll <- users ;;
     result <- try (Mongo.updateOne (fresh_id c) [("_id", id)]
                      [("role", Mongo.serialize role);
                       ("updatedAt", VDate (now c))]
                      false coll) ;;
     put_users (snd result) ;;;
     send 200 (Mongo.result_value (fst result))).

(** *** [DELETE /users/:id] *)

Definition delete_users_id (c : call) : world -> response * world :=
  route (fun _ => message "Failed to delete user")
    (id <- ObjectId eng (JS.get "id" (req_params c)) ;;
     coll <- users ;;
     let result := Mongo.deleteOne [("_id", id)] coll in
     put_users (snd result) ;;;
     if fst result =? 0 then send 404 (message "User not found")
     else send 200 (Mongo.delete_value (fst result))).

End Routes.

(** ** [GET /dashboard-stats]: the booking chart *)

Module Chart.

(** A key of [monthMap].  The source builds the string
    [`${getFullYear()}-${getMonth()}`]; the pair determines it and is
    determined by it. *)
Definition key : Type := Z * Z.

Definition key_eqb (a b : key) : bool :=
  (fst a =? fst b) && (snd a =? snd b).

(** [monthMap[key] = (monthMap[key] || 0) + 1]; a new key is appended, so
    that [Object.entries] lists the keys in order of first occurrence. *)
Fixpoint bump (k : key) (m : list (key * Z)) : list (key * Z) :=
  match m with
  | [] => [(k, 1)]
  | (k', n) :: m' =>
      if key_eqb k k' then (k', n + 1) :: m' else (k', n) :: bump k m'
  end.

(** [key.split("-").map(Number)], destructured as [[year, month]].  The
    sign of a negative year is a separator too: the pieces of ["-5-3"] are
    [""], ["5"] and ["3"], of which the first two are taken. *)
Definition split_key (k : key) : Z * Z :=
  if 0 <=? fst k then k else (0, - fst k).

Definition monthNames : list string :=
  ["Jan"; "Feb"; "Mar"; "Apr"; "May"; "Jun";
   "Jul"; "Aug"; "Sep"; "Oct"; "Nov"; "Dec"].

(** [monthNames[month]] inside a template string. *)
Definition monthName (month : Z) : string :=
  if (0 <=? month) then nth (Z.to_nat month) monthNames "undefined"
  else "undefined".

(** [s.slice(-2)]. *)
Definition slice_last2 (s : string) : string :=
  String.substring (String.length s - 2) 2 s.

Record point : Type := { name : string; bookings : Z; sortKey : option Z }.

(** [a.sortKey - b.sortKey]; a [NaN] result counts as zero in [sort]. *)
Definition compare (a b : point) : Z :=
  match sortKey a, sortKey b with
  | Some x, Some y => x - y
  | _, _ => 0
  end.

(** [Array.prototype.sort(compare)]: a stable sort. *)
Fixpoint insert (a : point) (l : list point) : list point :=
  match l with
  | [] => [a]
  | b :: l' => if compare a b <=? 0 then a :: b :: l' else b :: insert a l'
  end.

Definition sort (l : list point) : list point := fold_right insert [] l.

(** [l.slice(-6)]. *)
Definition slice_last6 {A} (l : list A) : list A :=
  skipn (List.length l - 6) l.

Section Local.

Context (eng : Engine).

(** The month a booking was created in, when [createdAt] is a valid
    date. *)
Definition month_of (b : obj) : option key :=
  match JSDate.Date_new eng (JS.get "createdAt" b) with
  | Some t => Some (JSDate.getFullYear eng t, JSDate.getMonth eng t)
  | None => None
  end.

Definition monthMap (allBookings : list obj) : list (key * Z) :=
  fold_left
    (fun m b => match month_of b with Some k => bump k m | None => m end)
    allBookings [].

Definition to_point (e : key * Z) : point :=
  let (year, month) := split_key (fst e) in
  {| name := monthName month ++ " " ++ slice_last2 (JSDate.decimal year);
     bookings := snd e;
     sortKey := JSDate.Date_ym eng year month |}.

(** The chart before the sort keys are dropped. *)
Definition chart (allBookings : list obj) : list point :=
  slice_last6 (sort (map to_point (monthMap allBookings))).

(** [.find({}).project({ createdAt: 1 })]. *)
Definition project_createdAt (d : obj) : obj :=
  filter (fun kv => String.eqb (fst kv) "_id"
                    || String.eqb (fst kv) "createdAt") d.

Definition bookingChartData (w : world) : list (string * Z) :=
  map (fun p => (name p, bookings p))
      (chart (map project_createdAt (bookingCollection w))).

End Local.

End Chart.

(** ** The outcomes the specification names *)

Definition BadRequest (r : response) : Prop := status r = 400.
Definition NotFound (r : response) : Prop := status r = 404.
Definition Internal (r : response) : Prop := status r = 500.

Definition InvalidAmount (r : response) : Prop :=
  r = {| status := 400; body := message "Invalid booking amount" |}.

(** The three results of the reconciler. *)
Definition AlreadyRecorded (transactionId : value) (payment : obj)
    (r : response) : Prop :=
  r = {| status := 200;
         body := VObject [("message", VStr "already exists");
                          ("transactionId", transactionId);
                          ("payment", VObject payment)] |}.

Definition Confirmed (transactionId paymentId bookingId booking : value)
    (r : response) : Prop :=
  r = {| status := 200;
         body := VObject [("success", VBool true);
                          ("transactionId", transactionId);
                          ("paymentId", paymentId);
                          ("bookingId", bookingId);
                          ("booking", booking)] |}.

Definition NotPaid (r : response) : Prop :=
  r = {| status := 200;
         body := VObject [("success", VBool false);
                          ("message", VStr "Payment not completed")] |}.

(** [bookingId] references an existing booking: the constructor accepts it
    and the collection holds a document with that [_id]. *)
Definition references (eng : Engine) (w : world) (bookingId : value) : Prop :=
  exists hex booking,
    ObjectId_new eng bookingId = inr hex /\
    Mongo.findOne [("_id", VObjectId hex)] (bookingCollection w) = Some booking.

(** The payments recorded for a transaction. *)
Definition payments_for (transactionId : value) (w : world) : nat :=
  Mongo.countDocuments [("transactionId", transactionId)] (paymentCollection w).

(** ** The states the server reaches *)

(** One call of one of the modelled routes. *)
Inductive serves (eng : Engine) (stripe : Stripe.Client)
  : world -> world -> Prop :=
| serves_post_bookings (c : call) (w : world) :
    serves eng stripe w (snd (post_bookings c w))
| serves_post_create_checkout_session (c : call) (w : world) :
    serves eng stripe w (snd (post_create_checkout_session eng stripe c w))
| serves_get_booking_success (c : call) (w : world) :
    serves eng stripe w (snd (get_booking_success eng stripe c w))
| serves_post_users (c : call) (w : world) :
    serves eng stripe w (snd (post_users c w))
| serves_patch_users_profile (c : call) (w : world) :
    serves eng stripe w (snd (patch_users_profile c w)).

(** The worlds reached from one without payments. *)
Inductive reachable (eng : Engine) (stripe : Stripe.Client)
  : world -> Prop :=
| reachable_start (w : world) :
    paymentCollection w = [] -> reachable eng stripe w
| reachable_step (w w' : world) :
    reachable eng stripe w -> serves eng stripe w w' ->
    reachable eng stripe w'.

(** ** A platform to run the model on

    Concrete requests need a concrete platform.  [Node.engine] behaves as
    Node.js with the [bson] package does on the inputs the examples use:
    identifiers of 24 hexadecimal digits, unsigned decimal integers as
    numeric strings, UTC as the local time zone.  The theorems do not depend
    on it. *)

Module Node.

Definition is_hex (a : ascii) : bool :=
  let n := N_of_ascii a in
  ((48 <=? n) && (n <=? 57) || (65 <=? n) && (n <=? 70)
   || (97 <=? n) && (n <=? 102))%N.

Definition lower (a : ascii) : ascii :=
  let n := N_of_ascii a in
  if ((65 <=? n) && (n <=? 90))%N then ascii_of_N (n + 32) else a.

Fixpoint all_hex (s : string) : bool :=
  match s with
  | EmptyString => true
  | String a s' => is_hex a && all_hex s'
  end.

Fixpoint lowercase (s : string) : string :=
  match s with
  | EmptyString => EmptyString
  | String a s' => String (lower a) (lowercase s')
  end.

Definition invalid_id : string :=
  "input must be a 24 character hex string, 12 byte Uint8Array, or an integer".

Definition new_ObjectId (v : value) : string + string :=
  match v with
  | VStr s =>
      if Nat.eqb (String.length s) 24 && all_hex s then inr (lowercase s)
      else inl invalid_id
  | VObjectId hex => inr hex
  | _ => inl invalid_id
  end.

Fixpoint digits (s : string) (acc : Z) : option Z :=
  match s with
  | EmptyString => Some acc
  | String a s' =>
      let n := Z.of_N (N_of_ascii a) in
      if (48 <=? n) && (n <=? 57) then digits s' (10 * acc + (n - 48))
      else None
  end.

Definition parse_number (s : string) : float :=
  match digits s 0 with
  | Some n => if n <? 2 ^ 53 then JS.of_Z n else PrimFloat.nan
  | None => PrimFloat.nan
  end.

Definition to_string (v : value) : string :=
  match v with
  | VStr s => s
  | VObjectId hex => hex
  | VBool b => if b then "true" else "false"
  | VDate t => JSDate.toISOString t
  | _ => "[object Object]"
  end.

Definition engine : Engine :=
  {| StringToNumber := parse_number;
     ObjectToNumber := fun _ => PrimFloat.nan;
     ToString := to_string;
     ObjectId_new := new_ObjectId;
     Date_parse := fun _ => None;
     LocalTZA := fun _ => 0;
     LocalTZA_of_local := fun _ => 0;
     SITE_DOMAIN := "http://localhost:5173" |}.

(** A provider that knows the given sessions and opens a checkout page
    for every request. *)
Definition provider (sessions : list (string * Stripe.Session))
  : Stripe.Client :=
  {| Stripe.sessions_retrieve := fun id =>
       match id with
       | VStr s =>
           match find (fun e => String.eqb (fst e) s) sessions with
           | Some e => inr (snd e)
           | None => inl ("No such checkout.session: " ++ s)%string
           end
       | _ => inl "No such checkout.session"
       end;
     Stripe.sessions_create := fun made _ =>
       inr (VStr ("https://checkout.stripe.com/c/pay/cs_test_"
                  ++ JSDate.decimal (Z.of_nat (List.length made)))) |}.

Definition empty : world :=
  {| bookingCollection := []; paymentCollection := [];
     usersCollection := []; stripe_created := [] |}.

(** A sort that puts dates first, latest first, and leaves documents whose
    key is no date after them in their natural order (a date is above every
    other type in the comparison order of BSON). *)
Definition date_of (key : string) (d : obj) : option Z :=
  match JS.get key d with VDate t => Some t | _ => None end.

Definition not_after (key : string) (a b : obj) : bool :=
  match date_of key a, date_of key b with
  | None, _ => true
  | Some _, None => false
  | Some x, Some y => x <=? y
  end.

Fixpoint insert_desc (key : string) (a : obj) (l : list obj) : list obj :=
  match l with
  | [] => [a]
  | b :: l' =>
      if not_after key b a then a :: b :: l' else b :: insert_desc key a l'
  end.

Definition database : Database :=
  {| sort_desc := fun key l => fold_right (insert_desc key) [] l |}.

(** A verifier that knows the given tokens. *)
Definition firebase (tokens : list (string * string)) : Firebase :=
  {| verifyIdToken := fun t =>
       match t with
       | VStr s =>
           match List.find (fun e => String.eqb (fst e) s) tokens with
           | Some e => inr (VStr (snd e))
           | None => inl "Decoding Firebase ID token failed"
           end
       | _ => inl "First argument to verifyIdToken() must be a Firebase ID token string"
       end |}.

End Node.

(** ** The charge, in the words of the specification

    "Prefer an explicit final price, else an explicit pre-discount total,
    else unit price times guest count, guest count defaulting to 1",
    "converted to integer minor units". *)

Definition spec_guest_count (booking : obj) : value :=
  if JS.truthy (JS.get "guests" booking) then JS.get "guests" booking
  else if JS.truthy (JS.get "numberOfGuests" booking)
       then JS.get "numberOfGuests" booking
       else VNum PrimFloat.one.

Definition spec_price (eng : Engine) (booking : obj) : value :=
  if JS.truthy (JS.get "finalPrice" booking) then JS.get "finalPrice" booking
  else if JS.truthy (JS.get "originalTotal" booking)
       then JS.get "originalTotal" booking
       else times eng (JS.get "pricePerPerson" booking) (spec_guest_count booking).

Definition minor_units (eng : Engine) (price : value) : float :=
  JS.Math_round (PrimFloat.mul (ToNumber eng price) 100%float).

(** "Zero or non-numeric". *)
Definition zero_or_NaN (x : float) : bool := JS.is_zero x || JS.is_nan x.

(** ** Calendar months, for the booking chart *)

(** Months since January of year 0. *)
Definition month_index (k : Chart.key) : Z := 12 * fst k + snd k.

(** The trailing six-month window ending at [t], in local time: the month of
    [t] and the months before it, as far back as six months. *)
Definition in_trailing_window (eng : Engine) (t : Z) (k : Chart.key) : Prop :=
  0 <= snd k <= 11 /\
  month_index (JSDate.getFullYear eng t, JSDate.getMonth eng t) - 6
    <= month_index k
    <= month_index (JSDate.getFullYear eng t, JSDate.getMonth eng t).

(** The label the chart gives a month. *)
Definition label (k : Chart.key) : string :=
  Chart.monthName (snd k) ++ " " ++ Chart.slice_last2 (JSDate.decimal (fst k)).

(** The bookings created in month [k]. *)
Definition in_month (eng : Engine) (k : Chart.key) (b : obj) : bool :=
  match Chart.month_of eng b with
  | Some k' => Chart.key_eqb k' k
  | None => false
  end.

Definition created_in (eng : Engine) (k : Chart.key) (w : world) : Z :=
  Z.of_nat (List.length (filter (in_month eng k) (bookingCollection w))).

(** ** The booking chart, in the words of the specification and of the code *)

(** The day on which the month of index [i] starts. *)
Definition month_day (i : Z) : Z := JSDate.MakeDay (i / 12) (i mod 12).

(** The local time zone is never more than a day away from UTC. *)
Definition zone_bounded (eng : Engine) : Prop :=
  forall t, Z.abs (LocalTZA_of_local eng t) <= JSDate.msPerDay.

(** Every booking with a valid creation date was created, in local time,
    in a year from 100 to 275000: the years that [new Date(year, month, 1)]
    takes as they are and that a time value can hold. *)
Definition years_in_range (eng : Engine) (w : world) : Prop :=
  forall b k, In b (bookingCollection w) -> Chart.month_of eng b = Some k ->
              100 <= fst k <= 275000.

(** Month [k] has at least one booking. *)
Definition booked (eng : Engine) (w : world) (k : Chart.key) : Prop :=
  1 <= created_in eng k w.

(** An insertion sort of entries by the sort key of their points: what
    [Chart.sort] does to the points, seen on the entries. *)
Section SortBy.

Context {A : Type} (f : A -> Chart.point).

Fixpoint insert_by (a : A) (l : list A) : list A :=
  match l with
  | [] => [a]
  | b :: l' =>
      if Chart.compare (f a) (f b) <=? 0 then a :: b :: l'
      else b :: insert_by a l'
  end.

Definition sort_by (l : list A) : list A := fold_right insert_by [] l.

End SortBy.

(** The number an entry list gives a key, zero when it has none. *)
Fixpoint count_of (k : Chart.key) (m : list (Chart.key * Z)) : Z :=
  match m with
  | [] => 0
  | (k', n) :: m' => if Chart.key_eqb k k' then n else count_of k m'
  end.

(** The chart as the specification words it: every entry is a month of the
    trailing window ending at the time [t] of the call, with the number of
    bookings created in it. *)
Definition window_chart (eng : Engine) (w : world) (t : Z) : Prop :=
  forall e, In e (Chart.bookingChartData eng w) ->
    exists k, in_trailing_window eng t k
              /\ fst e = label k
              /\ snd e = created_in eng k w.

(** ** Profile updates *)


(** ** The reconciled world *)

(** The payment document as the driver stores it. *)
Definition stored_payment (c : call) (session : Stripe.Session) : obj :=
  JS.set "_id" (VObjectId (fresh_id c)) (paymentDoc c session).

(** The world after a paid session with a referenced booking has been
    reconciled for the first time. *)
Definition reconciled (c : call) (session : Stripe.Session) (hex : string)
    (booking : obj) (w : world) : world :=
  {| bookingCollection :=
       Mongo.update_first (Mongo.matches [("_id", VObjectId hex)])
         (fun _ => JS.assign booking
            (booking_paid c
               (Stripe.opt_string (Stripe.payment_intent session))))
         (bookingCollection w);
     paymentCollection := paymentCollection w ++ [stored_payment c session];
     usersCollection := usersCollection w;
     stripe_created := stripe_created w |}.

(** ** Sample data *)

Module Sample.

Definition request (body query params : obj) (t : Z) (id : string) : call :=
  {| req_body := body; req_query := query; req_params := params;
     now := t; fresh_id := id |}.

Definition booking_id : string := "65a1b2c3d4e5f60718293a4b".

(** A booking as [POST /bookings] stores it: 50 per person, two guests. *)
Definition booking : obj :=
  [("tourId", VStr "t1"); ("userEmail", VStr "ana@example.com");
   ("travelDate", VStr "2026-12-24");
   ("pricePerPerson", VNum 50%float); ("guests", VNum 2%float);
   ("createdAt", VDate 1700000000000);
   ("status", VStr "pending"); ("paymentStatus", VStr "unpaid");
   ("_id", VObjectId booking_id)].

(** One pending booking, nothing else. *)
Definition pending : world :=
  {| bookingCollection := [booking]; paymentCollection := [];
     usersCollection := []; stripe_created := [] |}.

Definition session (status : string) (intent : option string)
  : Stripe.Session :=
  {| Stripe.payment_intent := intent;
     Stripe.amount_total := Some 10000;
     Stripe.currency := Some "usd";
     Stripe.metadata := Some [("bookingId", booking_id); ("tourId", "t1");
                              ("userEmail", "ana@example.com")];
     Stripe.payment_status := status;
     Stripe.customer_email := Some "ana@example.com" |}.

Definition provider : Stripe.Client :=
  Node.provider [("cs_paid", session "paid" (Some "pi_1"));
                 ("cs_open", session "unpaid" None)].

Definition confirm (id : string) : call :=
  request [] [("session_id", VStr id)] [] 1700000600000
          "65a1b2c3d4e5f60718293a4c".

Definition initiate (id : value) : call :=
  request [("bookingId", id)] [] [] 1700000300000 "".




(** An administrator, and the store that holds only her. *)
Definition admin : obj :=
  [("_id", VObjectId "65a1b2c3d4e5f60718293a01");
   ("email", VStr "ana@example.com"); ("name", VStr "Ana");
   ("role", VStr "admin"); ("updatedAt", VDate 1690000000000)].




(** Bookings created, in this order, in August 2026, March 2025, January
    2026, September 2026, February 2026, March 2025, April 2026, June 2026
    and May 2026; the last of them has no creation date. *)
Definition created (t : Z) : obj :=
  [("tourId", VStr "t1"); ("createdAt", VDate t); ("status", VStr "pending")].

Definition history : world :=
  {| bookingCollection :=
       [created 1785758400000; created 1741608000000; created 1768478400000;
        created 1788264000000; created 1771588800000; created 1743163200000;
        created 1775390400000; created 1782820800000; created 1779019200000;
        [("tourId", VStr "t2")]];
     paymentCollection := []; usersCollection := []; stripe_created := [] |}.

(** Noon of 2 November 2026, UTC. *)
Definition november_2026 : Z := 1793620800000.

End Sample.

(** ** What the routes store *)

(** The booking as [POST /bookings] stores it. *)
Definition stored_booking (c : call) : obj :=
  let booking := JS.set "createdAt" (VDate (now c)) (req_body c) in
  let booking :=
    JS.set "status" (JS.get "status" booking ||| VStr "pending") booking in
  let booking :=
    JS.set "paymentStatus"
      (JS.get "paymentStatus" booking ||| VStr "unpaid") booking in
  JS.set "_id" (VObjectId (fresh_id c)) booking.

(** The worlds that differ from [w] in one collection. *)
Definition with_bookings (c : Mongo.collection) (w : world) : world :=
  {| bookingCollection := c;
     paymentCollection := paymentCollection w;
     usersCollection := usersCollection w;
     stripe_created := stripe_created w |}.

Definition with_payments (c : Mongo.collection) (w : world) : world :=
  {| bookingCollection := bookingCollection w;
     paymentCollection := c;
     usersCollection := usersCollection w;
     stripe_created := stripe_created w |}.

Definition with_users (c : Mongo.collection) (w : world) : world :=
  {| bookingCollection := bookingCollection w;
     paymentCollection := paymentCollection w;
     usersCollection := c;
     stripe_created := stripe_created w |}.

Definition with_created (l : list Stripe.Params) (w : world) : world :=
  {| bookingCollection := bookingCollection w;
     paymentCollection := paymentCollection w;
     usersCollection := usersCollection w;
     stripe_created := l |}.





(** A request for the booking or the user of a given identifier. *)
Definition names_id (c : call) (id : string) : Prop :=
  JS.get "id" (req_params c) = VStr id.

(** A parameter of a query string that is absent or a string. *)
Definition plain_param (v : value) : Prop :=
  match v with
  | VUndefined | VStr _ => True
  | _ => False
  end.

(** The bookings [GET /bookings] is asked for: each filter that is given
    (and not empty) has to match. *)
Definition wanted (c : call) (d : obj) : bool :=
  let given (param field : string) :=
    negb (JS.truthy (JS.get param (req_query c)))
    || Mongo.match_field (JS.lookup field d) (JS.get param (req_query c)) in
  given "email" "userEmail" && given "status" "status"
  && given "userId" "userId".

(** The sort of the database returns the documents it was given. *)
Definition sort_permutes (db : Database) : Prop :=
  forall key l, Permutation l (sort_desc db key l).

(** What the reconciler may do to a stored booking: nothing but set the four
    fields of its update. *)
Definition booking_frame (d d' : obj) : Prop :=
  forall k, k <> "paymentStatus" -> k <> "status" -> k <> "transactionId" ->
            k <> "updatedAt" -> JS.lookup k d' = JS.lookup k d.

(** A string without a space. *)
Fixpoint no_space (s : string) : bool :=
  match s with
  | EmptyString => true
  | String a s' => negb (Ascii.eqb a " ") && no_space s'
  end.

(** The users [GET /users] is asked for. *)
Definition of_role (c : call) (d : obj) : bool :=
  negb (JS.truthy (JS.get "role" (req_query c)))
  || Mongo.match_field (JS.lookup "role" d) (JS.get "role" (req_query c)).

(** ** Every route *)

(** One call of any route that reads or writes a collection. *)
Inductive handles (eng : Engine) (db : Database) (firebase : Firebase)
    (stripe : Stripe.Client) : world -> world -> Prop :=
| handles_served (w w' : world) :
    serves eng stripe w w' -> handles eng db firebase stripe w w'
| handles_get_bookings (c : call) (w : world) :
    handles eng db firebase stripe w (snd (get_bookings db c w))
| handles_get_bookings_id (c : call) (w : world) :
    handles eng db firebase stripe w (snd (get_bookings_id eng c w))
| handles_patch_bookings_id (c : call) (w : world) :
    handles eng db firebase stripe w (snd (patch_bookings_id eng c w))
| handles_delete_bookings_id (c : call) (w : world) :
    handles eng db firebase stripe w (snd (delete_bookings_id eng c w))
| handles_get_users (authorization : option string) (c : call) (w : world) :
    handles eng db firebase stripe w
      (snd (get_users db firebase authorization c w))
| handles_get_users_profile (c : call) (w : world) :
    handles eng db firebase stripe w (snd (get_users_profile c w))
| handles_get_users_role (c : call) (w : world) :
    handles eng db firebase stripe w (snd (get_users_role c w))
| handles_patch_users_role (c : call) (w : world) :
    handles eng db firebase stripe w (snd (patch_users_role eng c w))
| handles_delete_users_id (c : call) (w : world) :
    handles eng db firebase stripe w (snd (delete_users_id eng c w)).

(** The worlds the server arrives at from one without payments. *)
Inductive arrives (eng : Engine) (db : Database) (firebase : Firebase)
    (stripe : Stripe.Client) : world -> Prop :=
| arrives_start (w : world) :
    paymentCollection w = [] -> arrives eng db firebase stripe w
| arrives_step (w w' : world) :
    arrives eng db firebase stripe w ->
    handles eng db firebase stripe w w' ->
    arrives eng db firebase stripe w'.

(** ** [GET /dashboard-stats]: the counts *)

Module Stats.

(** [countDocuments()] and [countDocuments({ status })]. *)
Definition totalBookings (w : world) : nat :=
  Mongo.countDocuments [] (bookingCollection w).

Definition confirmed (w : world) : nat :=
  Mongo.countDocuments [("status", VStr "confirmed")] (bookingCollection w).

Definition pending (w : world) : nat :=
  Mongo.countDocuments [("status", VStr "pending")] (bookingCollection w).

Definition cancelled (w : world) : nat :=
  Mongo.countDocuments [("status", VStr "cancelled")] (bookingCollection w).

Definition totalUsers (w : world) : nat :=
  Mongo.countDocuments [] (usersCollection w).

End Stats.

(** A booking the chart counts: its [createdAt] makes a valid date. *)
Definition dated (eng : Engine) (b : obj) : bool :=
  match JSDate.Date_new eng (JS.get "createdAt" b) with
  | Some _ => true
  | None => false
  end.

(** The months of the bookings that have one, in the order of the
    bookings. *)
Definition months_of (eng : Engine) (bs : list obj) : list Chart.key :=
  flat_map (fun b => match Chart.month_of eng b with
                     | Some k => [k]
                     | None => []
                     end) bs.

(** ** More sample data *)

Module Scenario.

(** A second guest books a tour and names no status. *)
Definition book : call :=
  Sample.request
    [("tourId", VStr "t2"); ("userEmail", VStr "bob@example.com");
     ("travelDate", VStr "2027-01-05"); ("pricePerPerson", VNum 120%float)]
    [] [] 1700001000000 "65a1b2c3d4e5f60718293a5a".

(** A request that names a booking or a user in its path. *)
Definition by_id (id : string) (body : obj) : call :=
  Sample.request body [] [("id", VStr id)] 1700002000000 "".

Definition by_email (email : string) (body : obj) : call :=
  Sample.request body [] [("email", VStr email)] 1700003000000
    "65a1b2c3d4e5f60718293a03".

Definition listing (query : obj) : call :=
  Sample.request [] query [] 1700004000000 "".

(** The pending booking of the samples and a cancelled one of another
    guest. *)
Definition cancelled : obj :=
  [("tourId", VStr "t2"); ("userEmail", VStr "bob@example.com");
   ("travelDate", VStr "2027-01-05");
   ("createdAt", VDate 1700000500000);
   ("status", VStr "cancelled"); ("paymentStatus", VStr "unpaid");
   ("_id", VObjectId "65a1b2c3d4e5f60718293a4e")].

Definition two_bookings : world :=
  {| bookingCollection := [Sample.booking; cancelled];
     paymentCollection := []; usersCollection := []; stripe_created := [] |}.

(** Paid sessions whose metadata names no booking, a booking that does not
    exist, and something that is no identifier. *)
Definition paid (intent : string) (metadata : list (string * string))
  : Stripe.Session :=
  {| Stripe.payment_intent := Some intent;
     Stripe.amount_total := Some 10000;
     Stripe.currency := Some "usd";
     Stripe.metadata := Some metadata;
     Stripe.payment_status := "paid";
     Stripe.customer_email := Some "ana@example.com" |}.

Definition provider : Stripe.Client :=
  Node.provider
    [("cs_paid", Sample.session "paid" (Some "pi_1"));
     ("cs_gift", paid "pi_2" [("tourId", "t1")]);
     ("cs_lost", paid "pi_3" [("bookingId", "65a1b2c3d4e5f60718293aff")]);
     ("cs_bad", paid "pi_4" [("bookingId", "booking-17")])].

(** The administrator of the samples and an ordinary user. *)
Definition member : obj :=
  [("_id", VObjectId "65a1b2c3d4e5f60718293a04");
   ("email", VStr "bob@example.com"); ("name", VStr "Bob");
   ("role", VStr "user"); ("updatedAt", VDate 1695000000000)].

Definition members : world :=
  {| bookingCollection := []; paymentCollection := [];
     usersCollection := [Sample.admin; member]; stripe_created := [] |}.


(** The tokens the verifier knows. *)
Definition firebase : Firebase :=
  Node.firebase [("tok_ana", "ana@example.com"); ("tok_bob", "bob@example.com")].

End Scenario.

(** * Properties *)

(** ** Objects *)

Lemma get_absent (k : string) (o : obj) :
  JS.lookup k o = None -> JS.get k o = VUndefined.
Proof. unfold JS.get. intros ->. reflexivity. Qed.


Lemma lookup_set_same (k : string) (v : value) (o : obj) :
  JS.lookup k (JS.set k v o) = Some v.
Proof.
  induction o as [|[k' v'] o IH]; simpl.
  - now rewrite String.eqb_refl.
  - destruct (String.eqb k k') eqn:E; simpl; rewrite E; auto.
Qed.

Lemma lookup_set_other (k k' : string) (v : value) (o : obj) :
  k <> k' -> JS.lookup k (JS.set k' v o) = JS.lookup k o.
Proof.
  intros Hk. apply String.eqb_neq in Hk.
  induction o as [|[k0 v0] o IH]; simpl.
  - now rewrite Hk.
  - destruct (String.eqb k' k0) eqn:E; simpl.
    + apply String.eqb_eq in E. subst k0. now rewrite Hk.
    + now rewrite IH.
Qed.

Lemma lookup_set (k k' : string) (v : value) (o : obj) :
  JS.lookup k (JS.set k' v o)
  = if String.eqb k k' then Some v else JS.lookup k o.
Proof.
  destruct (String.eqb k k') eqn:E.
  - apply String.eqb_eq in E. subst. apply lookup_set_same.
  - apply String.eqb_neq in E. now apply lookup_set_other.
Qed.


(** After [{...a, ...b}] a property has the value [b] gives it, when [b]
    has the property, and the value it had in [a] otherwise. *)
Lemma lookup_assign (k : string) (a b : obj) :
  JS.lookup k (JS.assign a b)
  = match JS.lookup k (rev b) with
    | Some v => Some v
    | None => JS.lookup k a
    end.
Proof.
  unfold JS.assign. revert a.
  induction b as [|[k' v'] b IH]; intros a; simpl; auto.
  rewrite IH. clear IH.
  assert (Happ : forall x y, JS.lookup k (x ++ y)%list
            = match JS.lookup k x with
              | Some v => Some v
              | None => JS.lookup k y
              end).
  { induction x as [|[k0 v0] x IHx]; intros y; simpl; auto.
    destruct (String.eqb k k0); auto. }
  rewrite Happ. destruct (JS.lookup k (rev b)); auto.
  simpl. rewrite lookup_set. destruct (String.eqb k k'); auto.
Qed.


(** ** The handler monad *)

Ltac handler :=
  unfold ObjectId;
  unfold route, bind, send, try, ret, bookings, payments, users,
    put_bookings, put_payments, put_users, create_session.

(** One step of the handler: the reductions that a rewrite has enabled. *)
Ltac step := cbv beta iota zeta; cbn [negb].

(** ** Numbers *)





(** ** Booking creation *)

Section CreateBooking.

(** C5.  A booking-creation request that lacks [tourId], [userEmail] or
    [travelDate] is answered with 400 (BadRequest) and leaves the world,
    and so the booking collection, as it was. *)
Theorem post_bookings_missing_field (c : call) (w : world) :
  JS.lookup "tourId" (req_body c) = None
  \/ JS.lookup "userEmail" (req_body c) = None
  \/ JS.lookup "travelDate" (req_body c) = None ->
  BadRequest (fst (post_bookings c w)) /\ snd (post_bookings c w) = w.
Proof.
  intros H. unfold post_bookings. handler.
  assert (Hcond : negb (JS.truthy (JS.get "tourId" (req_body c)))
                  || negb (JS.truthy (JS.get "userEmail" (req_body c)))
                  || negb (JS.truthy (JS.get "travelDate" (req_body c)))
                  = true).
  { destruct H as [H | [H | H]]; rewrite (get_absent _ _ H); simpl;
      rewrite ?orb_true_r; reflexivity. }
  rewrite Hcond. split; reflexivity.
Qed.

End CreateBooking.

Lemma post_bookings_missing_field_witness :
  let c := Sample.request [("tourId", VStr "t1"); ("travelDate", VStr "2026-12-24")]
             [] [] 1700000000000 "65a1b2c3d4e5f60718293a4d" in
  JS.lookup "userEmail" (req_body c) = None
  /\ BadRequest (fst (post_bookings c Sample.pending))
  /\ snd (post_bookings c Sample.pending) = Sample.pending.
Proof.
  split; [reflexivity|].
  apply post_bookings_missing_field. right; left; reflexivity.
Defined.

(** ** The checkout initiator *)

Section Initiate.

Context (eng : Engine) (stripe : Stripe.Client).

(** What the handler does once the booking has been found. *)
Lemma initiate_found (c : call) (w : world) (hex : string) (booking : obj) :
  JS.truthy (JS.get "bookingId" (req_body c)) = true ->
  ObjectId_new eng (JS.get "bookingId" (req_body c)) = inr hex ->
  Mongo.findOne [("_id", VObjectId hex)] (bookingCollection w) = Some booking ->
  post_create_checkout_session eng stripe c w
  = if JS.truthy (amount eng booking) then
      route (failure "Failed to create checkout session")
        (url <- create_session stripe (checkout_params eng booking) ;;
         send 200 (VObject [("url", url)])) w
    else ({| status := 400; body := message "Invalid booking amount" |}, w).
Proof.
  intros Ht Hid Hfind. unfold post_create_checkout_session. handler.
  rewrite Ht, Hid. simpl. rewrite Hfind.
  destruct (JS.truthy (amount eng booking)); reflexivity.
Qed.

Lemma amount_spec (booking : obj) :
  amount eng booking
  = VNum (minor_units eng (spec_price eng booking)) ||| VNum PrimFloat.zero.
Proof.
  unfold amount, minor_units, spec_price, spec_guest_count, JS.or.
  destruct (JS.truthy (JS.get "finalPrice" booking)) eqn:Ef; rewrite ?Ef.
  - reflexivity.
  - destruct (JS.truthy (JS.get "originalTotal" booking)) eqn:Eo; rewrite ?Eo.
    + reflexivity.
    + destruct (JS.truthy (JS.get "guests" booking)) eqn:Eg; rewrite ?Eg.
      * reflexivity.
      * destruct (JS.truthy (JS.get "numberOfGuests" booking)) eqn:En;
          rewrite ?En; reflexivity.
Qed.


Lemma amount_truthy (booking : obj) :
  zero_or_NaN (minor_units eng (spec_price eng booking)) = false ->
  amount eng booking = VNum (minor_units eng (spec_price eng booking))
  /\ JS.truthy (amount eng booking) = true.
Proof.
  intros H. rewrite amount_spec. unfold JS.or. simpl. unfold zero_or_NaN in H.
  rewrite H. simpl. rewrite H. auto.
Qed.

(** The provider is called once, with the given parameters, and the
    collections are not touched. *)
Lemma create_session_effect (p : Stripe.Params) (w : world) :
  let out := route (failure "Failed to create checkout session")
               (url <- create_session stripe p ;;
                send 200 (VObject [("url", url)])) w in
  stripe_created (snd out) = (stripe_created w ++ [p])%list
  /\ bookingCollection (snd out) = bookingCollection w
  /\ paymentCollection (snd out) = paymentCollection w
  /\ usersCollection (snd out) = usersCollection w
  /\ (status (fst out) = 200 \/ status (fst out) = 500).
Proof.
  handler. destruct (Stripe.sessions_create stripe (stripe_created w) p);
    simpl; auto 6.
Qed.

(** A charge that is neither zero nor NaN is sent to the provider. *)
Lemma initiate_charged (c : call) (w : world) (hex : string) (booking : obj) :
  JS.truthy (JS.get "bookingId" (req_body c)) = true ->
  ObjectId_new eng (JS.get "bookingId" (req_body c)) = inr hex ->
  Mongo.findOne [("_id", VObjectId hex)] (bookingCollection w) = Some booking ->
  let cents := minor_units eng (spec_price eng booking) in
  let out := post_create_checkout_session eng stripe c w in
  zero_or_NaN cents = false ->
  Stripe.unit_amount (checkout_params eng booking) = VNum cents
  /\ stripe_created (snd out)
     = (stripe_created w ++ [checkout_params eng booking])%list
  /\ bookingCollection (snd out) = bookingCollection w
  /\ ~ InvalidAmount (fst out).
Proof.
  intros Ht Hid Hfind cents out Hz.
  assert (Hout := initiate_found c w hex booking Ht Hid Hfind).
  fold out in Hout.
  destruct (amount_truthy booking Hz) as [Ha Hta].
  rewrite Hta in Hout.
  destruct (create_session_effect (checkout_params eng booking) w)
    as (Hs & Hb & _ & _ & Hst).
  rewrite <- Hout in Hs, Hb, Hst.
  repeat split; auto.
  unfold InvalidAmount. intros E. rewrite E in Hst. simpl in Hst.
  destruct Hst; discriminate.
Qed.


End Initiate.


Section InitiateFallthrough.

Context (eng : Engine) (stripe : Stripe.Client).


End InitiateFallthrough.



Section InitiateUnknown.

Context (eng : Engine) (stripe : Stripe.Client).

(** C6, amended.  For a [bookingId] that references no existing booking the
    call leaves the world unchanged (no provider call, no write to any
    collection).  It fails with NotFound when the identifier is well formed;
    a missing identifier is a BadRequest and one the [ObjectId] constructor
    rejects is an internal error. *)
Theorem initiate_unknown_booking (c : call) (w : world) :
  let bookingId := JS.get "bookingId" (req_body c) in
  let out := post_create_checkout_session eng stripe c w in
  ~ references eng w bookingId ->
  snd out = w
  /\ (JS.truthy bookingId = true ->
      (exists hex, ObjectId_new eng bookingId = inr hex) ->
      NotFound (fst out))
  /\ (JS.truthy bookingId = false -> BadRequest (fst out))
  /\ (JS.truthy bookingId = true ->
      (exists e, ObjectId_new eng bookingId = inl e) ->
      Internal (fst out)).
Proof.
  intros bookingId out Href. subst out.
  unfold post_create_checkout_session. handler. fold bookingId.
  destruct (JS.truthy bookingId) eqn:Ht; simpl.
  - destruct (ObjectId_new eng bookingId) as [e | hex] eqn:Hid; simpl.
    + repeat split; try discriminate; auto.
      intros _ [hex Hhex]. discriminate.
    + destruct (Mongo.findOne [("_id", VObjectId hex)] (bookingCollection w))
        as [booking|] eqn:Hfind.
      * exfalso. apply Href. exists hex, booking. auto.
      * repeat split; try discriminate; auto.
        intros _ [e He]. discriminate.
  - repeat split; try discriminate; auto.
Qed.

End InitiateUnknown.

Lemma initiate_unknown_booking_witness :
  let c := Sample.initiate (VStr "65a1b2c3d4e5f60718293aff") in
  let out := post_create_checkout_session Node.engine Sample.provider c
               Sample.pending in
  ~ references Node.engine Sample.pending (VStr "65a1b2c3d4e5f60718293aff")
  /\ snd out = Sample.pending /\ NotFound (fst out).
Proof.
  assert (H : ~ references Node.engine Sample.pending
                  (VStr "65a1b2c3d4e5f60718293aff")).
  { intros (hex & b & Hid & Hfind). vm_compute in Hid.
    injection Hid as <-. vm_compute in Hfind. discriminate. }
  split; [exact H|].
  destruct (initiate_unknown_booking Node.engine Sample.provider
              (Sample.initiate (VStr "65a1b2c3d4e5f60718293aff"))
              Sample.pending H) as (Hw & Hnf & _).
  split; [exact Hw|]. apply Hnf; [reflexivity|].
  exists "65a1b2c3d4e5f60718293aff". reflexivity.
Defined.

(** C6 as stated fails: ["abc"] references no booking, and the call is
    answered with 500, not with 404. *)
Lemma initiate_unknown_booking_counterexample :
  let c := Sample.initiate (VStr "abc") in
  let out := post_create_checkout_session Node.engine Sample.provider c
               Sample.pending in
  ~ references Node.engine Sample.pending (JS.get "bookingId" (req_body c))
  /\ Internal (fst out) /\ ~ NotFound (fst out).
Proof.
  split; [|split].
  - intros (hex & b & Hid & _). vm_compute in Hid. discriminate.
  - reflexivity.
  - vm_compute. discriminate.
Qed.

(** ** The payment reconciler *)

Section Confirm.

Context (eng : Engine) (stripe : Stripe.Client).

(** The handler when the payment is on record already. *)
Lemma confirm_existing (c : call) (w : world) (session : Stripe.Session)
    (existing : obj) :
  JS.truthy (JS.get "session_id" (req_query c)) = true ->
  Stripe.sessions_retrieve stripe (JS.get "session_id" (req_query c))
    = inr session ->
  let transactionId := Stripe.opt_string (Stripe.payment_intent session) in
  Mongo.findOne [("transactionId", transactionId)] (paymentCollection w)
    = Some existing ->
  get_booking_success eng stripe c w
  = ({| status := 200;
        body := VObject [("message", VStr "already exists");
                         ("transactionId", transactionId);
                         ("payment", VObject existing)] |}, w).
Proof.
  intros Ht Hs tx Hfind. unfold get_booking_success. handler.
  rewrite Ht, Hs. step. unfold tx in Hfind. now rewrite Hfind.
Qed.

(** The handler when there is no record and the session is not paid. *)
Lemma confirm_unpaid (c : call) (w : world) (session : Stripe.Session) :
  JS.truthy (JS.get "session_id" (req_query c)) = true ->
  Stripe.sessions_retrieve stripe (JS.get "session_id" (req_query c))
    = inr session ->
  Mongo.findOne
    [("transactionId", Stripe.opt_string (Stripe.payment_intent session))]
    (paymentCollection w) = None ->
  String.eqb (Stripe.payment_status session) "paid" = false ->
  get_booking_success eng stripe c w
  = ({| status := 200;
        body := VObject [("success", VBool false);
                         ("message", VStr "Payment not completed")] |}, w).
Proof.
  intros Ht Hs Hfind Hp. unfold get_booking_success. handler.
  rewrite Ht, Hs. step. now rewrite Hfind, Hp.
Qed.

(** C3.  For a session whose status is not "paid" and whose transaction has
    no payment record, the reconciler answers NotPaid and leaves the world
    unchanged: no payment or booking is created or changed. *)
Theorem confirm_not_paid (c : call) (w : world) (session : Stripe.Session) :
  JS.truthy (JS.get "session_id" (req_query c)) = true ->
  Stripe.sessions_retrieve stripe (JS.get "session_id" (req_query c))
    = inr session ->
  Stripe.payment_status session <> "paid" ->
  Mongo.findOne
    [("transactionId", Stripe.opt_string (Stripe.payment_intent session))]
    (paymentCollection w) = None ->
  NotPaid (fst (get_booking_success eng stripe c w))
  /\ snd (get_booking_success eng stripe c w) = w.
Proof.
  intros Ht Hs Hp Hnone. apply String.eqb_neq in Hp.
  rewrite (confirm_unpaid c w session Ht Hs Hnone Hp). split; reflexivity.
Qed.

End Confirm.

Lemma confirm_not_paid_witness :
  let out := get_booking_success Node.engine Sample.provider
               (Sample.confirm "cs_open") Sample.pending in
  NotPaid (fst out) /\ snd out = Sample.pending.
Proof.
  apply (confirm_not_paid Node.engine Sample.provider
           (Sample.confirm "cs_open") Sample.pending
           (Sample.session "unpaid" None)); try reflexivity.
  vm_compute. discriminate.
Defined.

(** ** Collections *)

Lemma findOne_some (q : obj) (c : Mongo.collection) (d : obj) :
  Mongo.findOne q c = Some d -> In d c /\ Mongo.matches q d = true.
Proof. unfold Mongo.findOne. apply find_some. Qed.

Lemma count_none (q : obj) (c : Mongo.collection) :
  Mongo.findOne q c = None -> Mongo.countDocuments q c = 0%nat.
Proof.
  unfold Mongo.findOne, Mongo.countDocuments.
  induction c as [|d c IH]; simpl; auto.
  destruct (Mongo.matches q d); [discriminate | auto].
Qed.

Lemma count_some (q : obj) (c : Mongo.collection) (d : obj) :
  Mongo.findOne q c = Some d -> (1 <= Mongo.countDocuments q c)%nat.
Proof.
  unfold Mongo.findOne, Mongo.countDocuments.
  induction c as [|d' c IH]; simpl; [discriminate|].
  destruct (Mongo.matches q d'); simpl; [lia | auto].
Qed.

Lemma count_app (q : obj) (c c' : Mongo.collection) :
  Mongo.countDocuments q (c ++ c')
  = (Mongo.countDocuments q c + Mongo.countDocuments q c')%nat.
Proof.
  unfold Mongo.countDocuments. now rewrite filter_app, length_app.
Qed.

Lemma findOne_app (q : obj) (c c' : Mongo.collection) :
  Mongo.findOne q (c ++ c')
  = match Mongo.findOne q c with
    | Some d => Some d
    | None => Mongo.findOne q c'
    end.
Proof.
  unfold Mongo.findOne. induction c as [|d c IH]; simpl; auto.
  destruct (Mongo.matches q d); auto.
Qed.

Lemma findOne_update_first (q : obj) (c : Mongo.collection) (d d' : obj) :
  Mongo.findOne q c = Some d ->
  Mongo.matches q d' = true ->
  Mongo.findOne q (Mongo.update_first (Mongo.matches q) (fun _ => d') c)
  = Some d'.
Proof.
  unfold Mongo.findOne. intros Hf Hm.
  induction c as [|x c IH]; simpl in *; [discriminate|].
  destruct (Mongo.matches q x) eqn:E; simpl.
  - now rewrite Hm.
  - rewrite E. auto.
Qed.

Lemma single_match (q d : obj) :
  Mongo.matches q d = true ->
  Mongo.findOne q [d] = Some d /\ Mongo.countDocuments q [d] = 1%nat.
Proof.
  intros H. unfold Mongo.findOne, Mongo.countDocuments. simpl.
  rewrite H. auto.
Qed.

(** A transaction identifier, a string or [null], matches itself. *)
Lemma match_transaction (o : option string) :
  Mongo.match_field (Some (Stripe.opt_string o)) (Stripe.opt_string o) = true.
Proof.
  destruct o as [s|]; simpl; auto. apply String.eqb_refl.
Qed.

Section ConfirmPaid.

Context (eng : Engine) (stripe : Stripe.Client).

Lemma insert_payment (c : call) (session : Stripe.Session)
    (pays : Mongo.collection) :
  Mongo.has_id (VObjectId (fresh_id c)) pays = false ->
  Mongo.insertOne (fresh_id c) (paymentDoc c session) pays
  = inr (VObjectId (fresh_id c), pays ++ [stored_payment c session]).
Proof.
  intros Hfresh. unfold Mongo.insertOne, stored_payment.
  change (JS.get "_id" (paymentDoc c session)) with VUndefined.
  cbv beta iota zeta.
  change (JS.get "_id" (JS.set "_id" (VObjectId (fresh_id c))
                          (paymentDoc c session)))
    with (VObjectId (fresh_id c)).
  now rewrite Hfresh.
Qed.

Lemma stored_payment_matches (c : call) (session : Stripe.Session) :
  Mongo.matches
    [("transactionId", Stripe.opt_string (Stripe.payment_intent session))]
    (stored_payment c session) = true.
Proof.
  unfold Mongo.matches, stored_payment. simpl forallb.
  change (JS.lookup "transactionId"
            (JS.set "_id" (VObjectId (fresh_id c)) (paymentDoc c session)))
    with (Some (Stripe.opt_string (Stripe.payment_intent session))).
  now rewrite match_transaction.
Qed.

(** The booking update touches neither [_id] nor anything but its four
    fields. *)
Lemma booking_paid_lookup (c : call) (tx : value) (b : obj) (k : string) :
  JS.lookup k (JS.assign b (booking_paid c tx))
  = if String.eqb k "updatedAt"
    then Some (VStr (JSDate.toISOString (now c)))
    else if String.eqb k "transactionId" then Some tx
    else if String.eqb k "status" then Some (VStr "confirmed")
    else if String.eqb k "paymentStatus" then Some (VStr "paid")
    else JS.lookup k b.
Proof.
  rewrite lookup_assign. unfold booking_paid. simpl rev. simpl JS.lookup.
  destruct (String.eqb k "updatedAt"); auto.
  destruct (String.eqb k "transactionId"); auto.
  destruct (String.eqb k "status"); auto.
  destruct (String.eqb k "paymentStatus"); auto.
Qed.

Lemma booking_paid_keeps_id (c : call) (tx : value) (b : obj) :
  Mongo.changes_id (booking_paid c tx) b = false.
Proof. reflexivity. Qed.

(** C2.  For a paid session whose metadata names an existing booking and
    whose transaction has no payment record, the reconciler appends a new
    payment document, sets the booking's [paymentStatus] to "paid", its
    [status] to "confirmed" and its [transactionId] to the session's,
    leaves the booking's other fields (but [updatedAt]) as they were, and
    answers Confirmed with the updated booking and the new payment id. *)
Theorem confirm_paid_booking (c : call) (w : world) (session : Stripe.Session)
    (bid hex : string) (booking : obj) :
  JS.truthy (JS.get "session_id" (req_query c)) = true ->
  Stripe.sessions_retrieve stripe (JS.get "session_id" (req_query c))
    = inr session ->
  Stripe.payment_status session = "paid" ->
  JS.get "bookingId" (Stripe.meta session) = VStr bid ->
  bid <> "" ->
  ObjectId_new eng (VStr bid) = inr hex ->
  Mongo.findOne [("_id", VObjectId hex)] (bookingCollection w) = Some booking ->
  Mongo.findOne
    [("transactionId", Stripe.opt_string (Stripe.payment_intent session))]
    (paymentCollection w) = None ->
  Mongo.has_id (VObjectId (fresh_id c)) (paymentCollection w) = false ->
  let transactionId := Stripe.opt_string (Stripe.payment_intent session) in
  let out := get_booking_success eng stripe c w in
  exists booking',
    snd out = reconciled c session hex booking w
    /\ paymentCollection (snd out)
       = paymentCollection w ++ [stored_payment c session]
    /\ JS.get "transactionId" (stored_payment c session) = transactionId
    /\ Mongo.findOne [("_id", VObjectId hex)] (bookingCollection (snd out))
       = Some booking'
    /\ JS.get "paymentStatus" booking' = VStr "paid"
    /\ JS.get "status" booking' = VStr "confirmed"
    /\ JS.get "transactionId" booking' = transactionId
    /\ (forall k, k <> "paymentStatus" -> k <> "status" ->
                  k <> "transactionId" -> k <> "updatedAt" ->
                  JS.lookup k booking' = JS.lookup k booking)
    /\ Confirmed transactionId (VObjectId (fresh_id c)) (VStr bid)
         (VObject booking') (fst out).
Proof.
  intros Ht Hs Hpaid Hbid Hne Hid Hfind Hnone Hfresh tx out.
  set (booking' := JS.assign booking (booking_paid c tx)).
  assert (Hm : Mongo.matches [("_id", VObjectId hex)] booking' = true).
  { destruct (findOne_some _ _ _ Hfind) as [_ Hm].
    unfold Mongo.matches in *. cbn [forallb fst snd] in *. unfold booking'.
    rewrite booking_paid_lookup. exact Hm. }
  assert (Hfind' : Mongo.findOne [("_id", VObjectId hex)]
            (Mongo.update_first (Mongo.matches [("_id", VObjectId hex)])
               (fun _ => booking') (bookingCollection w)) = Some booking').
  { now apply findOne_update_first with (d := booking). }
  assert (Hout : out = ({| status := 200;
                           body := VObject [("success", VBool true);
                                            ("transactionId", tx);
                                            ("paymentId", VObjectId (fresh_id c));
                                            ("bookingId", VStr bid);
                                            ("booking", VObject booking')] |},
                        reconciled c session hex booking w)).
  { assert (Htruthy : JS.truthy (VStr bid) = true).
    { simpl. apply String.eqb_neq in Hne. now rewrite Hne. }
    assert (Hpaid' : String.eqb (Stripe.payment_status session) "paid" = true).
    { now rewrite Hpaid. }
    subst out. unfold get_booking_success. handler.
    rewrite Ht, Hs. step. rewrite Hnone, Hpaid'. step.
    rewrite (insert_payment c session _ Hfresh). step.
    rewrite Hbid, Htruthy, Hid. step.
    unfold Mongo.updateOne. cbn [bookingCollection]. rewrite Hfind.
    rewrite booking_paid_keeps_id.
    step. cbn [fst snd bookingCollection]. fold tx. fold booking'.
    rewrite Hfind'. reflexivity. }
  assert (Hfields : JS.get "paymentStatus" booking' = VStr "paid"
                    /\ JS.get "status" booking' = VStr "confirmed"
                    /\ JS.get "transactionId" booking' = tx).
  { unfold JS.get, booking'. rewrite !booking_paid_lookup. auto. }
  assert (Hframe : forall k, k <> "paymentStatus" -> k <> "status" ->
                     k <> "transactionId" -> k <> "updatedAt" ->
                     JS.lookup k booking' = JS.lookup k booking).
  { intros k H1 H2 H3 H4. unfold booking'. rewrite booking_paid_lookup.
    apply String.eqb_neq in H1, H2, H3, H4. now rewrite H1, H2, H3, H4. }
  exists booking'. rewrite Hout. cbn [fst snd].
  destruct Hfields as (F1 & F2 & F3).
  split; [reflexivity|]. split; [reflexivity|]. split; [reflexivity|].
  split; [exact Hfind'|].
  split; [exact F1|]. split; [exact F2|]. split; [exact F3|].
  split; [exact Hframe | reflexivity].
Qed.

End ConfirmPaid.

Lemma confirm_paid_booking_witness :
  let c := Sample.confirm "cs_paid" in
  let out := get_booking_success Node.engine Sample.provider c
               Sample.pending in
  exists booking',
    snd out = reconciled c (Sample.session "paid" (Some "pi_1"))
                Sample.booking_id Sample.booking Sample.pending
    /\ Mongo.findOne [("_id", VObjectId Sample.booking_id)]
         (bookingCollection (snd out)) = Some booking'
    /\ JS.get "paymentStatus" booking' = VStr "paid"
    /\ JS.get "status" booking' = VStr "confirmed"
    /\ JS.get "transactionId" booking' = VStr "pi_1".
Proof.
  destruct (confirm_paid_booking Node.engine Sample.provider
              (Sample.confirm "cs_paid") Sample.pending
              (Sample.session "paid" (Some "pi_1"))
              Sample.booking_id Sample.booking_id Sample.booking)
    as (b & H1 & _ & _ & H4 & H5 & H6 & H7 & _); try reflexivity.
  - discriminate.
  - exists b. auto.
Defined.

Section ConfirmTwice.

Context (eng : Engine) (stripe : Stripe.Client).

(** The first reconciliation of a paid session records the payment, whether
    or not the booking update that follows succeeds. *)
Lemma confirm_paid_records (c : call) (w : world) (session : Stripe.Session) :
  JS.truthy (JS.get "session_id" (req_query c)) = true ->
  Stripe.sessions_retrieve stripe (JS.get "session_id" (req_query c))
    = inr session ->
  Stripe.payment_status session = "paid" ->
  Mongo.findOne
    [("transactionId", Stripe.opt_string (Stripe.payment_intent session))]
    (paymentCollection w) = None ->
  Mongo.has_id (VObjectId (fresh_id c)) (paymentCollection w) = false ->
  paymentCollection (snd (get_booking_success eng stripe c w))
  = paymentCollection w ++ [stored_payment c session].
Proof.
  intros Ht Hs Hpaid Hnone Hfresh.
  assert (Hpaid' : String.eqb (Stripe.payment_status session) "paid" = true).
  { now rewrite Hpaid. }
  unfold get_booking_success. handler.
  rewrite Ht, Hs. step. rewrite Hnone, Hpaid'. step.
  rewrite (insert_payment c session _ Hfresh). step.
  destruct (JS.truthy (JS.get "bookingId" (Stripe.meta session))); step;
    [|reflexivity].
  destruct (ObjectId_new eng (JS.get "bookingId" (Stripe.meta session)));
    step; [reflexivity|].
  destruct (Mongo.updateOne _ _ _ _ _); step; reflexivity.
Qed.

(** What an answered call leaves behind when the payment is on record. *)
Lemma confirm_recorded (c : call) (w : world) (session : Stripe.Session)
    (payment : obj) :
  JS.truthy (JS.get "session_id" (req_query c)) = true ->
  Stripe.sessions_retrieve stripe (JS.get "session_id" (req_query c))
    = inr session ->
  Mongo.findOne
    [("transactionId", Stripe.opt_string (Stripe.payment_intent session))]
    (paymentCollection w) = Some payment ->
  AlreadyRecorded (Stripe.opt_string (Stripe.payment_intent session)) payment
    (fst (get_booking_success eng stripe c w))
  /\ snd (get_booking_success eng stripe c w) = w.
Proof.
  intros Ht Hs Hsome.
  rewrite (confirm_existing eng stripe c w session payment Ht Hs Hsome).
  split; reflexivity.
Qed.

(** C1.  Reconciling a paid session twice leaves exactly one payment
    document for the session's transaction, provided the store held at most
    one before; the second call answers AlreadyRecorded with the same
    transaction identifier and the payment on record, and changes
    nothing. *)
Theorem confirm_idempotent (c1 c2 : call) (w : world)
    (session : Stripe.Session) :
  JS.truthy (JS.get "session_id" (req_query c1)) = true ->
  JS.get "session_id" (req_query c2) = JS.get "session_id" (req_query c1) ->
  Stripe.sessions_retrieve stripe (JS.get "session_id" (req_query c1))
    = inr session ->
  Stripe.payment_status session = "paid" ->
  let transactionId := Stripe.opt_string (Stripe.payment_intent session) in
  (payments_for transactionId w <= 1)%nat ->
  Mongo.has_id (VObjectId (fresh_id c1)) (paymentCollection w) = false ->
  let first := get_booking_success eng stripe c1 w in
  let second := get_booking_success eng stripe c2 (snd first) in
  payments_for transactionId (snd second) = 1%nat
  /\ snd second = snd first
  /\ exists payment,
       AlreadyRecorded transactionId payment (fst second)
       /\ Mongo.findOne [("transactionId", transactionId)]
            (paymentCollection (snd first)) = Some payment
       /\ Mongo.match_field (JS.lookup "transactionId" payment) transactionId
          = true.
Proof.
  intros Ht Heq Hs Hpaid tx Hone Hfresh first second.
  unfold tx in *. clear tx.
  set (tx := Stripe.opt_string (Stripe.payment_intent session)) in *.
  assert (Ht2 : JS.truthy (JS.get "session_id" (req_query c2)) = true)
    by now rewrite Heq.
  assert (Hs2 : Stripe.sessions_retrieve stripe
                  (JS.get "session_id" (req_query c2)) = inr session)
    by now rewrite Heq.
  assert (Hfirst : exists payment,
             Mongo.findOne [("transactionId", tx)]
               (paymentCollection (snd first)) = Some payment
             /\ payments_for tx (snd first) = 1%nat).
  { destruct (Mongo.findOne [("transactionId", tx)] (paymentCollection w))
      as [payment|] eqn:Hfind.
    - destruct (confirm_recorded c1 w session payment Ht Hs Hfind) as [_ Hw].
      subst first. rewrite Hw. exists payment. split; [exact Hfind|].
      apply count_some in Hfind. unfold payments_for in *. lia.
    - assert (Hp := confirm_paid_records c1 w session Ht Hs Hpaid Hfind Hfresh).
      fold first in Hp. exists (stored_payment c1 session).
      unfold payments_for. rewrite Hp.
      rewrite findOne_app, Hfind, count_app, (count_none _ _ Hfind).
      destruct (single_match _ _ (stored_payment_matches c1 session))
        as [Hf1 Hc1].
      fold tx in Hf1, Hc1. rewrite Hf1, Hc1. auto. }
  destruct Hfirst as (payment & Hfind & Hcount).
  destruct (confirm_recorded c2 (snd first) session payment Ht2 Hs2 Hfind)
    as [Hr Hw].
  fold second in Hr, Hw. rewrite Hw.
  split; [exact Hcount|]. split; [reflexivity|].
  exists payment. split; [exact Hr|]. split; [exact Hfind|].
  destruct (findOne_some _ _ _ Hfind) as [_ Hm].
  unfold Mongo.matches in Hm. cbn [forallb fst snd] in Hm.
  now rewrite andb_true_r in Hm.
Qed.

End ConfirmTwice.

Lemma confirm_idempotent_witness :
  let c1 := Sample.confirm "cs_paid" in
  let c2 := Sample.request [] [("session_id", VStr "cs_paid")] []
              1700000900000 "65a1b2c3d4e5f60718293a4d" in
  let first := get_booking_success Node.engine Sample.provider c1
                 Sample.pending in
  let second := get_booking_success Node.engine Sample.provider c2
                  (snd first) in
  payments_for (VStr "pi_1") (snd second) = 1%nat
  /\ snd second = snd first.
Proof.
  destruct (confirm_idempotent Node.engine Sample.provider
              (Sample.confirm "cs_paid")
              (Sample.request [] [("session_id", VStr "cs_paid")] []
                 1700000900000 "65a1b2c3d4e5f60718293a4d")
              Sample.pending (Sample.session "paid" (Some "pi_1")))
    as (H1 & H2 & _); try reflexivity.
  - vm_compute. lia.
  - split; [exact H1 | exact H2].
Defined.

(** ** At most one payment per transaction *)

Section PaymentInvariant.

Context (eng : Engine) (stripe : Stripe.Client).

Lemma insert_payment_cases (c : call) (session : Stripe.Session)
    (pays : Mongo.collection) :
  Mongo.insertOne (fresh_id c) (paymentDoc c session) pays
  = if Mongo.has_id (VObjectId (fresh_id c)) pays
    then inl "E11000 duplicate key error"
    else inr (VObjectId (fresh_id c), pays ++ [stored_payment c session]).
Proof. reflexivity. Qed.

(** The reconciler leaves the payment collection as it was, or appends the
    payment of a session whose transaction had no record. *)
Lemma confirm_payments (c : call) (w : world) :
  paymentCollection (snd (get_booking_success eng stripe c w))
    = paymentCollection w
  \/ exists session,
       Mongo.findOne
         [("transactionId",
           Stripe.opt_string (Stripe.payment_intent session))]
         (paymentCollection w) = None
       /\ paymentCollection (snd (get_booking_success eng stripe c w))
          = paymentCollection w ++ [stored_payment c session].
Proof.
  unfold get_booking_success. handler.
  destruct (JS.truthy (JS.get "session_id" (req_query c))); step;
    [|now left].
  destruct (Stripe.sessions_retrieve stripe _) as [e | session]; step;
    [now left|].
  destruct (Mongo.findOne _ (paymentCollection w)) eqn:Hfind; [now left|].
  destruct (String.eqb (Stripe.payment_status session) "paid");
    [|now left].
  rewrite insert_payment_cases.
  destruct (Mongo.has_id _ (paymentCollection w)); step; [now left|].
  right. exists session. split; [exact Hfind|].
  destruct (JS.truthy (JS.get "bookingId" (Stripe.meta session))); step;
    [|reflexivity].
  destruct (ObjectId_new eng (JS.get "bookingId" (Stripe.meta session)));
    step; [reflexivity|].
  destruct (Mongo.updateOne _ _ _ _ _); step; reflexivity.
Qed.

(** A query for one transaction matches a stored payment only of that
    transaction. *)
Lemma stored_payment_only (c : call) (session : Stripe.Session)
    (o : option string) :
  Mongo.matches [("transactionId", Stripe.opt_string o)]
    (stored_payment c session) = true ->
  o = Stripe.payment_intent session.
Proof.
  unfold Mongo.matches, stored_payment. cbn [forallb fst snd].
  change (JS.lookup "transactionId"
            (JS.set "_id" (VObjectId (fresh_id c)) (paymentDoc c session)))
    with (Some (Stripe.opt_string (Stripe.payment_intent session))).
  destruct o as [s|], (Stripe.payment_intent session) as [s'|]; simpl;
    try discriminate; auto.
  rewrite andb_true_r. intros E. apply String.eqb_eq in E. now subst.
Qed.

(** The invariant of the payment store: if no transaction has more than
    one payment before a reconciliation, none has after it. *)
Lemma confirm_keeps_payments_unique (c : call) (w : world) :
  (forall o, (payments_for (Stripe.opt_string o) w <= 1)%nat) ->
  forall o,
    (payments_for (Stripe.opt_string o)
       (snd (get_booking_success eng stripe c w)) <= 1)%nat.
Proof.
  intros Hinv o. unfold payments_for in *.
  destruct (confirm_payments c w) as [-> | (session & Hnone & ->)];
    [apply Hinv|].
  rewrite count_app.
  destruct (Mongo.matches [("transactionId", Stripe.opt_string o)]
              (stored_payment c session)) eqn:Hm.
  - apply stored_payment_only in Hm. subst o.
    rewrite (count_none _ _ Hnone).
    now destruct (single_match _ _ (stored_payment_matches c session))
      as [_ ->].
  - specialize (Hinv o).
    assert (Hz : Mongo.countDocuments
                   [("transactionId", Stripe.opt_string o)]
                   [stored_payment c session] = 0%nat).
    { unfold Mongo.countDocuments. cbn [filter]. now rewrite Hm. }
    rewrite Hz. lia.
Qed.

End PaymentInvariant.

Section Reachable.

Context (eng : Engine) (stripe : Stripe.Client).

Lemma post_bookings_payments (c : call) (w : world) :
  paymentCollection (snd (post_bookings c w)) = paymentCollection w.
Proof.
  unfold post_bookings. handler.
  destruct (_ || _); step; [reflexivity|].
  destruct (Mongo.insertOne _ _ _); step; reflexivity.
Qed.

Lemma initiate_payments (c : call) (w : world) :
  paymentCollection (snd (post_create_checkout_session eng stripe c w))
  = paymentCollection w.
Proof.
  unfold post_create_checkout_session. handler.
  destruct (JS.truthy (JS.get "bookingId" (req_body c))); step;
    [|reflexivity].
  destruct (ObjectId_new eng _); step; [reflexivity|].
  destruct (Mongo.findOne _ _); [|reflexivity].
  destruct (JS.truthy (amount eng _)); step; [|reflexivity].
  destruct (Stripe.sessions_create stripe _ _); reflexivity.
Qed.

Lemma post_users_payments (c : call) (w : world) :
  paymentCollection (snd (post_users c w)) = paymentCollection w.
Proof.
  unfold post_users. handler.
  destruct (JS.truthy (JS.get "email" (req_body c))); step; [|reflexivity].
  destruct (Mongo.updateOne _ _ _ _ _); step; reflexivity.
Qed.

Lemma patch_users_profile_payments (c : call) (w : world) :
  paymentCollection (snd (patch_users_profile c w)) = paymentCollection w.
Proof.
  unfold patch_users_profile. handler. step.
  destruct (Mongo.updateOne _ _ _ _ _); step; reflexivity.
Qed.

(** In every reachable world a transaction has at most one payment. *)
Lemma reachable_payments_unique (w : world) :
  reachable eng stripe w ->
  forall o, (payments_for (Stripe.opt_string o) w <= 1)%nat.
Proof.
  induction 1 as [w Hempty | w w' Hw IH Hstep].
  - intros o. unfold payments_for, Mongo.countDocuments.
    rewrite Hempty. cbn [filter List.length]. lia.
  - destruct Hstep; intros o; unfold payments_for.
    + rewrite post_bookings_payments. apply IH.
    + rewrite initiate_payments. apply IH.
    + now apply confirm_keeps_payments_unique.
    + rewrite post_users_payments. apply IH.
    + rewrite patch_users_profile_payments. apply IH.
Qed.

End Reachable.

(** ** Users *)






Lemma update_first_find (p : obj -> bool) (g : obj -> obj)
    (c : Mongo.collection) (d : obj) :
  find p c = Some d ->
  Mongo.update_first p (fun _ => g d) c = Mongo.update_first p g c.
Proof.
  induction c as [|x c IH]; simpl; auto.
  destruct (p x); intros H.
  - now inversion H.
  - now rewrite IH.
Qed.

Lemma update_first_Forall2 (R : obj -> obj -> Prop) (p : obj -> bool)
    (g : obj -> obj) (c : Mongo.collection) :
  (forall d, R d d) -> (forall d, R d (g d)) ->
  Forall2 R c (Mongo.update_first p g c).
Proof.
  intros Hrefl Hg. induction c as [|x c IH]; simpl; [constructor|].
  destruct (p x); constructor; auto.
  clear IH. induction c; constructor; auto.
Qed.

Lemma Forall2_refl (R : obj -> obj -> Prop) (c : Mongo.collection) :
  (forall d, R d d) -> Forall2 R c c.
Proof. intros H. induction c; constructor; auto. Qed.

Section Profile.




End Profile.


Section Upsert.



End Upsert.


(** ** The booking chart *)

(** ** The calendar *)

Lemma MonthFromTime_range (t : Z) : 0 <= JSDate.MonthFromTime t <= 11.
Proof.
  unfold JSDate.MonthFromTime.
  repeat match goal with |- context [if ?b then _ else _] => destruct b end;
    lia.
Qed.

Lemma DayFromYear_step (y : Z) :
  364 <= JSDate.DayFromYear (y + 1) - JSDate.DayFromYear y <= 367.
Proof. unfold JSDate.DayFromYear. Z.div_mod_to_equations. lia. Qed.

Lemma month_start_step (leap : bool) (m : Z) :
  0 <= m <= 10 ->
  28 <= JSDate.month_start leap (m + 1) - JSDate.month_start leap m.
Proof.
  intros Hm.
  assert (Hc : m = 0 \/ m = 1 \/ m = 2 \/ m = 3 \/ m = 4 \/ m = 5 \/ m = 6
               \/ m = 7 \/ m = 8 \/ m = 9 \/ m = 10) by lia.
  destruct leap; repeat (destruct Hc as [-> | Hc]); try subst m; simpl; lia.
Qed.

Lemma month_start_bounds (leap : bool) (m : Z) :
  0 <= m <= 11 -> 0 <= JSDate.month_start leap m <= 335.
Proof.
  intros Hm.
  assert (Hc : m = 0 \/ m = 1 \/ m = 2 \/ m = 3 \/ m = 4 \/ m = 5 \/ m = 6
               \/ m = 7 \/ m = 8 \/ m = 9 \/ m = 10 \/ m = 11) by lia.
  destruct leap; repeat (destruct Hc as [-> | Hc]); try subst m; simpl; lia.
Qed.

Lemma MakeDay_month_day (k : Chart.key) :
  0 <= snd k <= 11 ->
  JSDate.MakeDay (fst k) (snd k) = month_day (month_index k).
Proof.
  intros Hm. unfold month_day, month_index.
  assert (Hq : (12 * fst k + snd k) / 12 = fst k)
    by (Z.div_mod_to_equations; lia).
  assert (Hr : (12 * fst k + snd k) mod 12 = snd k)
    by (Z.div_mod_to_equations; lia).
  now rewrite Hq, Hr.
Qed.

Lemma month_day_unfold (i : Z) :
  month_day i
  = JSDate.DayFromYear (i / 12)
    + JSDate.month_start (JSDate.InLeapYear (i / 12)) (i mod 12).
Proof.
  unfold month_day, JSDate.MakeDay.
  assert (Hq : (i mod 12) / 12 = 0) by (Z.div_mod_to_equations; lia).
  assert (Hr : (i mod 12) mod 12 = i mod 12)
    by (Z.div_mod_to_equations; lia).
  rewrite Hq, Hr. now rewrite Z.add_0_r.
Qed.

(** Consecutive months start at least 28 days apart. *)
Lemma month_day_step (i : Z) : 28 <= month_day (i + 1) - month_day i.
Proof.
  rewrite !month_day_unfold.
  assert (Hm : 0 <= i mod 12 < 12) by (apply Z.mod_pos_bound; lia).
  destruct (Z.eq_dec (i mod 12) 11) as [E | E].
  - assert (Hq : (i + 1) / 12 = i / 12 + 1) by (Z.div_mod_to_equations; lia).
    assert (Hr : (i + 1) mod 12 = 0) by (Z.div_mod_to_equations; lia).
    rewrite Hq, Hr, E.
    pose proof (DayFromYear_step (i / 12)).
    destruct (JSDate.InLeapYear (i / 12)), (JSDate.InLeapYear (i / 12 + 1));
      simpl; lia.
  - assert (Hq : (i + 1) / 12 = i / 12) by (Z.div_mod_to_equations; lia).
    assert (Hr : (i + 1) mod 12 = i mod 12 + 1)
      by (Z.div_mod_to_equations; lia).
    rewrite Hq, Hr.
    pose proof (month_start_step (JSDate.InLeapYear (i / 12)) (i mod 12)).
    lia.
Qed.

Lemma month_day_mono (i j : Z) :
  i <= j -> 28 * (j - i) <= month_day j - month_day i.
Proof.
  assert (H : forall n : nat,
            28 * Z.of_nat n <= month_day (i + Z.of_nat n) - month_day i).
  { induction n as [|n IH].
    - simpl. rewrite Z.add_0_r. lia.
    - rewrite Nat2Z.inj_succ.
      replace (i + Z.succ (Z.of_nat n)) with (i + Z.of_nat n + 1) by lia.
      pose proof (month_day_step (i + Z.of_nat n)). lia. }
  intros Hij. specialize (H (Z.to_nat (j - i))).
  rewrite Z2Nat.id in H by lia.
  now replace (i + (j - i)) with j in H by lia.
Qed.

Lemma DayFromYear_mono (y y' : Z) :
  y <= y' -> JSDate.DayFromYear y <= JSDate.DayFromYear y'.
Proof.
  assert (H : forall n : nat,
            JSDate.DayFromYear y <= JSDate.DayFromYear (y + Z.of_nat n)).
  { induction n as [|n IH].
    - simpl. rewrite Z.add_0_r. lia.
    - rewrite Nat2Z.inj_succ.
      replace (y + Z.succ (Z.of_nat n)) with (y + Z.of_nat n + 1) by lia.
      pose proof (DayFromYear_step (y + Z.of_nat n)). lia. }
  intros Hy. specialize (H (Z.to_nat (y' - y))).
  rewrite Z2Nat.id in H by lia.
  now replace (y + (y' - y)) with y' in H by lia.
Qed.

(** ** The calendar functions meet their specification *)

(** [YearFromDay day] is the year [y] with
    [DayFromYear y <= day < DayFromYear (y + 1)]. *)
Lemma YearFromDay_spec (day : Z) :
  JSDate.DayFromYear (JSDate.YearFromDay day) <= day
  < JSDate.DayFromYear (JSDate.YearFromDay day + 1).
Proof.
  unfold JSDate.YearFromDay.
  set (y := 1970 + 400 * day / 146097).
  assert (Hy : 146097 * (y - 1970) <= 400 * day < 146097 * (y - 1970) + 146097).
  { unfold y. Z.div_mod_to_equations. lia. }
  clearbody y.
  destruct (Z.ltb_spec day (JSDate.DayFromYear y)) as [H1 | H1].
  - replace (y - 1 + 1) with y by lia. split; [|assumption].
    unfold JSDate.DayFromYear in *. Z.div_mod_to_equations. lia.
  - destruct (Z.leb_spec (JSDate.DayFromYear (y + 1)) day) as [H2 | H2].
    + split; [assumption|].
      unfold JSDate.DayFromYear in *. Z.div_mod_to_equations. lia.
    + split; assumption.
Qed.

Lemma DaysInYear (y : Z) :
  JSDate.DayFromYear (y + 1) - JSDate.DayFromYear y
  = if JSDate.InLeapYear y then 366 else 365.
Proof.
  unfold JSDate.InLeapYear, JSDate.DayFromYear.
  destruct (Z.eqb_spec (y mod 4) 0) as [H4 | H4];
    destruct (Z.eqb_spec (y mod 100) 0) as [H100 | H100];
    destruct (Z.eqb_spec (y mod 400) 0) as [H400 | H400];
    cbn [andb orb negb]; Z.div_mod_to_equations; lia.
Qed.

Lemma YearFromDay_unique (day y : Z) :
  JSDate.DayFromYear y <= day < JSDate.DayFromYear (y + 1) ->
  JSDate.YearFromDay day = y.
Proof.
  intros Hy. pose proof (YearFromDay_spec day) as Hs.
  set (y' := JSDate.YearFromDay day) in *.
  destruct (Z_lt_le_dec y' y) as [Hlt | Hge].
  - pose proof (DayFromYear_mono (y' + 1) y ltac:(lia)). lia.
  - destruct (Z_lt_le_dec y y') as [Hlt | Hle]; [|lia].
    pose proof (DayFromYear_mono (y + 1) y' ltac:(lia)). lia.
Qed.

(** [new Date(year, month, 1)] is the first day of that month: the year and
    the month read back from [MakeDay] are the ones it was given. *)
Lemma MakeDay_round_trip (y m : Z) :
  0 <= m <= 11 ->
  let t := JSDate.MakeDay y m * JSDate.msPerDay in
  JSDate.YearFromTime t = y /\ JSDate.MonthFromTime t = m
  /\ JSDate.DateFromTime t = 1.
Proof.
  intros Hm t.
  assert (Hday : JSDate.Day t = JSDate.MakeDay y m).
  { unfold t, JSDate.Day, JSDate.msPerDay. now rewrite Z.div_mul. }
  assert (Hmk : JSDate.MakeDay y m
                = JSDate.DayFromYear y
                  + JSDate.month_start (JSDate.InLeapYear y) m).
  { unfold JSDate.MakeDay.
    assert (Hq : m / 12 = 0) by (Z.div_mod_to_equations; lia).
    assert (Hr : m mod 12 = m) by (Z.div_mod_to_equations; lia).
    now rewrite Hq, Hr, Z.add_0_r. }
  assert (Hyear : JSDate.YearFromTime t = y).
  { unfold JSDate.YearFromTime. rewrite Hday, Hmk.
    apply YearFromDay_unique.
    pose proof (DaysInYear y) as Hd.
    pose proof (month_start_bounds (JSDate.InLeapYear y) m Hm).
    destruct (JSDate.InLeapYear y); lia. }
  assert (Hmonth : JSDate.MonthFromTime t = m).
  { unfold JSDate.MonthFromTime. rewrite Hyear, Hday, Hmk.
    replace (JSDate.DayFromYear y
             + JSDate.month_start (JSDate.InLeapYear y) m
             - JSDate.DayFromYear y)
      with (JSDate.month_start (JSDate.InLeapYear y) m) by lia.
    assert (Hc : m = 0 \/ m = 1 \/ m = 2 \/ m = 3 \/ m = 4 \/ m = 5
                 \/ m = 6 \/ m = 7 \/ m = 8 \/ m = 9 \/ m = 10 \/ m = 11)
      by lia.
    destruct (JSDate.InLeapYear y);
      repeat (destruct Hc as [-> | Hc]; [reflexivity|]); subst m;
      reflexivity. }
  split; [exact Hyear|]. split; [exact Hmonth|].
  unfold JSDate.DateFromTime. rewrite Hyear, Hmonth, Hday, Hmk. lia.
Qed.

(** ** Sort keys *)

Section SortKeys.

Context (eng : Engine).

Hypothesis Hzone : zone_bounded eng.

Lemma month_day_range (k : Chart.key) :
  100 <= fst k <= 275000 -> 0 <= snd k <= 11 ->
  -684000 <= month_day (month_index k) <= 99722500.
Proof.
  intros Hy Hm. rewrite <- MakeDay_month_day by assumption.
  unfold JSDate.MakeDay.
  assert (Hq : snd k / 12 = 0) by (Z.div_mod_to_equations; lia).
  assert (Hr : snd k mod 12 = snd k) by (Z.div_mod_to_equations; lia).
  rewrite Hq, Hr, Z.add_0_r.
  pose proof (DayFromYear_mono 100 (fst k) (proj1 Hy)) as Hlo.
  pose proof (DayFromYear_mono (fst k) 275000 (proj2 Hy)) as Hhi.
  change (JSDate.DayFromYear 100) with (-683003) in Hlo.
  change (JSDate.DayFromYear 275000) with 99722160 in Hhi.
  pose proof (month_start_bounds (JSDate.InLeapYear (fst k)) (snd k) Hm).
  lia.
Qed.

(** The sort key of a month in range: the start of the month, in UTC. *)
Lemma sortKey_in_range (k : Chart.key) :
  100 <= fst k <= 275000 -> 0 <= snd k <= 11 ->
  exists off,
    Z.abs off <= JSDate.msPerDay
    /\ JSDate.Date_ym eng (fst k) (snd k)
       = Some (month_day (month_index k) * JSDate.msPerDay - off).
Proof.
  intros Hy Hm. unfold JSDate.Date_ym, JSDate.UTC.
  assert (Hyr : (0 <=? fst k) && (fst k <=? 99) = false).
  { apply andb_false_iff. right. apply Z.leb_gt. lia. }
  rewrite Hyr, (MakeDay_month_day k Hm).
  set (lt := month_day (month_index k) * JSDate.msPerDay).
  exists (LocalTZA_of_local eng lt). split; [apply Hzone|].
  unfold JSDate.TimeClip.
  pose proof (month_day_range k Hy Hm) as Hr. pose proof (Hzone lt) as Ho.
  unfold JSDate.msPerDay in *. fold lt.
  destruct (Z.abs (lt - LocalTZA_of_local eng lt) <=? 8640000000000000) eqn:E;
    [reflexivity|].
  apply Z.leb_gt in E. unfold lt in *. lia.
Qed.

Lemma to_point_in_range (e : Chart.key * Z) :
  0 <= fst (fst e) ->
  Chart.to_point eng e
  = {| Chart.name := label (fst e);
       Chart.bookings := snd e;
       Chart.sortKey := JSDate.Date_ym eng (fst (fst e)) (snd (fst e)) |}.
Proof.
  intros Hy. unfold Chart.to_point, Chart.split_key, label.
  apply Z.leb_le in Hy. rewrite Hy. now destruct (fst e).
Qed.

(** On months in range the comparison of sort keys is the comparison of
    the months. *)
Lemma compare_months (a b : Chart.key * Z) :
  100 <= fst (fst a) <= 275000 -> 0 <= snd (fst a) <= 11 ->
  100 <= fst (fst b) <= 275000 -> 0 <= snd (fst b) <= 11 ->
  Chart.compare (Chart.to_point eng a) (Chart.to_point eng b) <= 0
  <-> month_index (fst a) <= month_index (fst b).
Proof.
  intros Hya Hma Hyb Hmb.
  rewrite !to_point_in_range by lia. unfold Chart.compare. simpl.
  destruct (Z.eq_dec (month_index (fst a)) (month_index (fst b))) as [E | E].
  - assert (Hk : fst a = fst b).
    { unfold month_index in E. destruct (fst a), (fst b). cbn [fst snd] in *.
      f_equal; lia. }
    rewrite Hk.
    destruct (sortKey_in_range (fst b) Hyb Hmb) as (ob & Hob & ->). lia.
  - destruct (sortKey_in_range (fst a) Hya Hma) as (oa & Hoa & ->).
    destruct (sortKey_in_range (fst b) Hyb Hmb) as (ob & Hob & ->).
    unfold JSDate.msPerDay in *.
    destruct (Z_le_gt_dec (month_index (fst a)) (month_index (fst b)))
      as [Hle | Hgt].
    + pose proof (month_day_mono _ _ Hle). lia.
    + pose proof (month_day_mono (month_index (fst b)) (month_index (fst a))
                    ltac:(lia)).
      lia.
Qed.

End SortKeys.

(** ** Sorting *)

Section SortByFacts.

Context {A : Type} (f : A -> Chart.point).

Lemma insert_map (a : A) (l : list A) :
  Chart.insert (f a) (map f l) = map f (insert_by f a l).
Proof.
  induction l as [|b l IH]; simpl; auto.
  destruct (Chart.compare (f a) (f b) <=? 0); simpl; congruence.
Qed.

Lemma sort_map (l : list A) :
  Chart.sort (map f l) = map f (sort_by f l).
Proof.
  induction l as [|a l IH]; simpl; auto.
  unfold Chart.sort in *. simpl. rewrite IH. apply insert_map.
Qed.

Lemma insert_by_perm (a : A) (l : list A) :
  Permutation (a :: l) (insert_by f a l).
Proof.
  induction l as [|b l IH]; simpl; auto.
  destruct (Chart.compare (f a) (f b) <=? 0); auto.
  rewrite perm_swap. now constructor.
Qed.

Lemma sort_by_perm (l : list A) : Permutation l (sort_by f l).
Proof.
  induction l as [|a l IH]; simpl; auto.
  rewrite <- insert_by_perm. now constructor.
Qed.

(** Entries that the comparison orders as [idx] does, and strictly. *)
Context (idx : A -> Z) (good : A -> Prop).

Hypothesis compare_idx : forall a b, good a -> good b ->
  (Chart.compare (f a) (f b) <= 0 <-> idx a <= idx b).

Lemma insert_by_sorted (a : A) (l : list A) :
  good a -> Forall good l -> Forall (fun b => idx b <> idx a) l ->
  StronglySorted (fun x y => idx x < idx y) l ->
  StronglySorted (fun x y => idx x < idx y) (insert_by f a l).
Proof.
  intros Ha Hl Hne Hs.
  induction l as [|b l IH]; simpl.
  - repeat constructor.
  - inversion Hl as [|? ? Hb Hl']; subst.
    inversion Hne as [|? ? Hab Hne']; subst.
    inversion Hs as [|? ? Hs' Hbl]; subst.
    destruct (Chart.compare (f a) (f b) <=? 0) eqn:E.
    + apply Z.leb_le, (compare_idx a b Ha Hb) in E.
      constructor; [assumption|].
      constructor; [lia|].
      eapply Forall_impl; [|exact Hbl]. simpl. intros x Hx. lia.
    + apply Z.leb_gt in E.
      assert (Hlt : idx b < idx a).
      { destruct (Z_le_gt_dec (idx a) (idx b)) as [H | H]; [|lia].
        apply (compare_idx a b Ha Hb) in H. lia. }
      constructor; [now apply IH|].
      apply Forall_forall. intros x Hx.
      apply (Permutation_in _ (Permutation_sym (insert_by_perm a l))) in Hx.
      destruct Hx as [<- | Hx]; [assumption|].
      rewrite Forall_forall in Hbl. now apply Hbl.
Qed.

Lemma sort_by_sorted (l : list A) :
  Forall good l -> NoDup (map idx l) ->
  StronglySorted (fun x y => idx x < idx y) (sort_by f l).
Proof.
  induction l as [|a l IH]; simpl; intros Hl Hnd; [constructor|].
  inversion Hl as [|? ? Ha Hl']; subst.
  inversion Hnd as [|? ? Hnotin Hnd']; subst.
  apply insert_by_sorted; auto.
  - apply Forall_forall. intros x Hx.
    apply (Permutation_in _ (Permutation_sym (sort_by_perm l))) in Hx.
    rewrite Forall_forall in Hl'. auto.
  - apply Forall_forall. intros x Hx E.
    apply (Permutation_in _ (Permutation_sym (sort_by_perm l))) in Hx.
    apply Hnotin. rewrite <- E. now apply in_map.
Qed.

End SortByFacts.

(** In a sorted list what comes first is below what comes after. *)
Lemma sorted_split {A : Type} (R : A -> A -> Prop) (l : list A) (n : nat) :
  StronglySorted R l ->
  forall x y, In x (firstn n l) -> In y (skipn n l) -> R x y.
Proof.
  intros Hs. revert n. induction Hs as [|a l Hs IH Ha]; intros n x y Hx Hy.
  - rewrite firstn_nil in Hx. destruct Hx.
  - destruct n as [|n]; simpl in *; [destruct Hx|].
    destruct Hx as [<- | Hx].
    + rewrite Forall_forall in Ha. apply Ha.
      rewrite <- (firstn_skipn n l). apply in_or_app. now right.
    + now apply (IH n).
Qed.

Lemma sorted_skipn {A : Type} (R : A -> A -> Prop) (l : list A) (n : nat) :
  StronglySorted R l -> StronglySorted R (skipn n l).
Proof.
  intros Hs. revert n. induction Hs as [|a l Hs IH Ha]; intros n.
  - rewrite skipn_nil. constructor.
  - destruct n; simpl; [now constructor | apply IH].
Qed.

Lemma slice_last6_map {A B : Type} (f : A -> B) (l : list A) :
  Chart.slice_last6 (map f l) = map f (Chart.slice_last6 l).
Proof.
  unfold Chart.slice_last6. now rewrite length_map, skipn_map.
Qed.

Lemma slice_last6_length {A : Type} (l : list A) :
  (List.length (Chart.slice_last6 l) <= 6)%nat.
Proof. unfold Chart.slice_last6. rewrite length_skipn. lia. Qed.

(** ** The month map *)

Lemma key_eqb_eq (a b : Chart.key) : Chart.key_eqb a b = true <-> a = b.
Proof.
  unfold Chart.key_eqb. destruct a as [y m], b as [y' m']. simpl.
  rewrite andb_true_iff, !Z.eqb_eq. split; [intros []|intros [= -> ->]];
    subst; auto.
Qed.

Lemma key_eqb_sym (a b : Chart.key) : Chart.key_eqb a b = Chart.key_eqb b a.
Proof.
  unfold Chart.key_eqb. now rewrite (Z.eqb_sym (fst a)), (Z.eqb_sym (snd a)).
Qed.

Lemma count_of_absent (k : Chart.key) (m : list (Chart.key * Z)) :
  ~ In k (map fst m) -> count_of k m = 0.
Proof.
  induction m as [|[k' n] m IH]; simpl; auto. intros H.
  destruct (Chart.key_eqb k k') eqn:E.
  - apply key_eqb_eq in E. subst. tauto.
  - apply IH. tauto.
Qed.

Lemma count_of_cases (k : Chart.key) (m : list (Chart.key * Z)) :
  In k (map fst m) \/ count_of k m = 0.
Proof.
  induction m as [|[k' n] m IH]; simpl; [now right|].
  destruct (Chart.key_eqb k k') eqn:E.
  - apply key_eqb_eq in E. subst. auto.
  - tauto.
Qed.

Lemma count_of_present (k : Chart.key) (n : Z) (m : list (Chart.key * Z)) :
  NoDup (map fst m) -> In (k, n) m -> count_of k m = n.
Proof.
  induction m as [|[k' n'] m IH]; simpl; [tauto|].
  intros Hnd [H | H].
  - inversion H; subst.
    assert (E : Chart.key_eqb k k = true) by now apply key_eqb_eq.
    now rewrite E.
  - inversion Hnd as [|? ? Hnotin Hnd']; subst.
    destruct (Chart.key_eqb k k') eqn:E; [|auto].
    apply key_eqb_eq in E. subst k'. exfalso. apply Hnotin.
    change k with (fst (k, n)). now apply in_map.
Qed.

Lemma bump_count (k k' : Chart.key) (m : list (Chart.key * Z)) :
  count_of k (Chart.bump k' m)
  = count_of k m + (if Chart.key_eqb k' k then 1 else 0).
Proof.
  induction m as [|[k0 n] m IH]; simpl.
  - rewrite (key_eqb_sym k k'). destruct (Chart.key_eqb k' k); lia.
  - destruct (Chart.key_eqb k' k0) eqn:E0; simpl.
    + apply key_eqb_eq in E0. subst k0. rewrite (key_eqb_sym k k').
      destruct (Chart.key_eqb k' k); lia.
    + destruct (Chart.key_eqb k k0) eqn:E1; [|apply IH].
      apply key_eqb_eq in E1. subst k0. rewrite E0. lia.
Qed.

Lemma bump_keys (k : Chart.key) (m : list (Chart.key * Z)) :
  map fst (Chart.bump k m) = map fst m
  \/ (~ In k (map fst m) /\ map fst (Chart.bump k m) = map fst m ++ [k]).
Proof.
  induction m as [|[k0 n] m IH]; simpl.
  - right. split; auto.
  - destruct (Chart.key_eqb k k0) eqn:E; simpl; [now left|].
    destruct IH as [-> | [Hn ->]]; [now left|].
    right. split; [|reflexivity]. intros [H | H]; [|tauto].
    subst k0. assert (Chart.key_eqb k k = true) by now apply key_eqb_eq.
    congruence.
Qed.

Lemma bump_NoDup (k : Chart.key) (m : list (Chart.key * Z)) :
  NoDup (map fst m) -> NoDup (map fst (Chart.bump k m)).
Proof.
  intros Hnd. destruct (bump_keys k m) as [-> | [Hn ->]]; auto.
  apply NoDup_app; auto.
  - constructor; [intros [] | constructor].
  - intros x Hx [E | []]. now subst x.
Qed.

Lemma bump_positive (k : Chart.key) (m : list (Chart.key * Z)) :
  Forall (fun e => 1 <= snd e) m ->
  Forall (fun e => 1 <= snd e) (Chart.bump k m).
Proof.
  induction m as [|[k0 n] m IH]; simpl; intros H.
  - repeat constructor. simpl. lia.
  - inversion H as [|? ? Hn Hm]; subst. simpl in Hn.
    destruct (Chart.key_eqb k k0); constructor; simpl; auto; lia.
Qed.

Lemma bump_in_keys (k k' : Chart.key) (m : list (Chart.key * Z)) :
  In k (map fst (Chart.bump k' m)) -> k = k' \/ In k (map fst m).
Proof.
  destruct (bump_keys k' m) as [-> | [_ ->]]; [tauto|].
  rewrite in_app_iff. simpl. intuition.
Qed.

Section MonthMap.

Context (eng : Engine).

Let step (m : list (Chart.key * Z)) (b : obj) : list (Chart.key * Z) :=
  match Chart.month_of eng b with Some k => Chart.bump k m | None => m end.

Lemma fold_count (k : Chart.key) (bs : list obj) (m : list (Chart.key * Z)) :
  count_of k (fold_left step bs m)
  = count_of k m + Z.of_nat (List.length (filter (in_month eng k) bs)).
Proof.
  revert m. induction bs as [|b bs IH]; intros m; [simpl; lia|].
  cbn [fold_left filter]. rewrite IH. unfold step, in_month.
  destruct (Chart.month_of eng b) as [k'|]; [|lia].
  rewrite bump_count. destruct (Chart.key_eqb k' k); cbn [List.length]; lia.
Qed.

Lemma fold_invariant (bs : list obj) (m : list (Chart.key * Z)) :
  NoDup (map fst m) -> Forall (fun e => 1 <= snd e) m ->
  NoDup (map fst (fold_left step bs m))
  /\ Forall (fun e => 1 <= snd e) (fold_left step bs m)
  /\ forall k, In k (map fst (fold_left step bs m)) ->
       In k (map fst m)
       \/ exists b, In b bs /\ Chart.month_of eng b = Some k.
Proof.
  revert m. induction bs as [|b bs IH]; intros m Hnd Hpos; simpl; [auto|].
  assert (Hs : NoDup (map fst (step m b))
               /\ Forall (fun e => 1 <= snd e) (step m b)).
  { unfold step. destruct (Chart.month_of eng b); auto.
    split; [now apply bump_NoDup | now apply bump_positive]. }
  destruct Hs as [Hnd' Hpos'].
  destruct (IH _ Hnd' Hpos') as (H1 & H2 & H3).
  split; [assumption|]. split; [assumption|].
  intros k Hk. destruct (H3 k Hk) as [Hin | (b' & Hb' & Hm)].
  - unfold step in Hin. destruct (Chart.month_of eng b) as [k'|] eqn:E;
      [|now left].
    destruct (bump_in_keys _ _ _ Hin) as [-> | Hin']; [|now left].
    right. exists b. auto.
  - right. exists b'. auto.
Qed.

(** The month map has one entry for every month with a booking; the entry
    counts the bookings of the month. *)
Lemma monthMap_spec (bs : list obj) :
  NoDup (map fst (Chart.monthMap eng bs))
  /\ (forall k n, In (k, n) (Chart.monthMap eng bs) ->
        n = Z.of_nat (List.length (filter (in_month eng k) bs)) /\ 1 <= n
        /\ exists b, In b bs /\ Chart.month_of eng b = Some k)
  /\ (forall k, 1 <= Z.of_nat (List.length (filter (in_month eng k) bs)) ->
        In k (map fst (Chart.monthMap eng bs))).
Proof.
  unfold Chart.monthMap. fold step.
  destruct (fold_invariant bs [] (NoDup_nil _) (Forall_nil _))
    as (Hnd & Hpos & Hkeys).
  split; [assumption|]. split.
  - intros k n Hin. split; [|split].
    + rewrite <- (count_of_present k n _ Hnd Hin), fold_count. simpl. lia.
    + rewrite Forall_forall in Hpos. apply (Hpos (k, n) Hin).
    + destruct (Hkeys k) as [[] | H]; auto.
      change k with (fst (k, n)). now apply in_map.
  - intros k Hk.
    destruct (count_of_cases k (fold_left step bs [])) as [H | H]; auto.
    rewrite fold_count in H. simpl in H. lia.
Qed.

End MonthMap.

(** The projection keeps [createdAt], and so the month of a booking. *)
Lemma project_lookup (d : obj) :
  JS.lookup "createdAt" (Chart.project_createdAt d)
  = JS.lookup "createdAt" d.
Proof.
  unfold Chart.project_createdAt.
  induction d as [|[k v] d IH]; [reflexivity|]. cbn [filter fst].
  destruct (String.eqb k "_id" || String.eqb k "createdAt") eqn:P;
    cbn [JS.lookup]; destruct (String.eqb "createdAt" k) eqn:E; auto.
  rewrite String.eqb_sym in E. rewrite E, orb_true_r in P. discriminate.
Qed.

Lemma project_month_of (eng : Engine) (d : obj) :
  Chart.month_of eng (Chart.project_createdAt d) = Chart.month_of eng d.
Proof. unfold Chart.month_of, JS.get. now rewrite project_lookup. Qed.

Lemma project_in_month (eng : Engine) (k : Chart.key) (bs : list obj) :
  List.length (filter (in_month eng k) (map Chart.project_createdAt bs))
  = List.length (filter (in_month eng k) bs).
Proof.
  induction bs as [|b bs IH]; [reflexivity|]. cbn [map filter].
  assert (E : in_month eng k (Chart.project_createdAt b) = in_month eng k b).
  { unfold in_month. now rewrite project_month_of. }
  rewrite E. destruct (in_month eng k b); cbn [List.length]; auto.
Qed.

(** ** The chart *)

Lemma sorted_map {A B : Type} (g : A -> B) (R : B -> B -> Prop)
    (l : list A) :
  StronglySorted (fun x y => R (g x) (g y)) l -> StronglySorted R (map g l).
Proof.
  induction 1 as [|a l Hs IH Ha]; simpl; constructor; auto.
  apply Forall_forall. intros y Hy. apply in_map_iff in Hy.
  destruct Hy as (x & <- & Hx). rewrite Forall_forall in Ha. auto.
Qed.

Lemma NoDup_map_on {A B : Type} (g : A -> B) (l : list A) :
  (forall x y, In x l -> In y l -> g x = g y -> x = y) ->
  NoDup l -> NoDup (map g l).
Proof.
  intros Hinj Hnd. induction Hnd as [|a l Hnotin Hnd IH]; simpl;
    constructor.
  - intros Hin. apply in_map_iff in Hin. destruct Hin as (x & E & Hx).
    apply Hnotin. rewrite <- (Hinj x a); simpl; auto.
  - apply IH. intros x y Hx Hy. apply Hinj; simpl; auto.
Qed.

Lemma month_index_inj (a b : Chart.key) :
  0 <= snd a <= 11 -> 0 <= snd b <= 11 ->
  month_index a = month_index b -> a = b.
Proof.
  unfold month_index. destruct a, b. cbn [fst snd]. intros Ha Hb E.
  f_equal; lia.
Qed.

Lemma month_of_range (eng : Engine) (b : obj) (k : Chart.key) :
  Chart.month_of eng b = Some k -> 0 <= snd k <= 11.
Proof.
  unfold Chart.month_of. destruct (JSDate.Date_new eng _); [|discriminate].
  intros [= <-]. apply MonthFromTime_range.
Qed.

(** X30.  Whatever the dates and the time zone, the chart has at most six
    entries, and every entry stands for a month with bookings and carries
    their number. *)
Lemma chart_entries_booked (eng : Engine) (w : world) :
  (List.length (Chart.bookingChartData eng w) <= 6)%nat
  /\ forall e, In e (Chart.bookingChartData eng w) ->
       exists k, booked eng w k
                 /\ snd e = created_in eng k w
                 /\ fst e = Chart.name (Chart.to_point eng (k, snd e)).
Proof.
  unfold Chart.bookingChartData, Chart.chart.
  set (bs := map Chart.project_createdAt (bookingCollection w)).
  rewrite sort_map, slice_last6_map, map_map. split.
  - rewrite length_map. apply slice_last6_length.
  - intros e He. apply in_map_iff in He. destruct He as ([k n] & <- & He).
    assert (Hin : In (k, n) (Chart.monthMap eng bs)).
    { apply (Permutation_in _
               (Permutation_sym (sort_by_perm (Chart.to_point eng) _))).
      unfold Chart.slice_last6 in He.
      set (sorted := sort_by (Chart.to_point eng) (Chart.monthMap eng bs))
        in *.
      rewrite <- (firstn_skipn (List.length sorted - 6) sorted).
      apply in_or_app. now right. }
    destruct (monthMap_spec eng bs) as (_ & Hentries & _).
    destruct (Hentries k n Hin) as (Hn & Hpos & _).
    assert (Hc : n = created_in eng k w).
    { rewrite Hn. unfold created_in, bs. now rewrite project_in_month. }
    assert (Hb : Chart.bookings (Chart.to_point eng (k, n)) = n).
    { unfold Chart.to_point. cbn [fst snd].
      now destruct (Chart.split_key k). }
    exists k. unfold booked. cbn [fst snd]. rewrite Hb, <- Hc. auto.
Qed.

Section ChartMonths.

Context (eng : Engine) (w : world).

Hypothesis Hzone : zone_bounded eng.
Hypothesis Hyears : years_in_range eng w.

Let allBookings := map Chart.project_createdAt (bookingCollection w).
Let good (e : Chart.key * Z) : Prop :=
  100 <= fst (fst e) <= 275000 /\ 0 <= snd (fst e) <= 11.
Let idx (e : Chart.key * Z) : Z := month_index (fst e).

Lemma entry_facts (e : Chart.key * Z) :
  In e (Chart.monthMap eng allBookings) ->
  good e /\ snd e = created_in eng (fst e) w /\ 1 <= snd e.
Proof.
  intros Hin. destruct e as [k n].
  destruct (monthMap_spec eng allBookings) as (_ & Hentries & _).
  destruct (Hentries k n Hin) as (Hn & Hpos & b & Hb & Hm).
  unfold allBookings in Hb. apply in_map_iff in Hb.
  destruct Hb as (b0 & <- & Hb0). rewrite project_month_of in Hm.
  repeat split; simpl; try assumption.
  - exact (proj1 (Hyears b0 k Hb0 Hm)).
  - exact (proj2 (Hyears b0 k Hb0 Hm)).
  - exact (proj1 (month_of_range eng b0 k Hm)).
  - exact (proj2 (month_of_range eng b0 k Hm)).
  - rewrite Hn. unfold created_in, allBookings.
    now rewrite project_in_month.
Qed.

Lemma entries_sorted :
  StronglySorted (fun x y => idx x < idx y)
    (sort_by (Chart.to_point eng) (Chart.monthMap eng allBookings)).
Proof.
  apply sort_by_sorted with (good := good).
  - intros a b [Hya Hma] [Hyb Hmb]. now apply compare_months.
  - apply Forall_forall. intros e He. apply (entry_facts e He).
  - destruct (monthMap_spec eng allBookings) as (Hnd & _ & _).
    replace (map idx (Chart.monthMap eng allBookings))
      with (map month_index (map fst (Chart.monthMap eng allBookings)))
      by now rewrite map_map.
    apply NoDup_map_on; [|assumption].
    intros x y Hx Hy. apply in_map_iff in Hx, Hy.
    destruct Hx as (ex & <- & Hex). destruct Hy as (ey & <- & Hey).
    apply month_index_inj.
    + apply (entry_facts ex Hex).
    + apply (entry_facts ey Hey).
Qed.

(** C7, amended.  The booking chart lists calendar months in ascending
    order, at most six of them; each entry carries the label of its month
    and the number of bookings created in that month, which is at least
    one, so that a month without bookings is absent.  A month with bookings
    is left out only when six later months with bookings are listed: the
    chart shows the latest six months that have bookings, however long ago
    they are at the time of the call. *)
Theorem chart_latest_months :
  exists months : list Chart.key,
    Chart.bookingChartData eng w
    = map (fun k => (label k, created_in eng k w)) months
    /\ (List.length months <= 6)%nat
    /\ StronglySorted (fun a b => month_index a < month_index b) months
    /\ (forall k, In k months -> booked eng w k)
    /\ (forall k', booked eng w k' -> ~ In k' months ->
          List.length months = 6%nat
          /\ forall k, In k months -> month_index k' < month_index k).
Proof.
  set (mm := Chart.monthMap eng allBookings).
  set (sorted := sort_by (Chart.to_point eng) mm).
  set (n := (List.length sorted - 6)%nat).
  assert (Hmm : forall e, In e sorted -> In e mm).
  { intros e He.
    apply (Permutation_in _ (Permutation_sym (sort_by_perm _ mm)) He). }
  assert (Hlast : forall e, In e (skipn n sorted) -> In e mm).
  { intros e He. apply Hmm. rewrite <- (firstn_skipn n sorted).
    apply in_or_app. now right. }
  exists (map fst (skipn n sorted)). split; [|split; [|split; [|split]]].
  - unfold Chart.bookingChartData, Chart.chart.
    change (map Chart.project_createdAt (bookingCollection w))
      with allBookings.
    fold mm. rewrite sort_map. fold sorted. rewrite slice_last6_map.
    unfold Chart.slice_last6. fold n. rewrite !map_map.
    apply map_ext_in. intros e He.
    destruct (entry_facts e (Hlast e He)) as ([Hy _] & Hc & _).
    rewrite to_point_in_range by lia. simpl. now rewrite Hc.
  - rewrite length_map. apply (slice_last6_length sorted).
  - apply sorted_map. apply sorted_skipn. apply entries_sorted.
  - intros k Hk. apply in_map_iff in Hk. destruct Hk as (e & <- & He).
    destruct (entry_facts e (Hlast e He)) as (_ & Hc & Hpos).
    unfold booked. now rewrite <- Hc.
  - intros k' Hb Hout.
    destruct (monthMap_spec eng allBookings) as (_ & _ & Hin).
    assert (Hk' : In k' (map fst mm)).
    { apply Hin. unfold allBookings. rewrite project_in_month. exact Hb. }
    apply in_map_iff in Hk'. destruct Hk' as (e' & <- & He').
    assert (Hs : In e' sorted)
      by apply (Permutation_in _ (sort_by_perm _ mm) He').
    rewrite <- (firstn_skipn n sorted) in Hs. apply in_app_or in Hs.
    destruct Hs as [Hs | Hs]; [|exfalso; apply Hout; now apply in_map].
    split.
    + rewrite length_map, length_skipn.
      destruct n as [|n'] eqn:En; [destruct Hs|]. unfold n in En. lia.
    + intros k Hk. apply in_map_iff in Hk. destruct Hk as (e & <- & He).
      apply (sorted_split _ sorted n entries_sorted e' e Hs He).
Qed.

End ChartMonths.

Lemma node_zone_bounded : zone_bounded Node.engine.
Proof. intros t. simpl. unfold JSDate.msPerDay. lia. Qed.

Lemma chart_latest_months_witness :
  zone_bounded Node.engine
  /\ years_in_range Node.engine Sample.history
  /\ Chart.bookingChartData Node.engine Sample.history
     = [("Feb 26", 1); ("Apr 26", 1); ("May 26", 1); ("Jun 26", 1);
        ("Aug 26", 1); ("Sep 26", 1)]
  /\ exists months : list Chart.key,
       Chart.bookingChartData Node.engine Sample.history
       = map (fun k => (label k, created_in Node.engine k Sample.history))
           months
       /\ (List.length months <= 6)%nat
       /\ (forall k, In k months -> booked Node.engine Sample.history k).
Proof.
  assert (Hy : years_in_range Node.engine Sample.history).
  { intros b k Hb Hk. simpl in Hb.
    repeat (destruct Hb as [<- | Hb];
            [vm_compute in Hk; first [discriminate | injection Hk as <-];
             simpl; lia |]).
    destruct Hb. }
  split; [exact node_zone_bounded|]. split; [exact Hy|].
  split; [vm_compute; reflexivity|].
  destruct (chart_latest_months Node.engine Sample.history
              node_zone_bounded Hy) as (months & H1 & H2 & _ & H4 & _).
  exists months. auto.
Defined.

(** C7 as stated fails: a store whose only booking was created in November
    2023 gives, at a call in November 2026, a chart with the entry
    "Nov 23", and no month of the trailing window has that label. *)
Lemma chart_latest_months_counterexample :
  Chart.bookingChartData Node.engine Sample.pending = [("Nov 23", 1)]
  /\ ~ window_chart Node.engine Sample.pending Sample.november_2026.
Proof.
  split; [vm_compute; reflexivity|].
  intros H. destruct (H ("Nov 23", 1)) as (k & Hwin & Hlabel & _).
  { vm_compute. auto. }
  destruct Hwin as [Hm Hidx]. destruct k as [y m].
  change (JSDate.getFullYear Node.engine Sample.november_2026) with 2026
    in Hidx.
  change (JSDate.getMonth Node.engine Sample.november_2026) with 10 in Hidx.
  unfold month_index in Hidx. cbn [fst snd] in *.
  assert (Hy : y = 2026) by lia. subst y.
  assert (Hc : m = 4 \/ m = 5 \/ m = 6 \/ m = 7 \/ m = 8 \/ m = 9 \/ m = 10)
    by lia.
  repeat (destruct Hc as [-> | Hc]; [vm_compute in Hlabel; discriminate|]).
  subst m. vm_compute in Hlabel. discriminate.
Qed.

(** * Further properties of the routes *)

(** ** Identifiers *)

(** An identifier that no document is found by is one that no document
    has. *)
Lemma unfound_id (hex : string) (c : Mongo.collection) :
  Mongo.findOne [("_id", VObjectId hex)] c = None ->
  Mongo.has_id (VObjectId hex) c = false.
Proof.
  unfold Mongo.findOne, Mongo.has_id.
  induction c as [|d c IH]; [reflexivity|]. cbn [find existsb].
  destruct (Mongo.matches [("_id", VObjectId hex)] d) eqn:Hm; [discriminate|].
  intros Hc. rewrite (IH Hc), orb_false_r.
  unfold Mongo.matches in Hm. cbn [forallb fst snd] in Hm.
  rewrite andb_true_r in Hm. unfold JS.get.
  destruct (JS.lookup "_id" d) as [v|]; [|reflexivity].
  destruct v; try exact Hm; reflexivity.
Qed.

Lemma matches_id (hex : string) (d : obj) :
  JS.lookup "_id" d = Some (VObjectId hex) ->
  Mongo.matches [("_id", VObjectId hex)] d = true.
Proof.
  intros H. unfold Mongo.matches. cbn [forallb fst snd]. rewrite H.
  simpl. now rewrite String.eqb_refl.
Qed.

(** A document without [_id] goes in under the generated identifier, when
    that is new. *)
Lemma insert_new (hex : string) (d : obj) (c : Mongo.collection) :
  JS.lookup "_id" d = None ->
  Mongo.findOne [("_id", VObjectId hex)] c = None ->
  Mongo.insertOne hex d c
  = inr (VObjectId hex, c ++ [JS.set "_id" (VObjectId hex) d]).
Proof.
  intros Hd Hc. unfold Mongo.insertOne.
  rewrite (get_absent _ _ Hd). cbv beta iota zeta.
  assert (Hid : JS.get "_id" (JS.set "_id" (VObjectId hex) d)
                = VObjectId hex).
  { unfold JS.get. now rewrite lookup_set_same. }
  rewrite Hid, (unfound_id _ _ Hc). reflexivity.
Qed.

(** ** Booking creation, the whole of it *)

Section Bookings.

Lemma stored_booking_lookup (c : call) (k : string) :
  JS.lookup k (stored_booking c)
  = if String.eqb k "_id" then Some (VObjectId (fresh_id c))
    else if String.eqb k "paymentStatus"
      then Some (JS.get "paymentStatus" (req_body c) ||| VStr "unpaid")
    else if String.eqb k "status"
      then Some (JS.get "status" (req_body c) ||| VStr "pending")
    else if String.eqb k "createdAt" then Some (VDate (now c))
    else JS.lookup k (req_body c).
Proof.
  unfold stored_booking. rewrite !lookup_set.
  destruct (String.eqb k "_id"); [reflexivity|].
  assert (Hs : JS.get "status" (JS.set "createdAt" (VDate (now c)) (req_body c))
               = JS.get "status" (req_body c)).
  { unfold JS.get. now rewrite lookup_set. }
  assert (Hp : JS.get "paymentStatus"
                 (JS.set "status"
                    (JS.get "status"
                       (JS.set "createdAt" (VDate (now c)) (req_body c))
                     ||| VStr "pending")
                    (JS.set "createdAt" (VDate (now c)) (req_body c)))
               = JS.get "paymentStatus" (req_body c)).
  { unfold JS.get. now rewrite !lookup_set. }
  now rewrite Hp, Hs.
Qed.

(** The handler on a request that has the three required fields. *)
Lemma post_bookings_run (c : call) (w : world) :
  JS.truthy (JS.get "tourId" (req_body c)) = true ->
  JS.truthy (JS.get "userEmail" (req_body c)) = true ->
  JS.truthy (JS.get "travelDate" (req_body c)) = true ->
  JS.lookup "_id" (req_body c) = None ->
  Mongo.findOne [("_id", VObjectId (fresh_id c))] (bookingCollection w)
    = None ->
  post_bookings c w
  = ({| status := 200;
        body := VObject [("acknowledged", VBool true);
                         ("insertedId", VObjectId (fresh_id c))] |},
     with_bookings (bookingCollection w ++ [stored_booking c]) w).
Proof.
  intros H1 H2 H3 Hid Hnew. unfold post_bookings. handler.
  rewrite H1, H2, H3. step. cbn [orb].
  set (booking := JS.set "paymentStatus" _ _).
  assert (Hnone : JS.lookup "_id" booking = None).
  { unfold booking. now rewrite !lookup_set, Hid. }
  rewrite (insert_new _ _ _ Hnone Hnew). reflexivity.
Qed.

(** X1.  A booking is stored with the server's clock as [createdAt], with the
    status and payment status of the request or else "pending" and
    "unpaid", under the generated identifier, and with every other field
    of the request as it came. *)
Theorem post_bookings_stores (c : call) (w : world) :
  JS.truthy (JS.get "tourId" (req_body c)) = true ->
  JS.truthy (JS.get "userEmail" (req_body c)) = true ->
  JS.truthy (JS.get "travelDate" (req_body c)) = true ->
  JS.lookup "_id" (req_body c) = None ->
  Mongo.findOne [("_id", VObjectId (fresh_id c))] (bookingCollection w)
    = None ->
  let out := post_bookings c w in
  exists stored,
    bookingCollection (snd out) = bookingCollection w ++ [stored]
    /\ paymentCollection (snd out) = paymentCollection w
    /\ usersCollection (snd out) = usersCollection w
    /\ stripe_created (snd out) = stripe_created w
    /\ fst out = {| status := 200;
                    body := VObject [("acknowledged", VBool true);
                                     ("insertedId", VObjectId (fresh_id c))] |}
    /\ JS.get "_id" stored = VObjectId (fresh_id c)
    /\ JS.get "createdAt" stored = VDate (now c)
    /\ JS.get "status" stored
       = (JS.get "status" (req_body c) ||| VStr "pending")
    /\ JS.get "paymentStatus" stored
       = (JS.get "paymentStatus" (req_body c) ||| VStr "unpaid")
    /\ forall k, k <> "_id" -> k <> "createdAt" -> k <> "status" ->
                 k <> "paymentStatus" ->
                 JS.lookup k stored = JS.lookup k (req_body c).
Proof.
  intros H1 H2 H3 Hid Hnew out. subst out.
  rewrite (post_bookings_run c w H1 H2 H3 Hid Hnew).
  exists (stored_booking c). cbn [fst snd with_bookings bookingCollection
    paymentCollection usersCollection stripe_created status body].
  repeat (split; [reflexivity|]).
  unfold JS.get. rewrite !stored_booking_lookup. cbn [String.eqb].
  repeat (split; [reflexivity|]).
  intros k K1 K2 K3 K4. rewrite stored_booking_lookup.
  apply String.eqb_neq in K1, K2, K3, K4. now rewrite K1, K2, K3, K4.
Qed.

(** A required field that is present but falsy (an empty string, 0, null,
    false) is rejected like a missing one, before any write. *)
Lemma post_bookings_falsy_field (c : call) (w : world) :
  JS.truthy (JS.get "tourId" (req_body c)) = false
  \/ JS.truthy (JS.get "userEmail" (req_body c)) = false
  \/ JS.truthy (JS.get "travelDate" (req_body c)) = false ->
  BadRequest (fst (post_bookings c w)) /\ snd (post_bookings c w) = w.
Proof.
  intros H. unfold post_bookings. handler.
  assert (Hcond : negb (JS.truthy (JS.get "tourId" (req_body c)))
                  || negb (JS.truthy (JS.get "userEmail" (req_body c)))
                  || negb (JS.truthy (JS.get "travelDate" (req_body c)))
                  = true).
  { destruct H as [H | [H | H]]; rewrite H; cbn [negb];
      rewrite ?orb_true_r; reflexivity. }
  rewrite Hcond. split; reflexivity.
Qed.

End Bookings.

Lemma post_bookings_stores_witness :
  exists stored,
    bookingCollection (snd (post_bookings Scenario.book Sample.pending))
      = [Sample.booking; stored]
    /\ JS.get "status" stored = VStr "pending"
    /\ JS.get "paymentStatus" stored = VStr "unpaid"
    /\ JS.get "createdAt" stored = VDate 1700001000000
    /\ JS.lookup "pricePerPerson" stored = Some (VNum 120%float).
Proof.
  destruct (post_bookings_stores Scenario.book Sample.pending)
    as (stored & Hb & _ & _ & _ & _ & _ & Hc & Hs & Hp & Hk);
    try reflexivity.
  exists stored. split; [exact Hb|]. split; [exact Hs|].
  split; [exact Hp|]. split; [exact Hc|].
  apply (Hk "pricePerPerson"); discriminate.
Defined.

(** ** Reading, changing and deleting one booking *)

Lemma put_same_bookings (w : world) : with_bookings (bookingCollection w) w = w.
Proof. destruct w; reflexivity. Qed.

Lemma put_same_users (w : world) : with_users (usersCollection w) w = w.
Proof. destruct w; reflexivity. Qed.

Lemma remove_first_split (p : obj -> bool) (c : Mongo.collection) (d : obj) :
  find p c = Some d ->
  exists pre post,
    c = pre ++ d :: post
    /\ Forall (fun x => p x = false) pre
    /\ Mongo.remove_first p c = pre ++ post.
Proof.
  induction c as [|x c IH]; [discriminate|]. cbn [find Mongo.remove_first].
  destruct (p x) eqn:E; intros H.
  - injection H as <-. exists [], c. repeat split. constructor.
  - destruct (IH H) as (pre & post & -> & Hpre & Hrm).
    exists (x :: pre), post. rewrite Hrm. repeat split. now constructor.
Qed.

Lemma count_find_none (q : obj) (c : Mongo.collection) :
  Mongo.countDocuments q c = 0%nat -> Mongo.findOne q c = None.
Proof.
  unfold Mongo.countDocuments, Mongo.findOne.
  induction c as [|d c IH]; [reflexivity|]. cbn [filter find].
  destruct (Mongo.matches q d); [discriminate | exact IH].
Qed.

Lemma count_remove_first (q : obj) (c : Mongo.collection) (d : obj) :
  Mongo.findOne q c = Some d ->
  S (Mongo.countDocuments q (Mongo.remove_first (Mongo.matches q) c))
  = Mongo.countDocuments q c.
Proof.
  unfold Mongo.countDocuments, Mongo.findOne.
  induction c as [|x c IH]; [discriminate|].
  cbn [find filter Mongo.remove_first].
  destruct (Mongo.matches q x) eqn:E; intros H.
  - reflexivity.
  - cbn [filter]. rewrite E. now apply IH.
Qed.




Section OneBooking.

Context (eng : Engine).

(** X2.  [GET /bookings/:id] never changes the world.  It answers 500 when the
    [ObjectId] constructor rejects the identifier, 404 when no booking has
    it, and else sends the booking found. *)
Theorem get_bookings_id_outcomes (c : call) (w : world) :
  let id := JS.get "id" (req_params c) in
  let out := get_bookings_id eng c w in
  snd out = w
  /\ (forall e, ObjectId_new eng id = inl e -> Internal (fst out))
  /\ (forall hex, ObjectId_new eng id = inr hex ->
        Mongo.findOne [("_id", VObjectId hex)] (bookingCollection w) = None ->
        NotFound (fst out))
  /\ (forall hex booking, ObjectId_new eng id = inr hex ->
        Mongo.findOne [("_id", VObjectId hex)] (bookingCollection w)
          = Some booking ->
        fst out = {| status := 200; body := VObject booking |}).
Proof.
  intros id out. subst out. unfold get_bookings_id. handler. fold id.
  destruct (ObjectId_new eng id) as [e | hex]; step.
  - split; [reflexivity|]. split; [reflexivity|].
    split; intros; discriminate.
  - split.
    { now destruct (Mongo.findOne _ (bookingCollection w)). }
    split; [intros; discriminate|]. split.
    + intros hex' [= <-] Hb. now rewrite Hb.
    + intros hex' b' [= <-] Hb. now rewrite Hb.
Qed.

(** X3.  The booking that [POST /bookings] has stored is the one that
    [GET /bookings/:id] sends for the identifier the insert returned. *)
Theorem created_booking_is_fetched (c c' : call) (w : world) :
  JS.truthy (JS.get "tourId" (req_body c)) = true ->
  JS.truthy (JS.get "userEmail" (req_body c)) = true ->
  JS.truthy (JS.get "travelDate" (req_body c)) = true ->
  JS.lookup "_id" (req_body c) = None ->
  Mongo.findOne [("_id", VObjectId (fresh_id c))] (bookingCollection w)
    = None ->
  names_id c' (fresh_id c) ->
  ObjectId_new eng (VStr (fresh_id c)) = inr (fresh_id c) ->
  let w' := snd (post_bookings c w) in
  exists stored,
    get_bookings_id eng c' w'
    = ({| status := 200; body := VObject stored |}, w')
    /\ JS.get "_id" stored = VObjectId (fresh_id c)
    /\ JS.get "createdAt" stored = VDate (now c)
    /\ forall k, k <> "_id" -> k <> "createdAt" -> k <> "status" ->
                 k <> "paymentStatus" ->
                 JS.lookup k stored = JS.lookup k (req_body c).
Proof.
  intros H1 H2 H3 Hid Hnew Hc' Hctor w'. subst w'.
  rewrite (post_bookings_run c w H1 H2 H3 Hid Hnew). cbn [snd].
  exists (stored_booking c). split; [|split; [|split]].
  - unfold get_bookings_id. handler. rewrite Hc', Hctor. step.
    cbn [with_bookings bookingCollection].
    rewrite findOne_app, Hnew.
    assert (Hm : Mongo.matches [("_id", VObjectId (fresh_id c))]
                   (stored_booking c) = true).
    { apply matches_id. rewrite stored_booking_lookup. reflexivity. }
    destruct (single_match _ _ Hm) as [-> _]. reflexivity.
  - unfold JS.get. now rewrite stored_booking_lookup.
  - unfold JS.get. now rewrite stored_booking_lookup.
  - intros k K1 K2 K3 K4. rewrite stored_booking_lookup.
    apply String.eqb_neq in K1, K2, K3, K4. now rewrite K1, K2, K3, K4.
Qed.



End OneBooking.

Lemma created_booking_is_fetched_witness :
  let stored := snd (post_bookings Scenario.book Sample.pending) in
  exists booking,
    get_bookings_id Node.engine
      (Scenario.by_id "65a1b2c3d4e5f60718293a5a" []) stored
    = ({| status := 200; body := VObject booking |}, stored)
    /\ JS.get "createdAt" booking = VDate 1700001000000
    /\ JS.lookup "tourId" booking = Some (VStr "t2").
Proof.
  destruct (created_booking_is_fetched Node.engine Scenario.book
              (Scenario.by_id "65a1b2c3d4e5f60718293a5a" []) Sample.pending)
    as (booking & Hget & _ & Hc & Hk); try reflexivity.
  exists booking. split; [exact Hget|]. split; [exact Hc|].
  apply (Hk "tourId"); discriminate.
Defined.

Lemma get_bookings_id_outcomes_witness :
  Internal (fst (get_bookings_id Node.engine (Scenario.by_id "17" [])
                   Sample.pending))
  /\ NotFound (fst (get_bookings_id Node.engine
                      (Scenario.by_id "65a1b2c3d4e5f60718293aff" [])
                      Sample.pending))
  /\ fst (get_bookings_id Node.engine (Scenario.by_id Sample.booking_id [])
            Sample.pending)
     = {| status := 200; body := VObject Sample.booking |}.
Proof.
  split; [|split].
  - destruct (get_bookings_id_outcomes Node.engine (Scenario.by_id "17" [])
                Sample.pending) as (_ & H & _).
    apply (H Node.invalid_id). reflexivity.
  - destruct (get_bookings_id_outcomes Node.engine
                (Scenario.by_id "65a1b2c3d4e5f60718293aff" [])
                Sample.pending) as (_ & _ & H & _).
    apply (H "65a1b2c3d4e5f60718293aff"); reflexivity.
  - destruct (get_bookings_id_outcomes Node.engine
                (Scenario.by_id Sample.booking_id []) Sample.pending)
      as (_ & _ & _ & H).
    apply (H Sample.booking_id); reflexivity.
Defined.



Section ChangeBooking.

Context (eng : Engine).


(** X6.  [DELETE /bookings/:id] answers 404 and changes nothing when no booking
    has the identifier; else it removes that booking and no other, keeps
    the order of the rest, and touches no other collection: the payments
    recorded for the booking stay. *)
Theorem delete_bookings_id_removes (c : call) (w : world) (hex : string) :
  ObjectId_new eng (JS.get "id" (req_params c)) = inr hex ->
  let out := delete_bookings_id eng c w in
  (Mongo.findOne [("_id", VObjectId hex)] (bookingCollection w) = None ->
   NotFound (fst out) /\ snd out = w)
  /\ (forall booking,
        Mongo.findOne [("_id", VObjectId hex)] (bookingCollection w)
          = Some booking ->
        exists pre post,
          status (fst out) = 200
          /\ bookingCollection w = pre ++ booking :: post
          /\ Forall (fun d => Mongo.matches [("_id", VObjectId hex)] d = false)
               pre
          /\ snd out = with_bookings (pre ++ post) w).
Proof.
  intros Hid out. subst out. unfold delete_bookings_id. handler.
  rewrite Hid. step. unfold Mongo.deleteOne. split.
  - intros Hnone. rewrite Hnone. cbn [fst snd Z.eqb]. split; [reflexivity|].
    cbn [snd]. apply put_same_bookings.
  - intros b Hfind. rewrite Hfind. cbn [fst snd Z.eqb].
    unfold Mongo.findOne in Hfind.
    destruct (remove_first_split _ _ _ Hfind) as (pre & post & Hc & Hpre & Hrm).
    exists pre, post. rewrite Hrm. auto.
Qed.

(** X7.  In a store where one booking has the identifier, a deleted booking is
    gone: [GET /bookings/:id] answers 404 after [DELETE /bookings/:id]. *)
Theorem deleted_booking_is_gone (c c' : call) (w : world) (hex : string) :
  ObjectId_new eng (JS.get "id" (req_params c)) = inr hex ->
  JS.get "id" (req_params c') = JS.get "id" (req_params c) ->
  Mongo.countDocuments [("_id", VObjectId hex)] (bookingCollection w)
    = 1%nat ->
  let w' := snd (delete_bookings_id eng c w) in
  status (fst (delete_bookings_id eng c w)) = 200
  /\ List.length (bookingCollection w')
     = pred (List.length (bookingCollection w))
  /\ NotFound (fst (get_bookings_id eng c' w'))
  /\ snd (get_bookings_id eng c' w') = w'.
Proof.
  intros Hid Hc' Hone w'.
  destruct (Mongo.findOne [("_id", VObjectId hex)] (bookingCollection w))
    as [b|] eqn:Hfind.
  2:{ apply count_none in Hfind. congruence. }
  assert (Hrun : delete_bookings_id eng c w
                 = ({| status := 200; body := Mongo.delete_value 1 |},
                    with_bookings
                      (Mongo.remove_first
                         (Mongo.matches [("_id", VObjectId hex)])
                         (bookingCollection w)) w)).
  { unfold delete_bookings_id. handler. rewrite Hid. step.
    unfold Mongo.deleteOne. now rewrite Hfind. }
  subst w'. rewrite Hrun. cbn [fst snd status]. split; [reflexivity|].
  assert (Hgone : Mongo.findOne [("_id", VObjectId hex)]
                    (Mongo.remove_first
                       (Mongo.matches [("_id", VObjectId hex)])
                       (bookingCollection w)) = None).
  { apply count_find_none. pose proof (count_remove_first _ _ _ Hfind). lia. }
  split.
  - cbn [with_bookings bookingCollection]. unfold Mongo.findOne in Hfind.
    destruct (remove_first_split _ _ _ Hfind) as (pre & post & Hc & _ & Hrm).
    rewrite Hrm, Hc, !length_app. cbn [List.length]. lia.
  - unfold get_bookings_id. handler. rewrite Hc', Hid. step.
    cbn [with_bookings bookingCollection]. rewrite Hgone.
    split; reflexivity.
Qed.

End ChangeBooking.

(** ** Listing bookings *)

Section ListBookings.

Context (db : Database).

Lemma bookings_query_matches (c : call) (d : obj) :
  Mongo.matches (bookings_query c) d = wanted c d.
Proof.
  unfold bookings_query, wanted.
  destruct (JS.truthy (JS.get "email" (req_query c)));
    destruct (JS.truthy (JS.get "status" (req_query c)));
    destruct (JS.truthy (JS.get "userId" (req_query c)));
    cbn [JS.set String.eqb Ascii.eqb Bool.eqb]; unfold Mongo.matches;
    cbn [forallb fst snd negb orb andb];
    rewrite ?andb_true_r, ?andb_assoc; reflexivity.
Qed.

(** X8.  [GET /bookings] sends, in the order of the database's sort, exactly the
    bookings that match every filter given in the query string, and all
    bookings when none is given; it changes nothing. *)
Theorem get_bookings_lists (c : call) (w : world) :
  sort_permutes db ->
  plain_param (JS.get "email" (req_query c)) ->
  plain_param (JS.get "status" (req_query c)) ->
  plain_param (JS.get "userId" (req_query c)) ->
  let out := get_bookings db c w in
  snd out = w
  /\ exists l,
       fst out = {| status := 200; body := VArray (map VObject l) |}
       /\ Permutation (filter (wanted c) (bookingCollection w)) l
       /\ (JS.lookup "email" (req_query c) = None ->
           JS.lookup "status" (req_query c) = None ->
           JS.lookup "userId" (req_query c) = None ->
           Permutation (bookingCollection w) l).
Proof.
  intros Hsort _ _ _ out. subst out. unfold get_bookings. handler.
  cbn [fst snd]. split; [reflexivity|].
  exists (sort_desc db "createdAt"
            (Mongo.find (bookings_query c) (bookingCollection w))).
  split; [reflexivity|].
  assert (Hfind : Mongo.find (bookings_query c) (bookingCollection w)
                  = filter (wanted c) (bookingCollection w)).
  { unfold Mongo.find. apply filter_ext. intros d.
    apply bookings_query_matches. }
  rewrite Hfind. split; [apply Hsort|].
  intros He Hs Hu.
  assert (Hall : forall d, wanted c d = true).
  { intros d. unfold wanted.
    now rewrite (get_absent _ _ He), (get_absent _ _ Hs), (get_absent _ _ Hu). }
  assert (Hsame : filter (wanted c) (bookingCollection w)
                  = bookingCollection w).
  { clear Hfind. induction (bookingCollection w) as [|d l IH];
      [reflexivity|]. cbn [filter]. now rewrite Hall, IH. }
  rewrite Hsame. apply Hsort.
Qed.

End ListBookings.


Lemma delete_bookings_id_removes_witness :
  let out := delete_bookings_id Node.engine
               (Scenario.by_id Sample.booking_id []) Scenario.two_bookings in
  exists pre post,
    status (fst out) = 200
    /\ bookingCollection Scenario.two_bookings = pre ++ Sample.booking :: post
    /\ snd out = with_bookings (pre ++ post) Scenario.two_bookings.
Proof.
  destruct (delete_bookings_id_removes Node.engine
              (Scenario.by_id Sample.booking_id []) Scenario.two_bookings
              Sample.booking_id) as (_ & H); [reflexivity|].
  destruct (H Sample.booking) as (pre & post & H1 & H2 & _ & H3);
    [reflexivity|].
  exists pre, post. auto.
Defined.

Lemma deleted_booking_is_gone_witness :
  let c := Scenario.by_id Sample.booking_id [] in
  let w' := snd (delete_bookings_id Node.engine c Scenario.two_bookings) in
  bookingCollection w' = [Scenario.cancelled]
  /\ NotFound (fst (get_bookings_id Node.engine c w')).
Proof.
  split; [reflexivity|].
  apply (deleted_booking_is_gone Node.engine
           (Scenario.by_id Sample.booking_id [])
           (Scenario.by_id Sample.booking_id [])
           Scenario.two_bookings Sample.booking_id); reflexivity.
Defined.

Lemma insert_desc_perm (key : string) (a : obj) (l : list obj) :
  Permutation (a :: l) (Node.insert_desc key a l).
Proof.
  induction l as [|b l IH]; [reflexivity|]. cbn [Node.insert_desc].
  destruct (Node.not_after key b a); [reflexivity|].
  rewrite perm_swap. now apply perm_skip.
Qed.

Lemma node_sort_permutes : sort_permutes Node.database.
Proof.
  intros key l. cbn [sort_desc Node.database].
  induction l as [|a l IH]; [reflexivity|]. cbn [fold_right].
  rewrite <- insert_desc_perm. now apply perm_skip.
Qed.

Lemma get_bookings_lists_witness :
  let out := get_bookings Node.database
               (Scenario.listing [("status", VStr "cancelled")])
               Scenario.two_bookings in
  exists l,
    fst out = {| status := 200; body := VArray (map VObject l) |}
    /\ Permutation [Scenario.cancelled] l.
Proof.
  destruct (get_bookings_lists Node.database
              (Scenario.listing [("status", VStr "cancelled")])
              Scenario.two_bookings node_sort_permutes I I I)
    as (_ & l & Hout & Hperm & _).
  exists l. split; [exact Hout | exact Hperm].
Defined.

(** ** The reconciler, case by case *)

Lemma put_same_payments (w : world) :
  with_payments (paymentCollection w) w = w.
Proof. destruct w; reflexivity. Qed.

(** The [bookingId] of a stored payment is the one of the session's
    metadata, or the empty string. *)
Lemma stored_payment_bookingId (c : call) (session : Stripe.Session) :
  JS.get "bookingId" (stored_payment c session)
  = (JS.get "bookingId" (Stripe.meta session) ||| VStr "").
Proof.
  unfold stored_payment. unfold JS.get at 1. rewrite lookup_set.
  reflexivity.
Qed.

Section ConfirmCases.

Context (eng : Engine) (stripe : Stripe.Client).

(** The reconciler on a paid session that has no payment on record. *)
Lemma confirm_paid_run (c : call) (w : world) (session : Stripe.Session) :
  JS.truthy (JS.get "session_id" (req_query c)) = true ->
  Stripe.sessions_retrieve stripe (JS.get "session_id" (req_query c))
    = inr session ->
  Stripe.payment_status session = "paid" ->
  Mongo.findOne
    [("transactionId", Stripe.opt_string (Stripe.payment_intent session))]
    (paymentCollection w) = None ->
  Mongo.has_id (VObjectId (fresh_id c)) (paymentCollection w) = false ->
  let transactionId := Stripe.opt_string (Stripe.payment_intent session) in
  let bookingId := JS.get "bookingId" (Stripe.meta session) in
  let recorded :=
    with_payments (paymentCollection w ++ [stored_payment c session]) w in
  let confirmed booking :=
    {| status := 200;
       body := VObject [("success", VBool true);
                        ("transactionId", transactionId);
                        ("paymentId", VObjectId (fresh_id c));
                        ("bookingId", bookingId);
                        ("booking", booking)] |} in
  get_booking_success eng stripe c w
  = if JS.truthy bookingId then
      match ObjectId_new eng bookingId with
      | inl e =>
          ({| status := 500; body := failure "Failed to confirm booking" e |},
           recorded)
      | inr hex =>
          match Mongo.findOne [("_id", VObjectId hex)] (bookingCollection w)
          with
          | Some booking =>
              (confirmed
                 (VObject (JS.assign booking (booking_paid c transactionId))),
               reconciled c session hex booking w)
          | None => (confirmed VNull, recorded)
          end
      end
    else (confirmed VNull, recorded).
Proof.
  intros Ht Hs Hpaid Hnone Hfresh tx bid recorded confirmed.
  assert (Hpaid' : String.eqb (Stripe.payment_status session) "paid" = true).
  { now rewrite Hpaid. }
  unfold get_booking_success. handler.
  rewrite Ht, Hs. step. rewrite Hnone, Hpaid'. step.
  rewrite (insert_payment c session _ Hfresh). step.
  fold bid. destruct (JS.truthy bid); step; [|reflexivity].
  destruct (ObjectId_new eng bid) as [e | hex]; step; [reflexivity|].
  unfold Mongo.updateOne. cbn [bookingCollection].
  destruct (Mongo.findOne [("_id", VObjectId hex)] (bookingCollection w))
    as [b|] eqn:Hfind.
  - rewrite booking_paid_keeps_id. step. cbn [fst snd bookingCollection].
    fold tx. set (b' := JS.assign b (booking_paid c tx)).
    assert (Hm : Mongo.matches [("_id", VObjectId hex)] b' = true).
    { destruct (findOne_some _ _ _ Hfind) as [_ Hm].
      unfold Mongo.matches in *. cbn [forallb fst snd] in *. unfold b'.
      rewrite booking_paid_lookup. exact Hm. }
    rewrite (findOne_update_first _ _ _ _ Hfind Hm). reflexivity.
  - step. cbn [fst snd bookingCollection]. rewrite Hfind. reflexivity.
Qed.

(** X9.  The reconciler fails before any write: a missing session identifier is
    a BadRequest, a session the provider cannot retrieve is an internal
    error, and in both cases the world is as it was. *)
Theorem confirm_fails_early (c : call) (w : world) :
  let session_id := JS.get "session_id" (req_query c) in
  let out := get_booking_success eng stripe c w in
  (JS.truthy session_id = false -> BadRequest (fst out) /\ snd out = w)
  /\ (forall e, JS.truthy session_id = true ->
        Stripe.sessions_retrieve stripe session_id = inl e ->
        Internal (fst out) /\ snd out = w).
Proof.
  intros sid out. subst out. unfold get_booking_success. handler. fold sid.
  split.
  - intros H. rewrite H. split; reflexivity.
  - intros e Ht He. rewrite Ht, He. split; reflexivity.
Qed.

(** X10.  A paid session that leads to no booking is recorded all the same,
    whether its metadata names no booking or one that does not exist: the
    payment goes in, with the [bookingId] of the metadata or the empty
    string, the update matches nothing and creates nothing, and the answer
    is Confirmed with no booking. *)
Theorem confirm_without_booking (c : call) (w : world)
    (session : Stripe.Session) :
  JS.truthy (JS.get "session_id" (req_query c)) = true ->
  Stripe.sessions_retrieve stripe (JS.get "session_id" (req_query c))
    = inr session ->
  Stripe.payment_status session = "paid" ->
  Mongo.findOne
    [("transactionId", Stripe.opt_string (Stripe.payment_intent session))]
    (paymentCollection w) = None ->
  Mongo.has_id (VObjectId (fresh_id c)) (paymentCollection w) = false ->
  let bookingId := JS.get "bookingId" (Stripe.meta session) in
  (JS.truthy bookingId = true ->
   exists hex,
     ObjectId_new eng bookingId = inr hex
     /\ Mongo.findOne [("_id", VObjectId hex)] (bookingCollection w) = None) ->
  let out := get_booking_success eng stripe c w in
  Confirmed (Stripe.opt_string (Stripe.payment_intent session))
    (VObjectId (fresh_id c)) bookingId VNull (fst out)
  /\ snd out
     = with_payments (paymentCollection w ++ [stored_payment c session]) w
  /\ JS.get "bookingId" (stored_payment c session)
     = if JS.truthy bookingId then bookingId else VStr "".
Proof.
  intros Ht Hs Hpaid Hnone Hfresh bid Hbid out. subst out.
  rewrite (confirm_paid_run c w session Ht Hs Hpaid Hnone Hfresh).
  rewrite stored_payment_bookingId. fold bid. unfold JS.or.
  destruct (JS.truthy bid).
  - destruct (Hbid eq_refl) as (hex & -> & ->).
    split; [reflexivity|]. split; reflexivity.
  - split; [reflexivity|]. split; reflexivity.
Qed.

(** X11.  When the metadata carries a [bookingId] that the [ObjectId] constructor
    rejects, the call fails with 500 after the payment has been written and
    before any booking is touched.  A retry finds the payment, answers
    AlreadyRecorded and changes nothing: no later call confirms the
    booking. *)
Theorem confirm_partial_failure (c c2 : call) (w : world)
    (session : Stripe.Session) (e : string) :
  JS.truthy (JS.get "session_id" (req_query c)) = true ->
  JS.get "session_id" (req_query c2) = JS.get "session_id" (req_query c) ->
  Stripe.sessions_retrieve stripe (JS.get "session_id" (req_query c))
    = inr session ->
  Stripe.payment_status session = "paid" ->
  Mongo.findOne
    [("transactionId", Stripe.opt_string (Stripe.payment_intent session))]
    (paymentCollection w) = None ->
  Mongo.has_id (VObjectId (fresh_id c)) (paymentCollection w) = false ->
  JS.truthy (JS.get "bookingId" (Stripe.meta session)) = true ->
  ObjectId_new eng (JS.get "bookingId" (Stripe.meta session)) = inl e ->
  let first := get_booking_success eng stripe c w in
  let second := get_booking_success eng stripe c2 (snd first) in
  Internal (fst first)
  /\ snd first
     = with_payments (paymentCollection w ++ [stored_payment c session]) w
  /\ AlreadyRecorded (Stripe.opt_string (Stripe.payment_intent session))
       (stored_payment c session) (fst second)
  /\ snd second = snd first.
Proof.
  intros Ht Heq Hs Hpaid Hnone Hfresh Hbid Hid first second.
  subst second first.
  rewrite (confirm_paid_run c w session Ht Hs Hpaid Hnone Hfresh).
  rewrite Hbid, Hid. cbn [fst snd].
  split; [reflexivity|]. split; [reflexivity|].
  assert (Hfound : Mongo.findOne
            [("transactionId",
              Stripe.opt_string (Stripe.payment_intent session))]
            (paymentCollection
               (with_payments
                  (paymentCollection w ++ [stored_payment c session]) w))
            = Some (stored_payment c session)).
  { cbn [with_payments paymentCollection]. rewrite findOne_app, Hnone.
    now destruct (single_match _ _ (stored_payment_matches c session)). }
  assert (Ht2 : JS.truthy (JS.get "session_id" (req_query c2)) = true)
    by now rewrite Heq.
  assert (Hs2 : Stripe.sessions_retrieve stripe
                  (JS.get "session_id" (req_query c2)) = inr session)
    by now rewrite Heq.
  rewrite (confirm_existing eng stripe c2 _ session _ Ht2 Hs2 Hfound).
  split; reflexivity.
Qed.

(** X12.  Whatever the request, the reconciler adds no booking and removes none,
    changes in a booking nothing but [paymentStatus], [status],
    [transactionId] and [updatedAt], and touches neither the users nor the
    provider. *)
Theorem confirm_frame (c : call) (w : world) :
  let out := get_booking_success eng stripe c w in
  Forall2 booking_frame (bookingCollection w) (bookingCollection (snd out))
  /\ usersCollection (snd out) = usersCollection w
  /\ stripe_created (snd out) = stripe_created w.
Proof.
  intros out. subst out.
  assert (Hrefl : forall d, booking_frame d d) by (intros d k; reflexivity).
  assert (Hsame : Forall2 booking_frame (bookingCollection w)
                    (bookingCollection w)) by now apply Forall2_refl.
  unfold get_booking_success. handler.
  destruct (JS.truthy (JS.get "session_id" (req_query c))); step; [|auto].
  destruct (Stripe.sessions_retrieve stripe _) as [e | session]; step;
    [auto|].
  destruct (Mongo.findOne _ (paymentCollection w)); [auto|].
  destruct (String.eqb (Stripe.payment_status session) "paid"); [|auto].
  destruct (Mongo.insertOne _ _ _) as [e | r]; step; [auto|].
  destruct (JS.truthy (JS.get "bookingId" (Stripe.meta session))); step;
    [|auto].
  destruct (ObjectId_new eng (JS.get "bookingId" (Stripe.meta session)))
    as [e | hex]; step; [auto|].
  unfold Mongo.updateOne. cbn [bookingCollection].
  destruct (Mongo.findOne [("_id", VObjectId hex)] (bookingCollection w))
    as [b|] eqn:Hfind.
  - rewrite booking_paid_keeps_id. step.
    cbn [fst snd bookingCollection usersCollection stripe_created].
    split; [|auto]. unfold Mongo.findOne in Hfind.
    rewrite (update_first_find _
               (fun d => JS.assign d (booking_paid c
                  (Stripe.opt_string (Stripe.payment_intent session))))
               _ _ Hfind).
    apply update_first_Forall2; auto.
    intros d k K1 K2 K3 K4. rewrite booking_paid_lookup.
    apply String.eqb_neq in K1, K2, K3, K4. now rewrite K1, K2, K3, K4.
  - step. cbn [fst snd bookingCollection usersCollection stripe_created].
    auto.
Qed.

End ConfirmCases.

Lemma confirm_fails_early_witness :
  BadRequest (fst (get_booking_success Node.engine Scenario.provider
                     (Sample.confirm "") Sample.pending))
  /\ Internal (fst (get_booking_success Node.engine Scenario.provider
                      (Sample.confirm "cs_unknown") Sample.pending)).
Proof.
  split.
  - apply (confirm_fails_early Node.engine Scenario.provider
             (Sample.confirm "") Sample.pending). reflexivity.
  - destruct (confirm_fails_early Node.engine Scenario.provider
                (Sample.confirm "cs_unknown") Sample.pending) as [_ H].
    apply (H "No such checkout.session: cs_unknown"); reflexivity.
Defined.

Lemma confirm_without_booking_witness :
  let gift := get_booking_success Node.engine Scenario.provider
                (Sample.confirm "cs_gift") Sample.pending in
  let lost := get_booking_success Node.engine Scenario.provider
                (Sample.confirm "cs_lost") Sample.pending in
  Confirmed (VStr "pi_2") (VObjectId "65a1b2c3d4e5f60718293a4c") VUndefined
    VNull (fst gift)
  /\ map (JS.get "bookingId") (paymentCollection (snd gift)) = [VStr ""]
  /\ Confirmed (VStr "pi_3") (VObjectId "65a1b2c3d4e5f60718293a4c")
       (VStr "65a1b2c3d4e5f60718293aff") VNull (fst lost)
  /\ bookingCollection (snd lost) = [Sample.booking].
Proof.
  destruct (confirm_without_booking Node.engine Scenario.provider
              (Sample.confirm "cs_gift") Sample.pending
              (Scenario.paid "pi_2" [("tourId", "t1")]))
    as (Hgift & Hw & _); try reflexivity.
  { discriminate. }
  destruct (confirm_without_booking Node.engine Scenario.provider
              (Sample.confirm "cs_lost") Sample.pending
              (Scenario.paid "pi_3"
                 [("bookingId", "65a1b2c3d4e5f60718293aff")]))
    as (Hlost & Hw' & _); try reflexivity.
  { intros _. exists "65a1b2c3d4e5f60718293aff". split; reflexivity. }
  split; [exact Hgift|]. split; [now rewrite Hw|].
  split; [exact Hlost|]. now rewrite Hw'.
Defined.

Lemma confirm_partial_failure_witness :
  let first := get_booking_success Node.engine Scenario.provider
                 (Sample.confirm "cs_bad") Sample.pending in
  let second := get_booking_success Node.engine Scenario.provider
                  (Sample.confirm "cs_bad") (snd first) in
  Internal (fst first)
  /\ List.length (paymentCollection (snd first)) = 1%nat
  /\ status (fst second) = 200
  /\ map (JS.get "status") (bookingCollection (snd second))
     = [VStr "pending"].
Proof.
  destruct (confirm_partial_failure Node.engine Scenario.provider
              (Sample.confirm "cs_bad") (Sample.confirm "cs_bad")
              Sample.pending
              (Scenario.paid "pi_4" [("bookingId", "booking-17")])
              Node.invalid_id)
    as (H1 & H2 & H3 & H4); try reflexivity.
  split; [exact H1|]. split; [now rewrite H2|].
  split; [now rewrite H3|]. now rewrite H4, H2.
Defined.

(** ** Starting a payment *)

Section InitiateMore.

Context (eng : Engine) (stripe : Stripe.Client).

(** The session parameters read none of the fields the reconciler sets. *)
Lemma checkout_params_paid (c : call) (tx : value) (booking : obj) :
  checkout_params eng (JS.assign booking (booking_paid c tx))
  = checkout_params eng booking.
Proof.
  unfold checkout_params, amount, JS.get.
  now rewrite !booking_paid_lookup.
Qed.

(** X13.  Starting a payment never writes to a collection, whatever the request,
    and contacts the provider at most once; an answer of 400 or 404 means
    the provider was not contacted. *)
Theorem initiate_frame (c : call) (w : world) :
  let out := post_create_checkout_session eng stripe c w in
  bookingCollection (snd out) = bookingCollection w
  /\ paymentCollection (snd out) = paymentCollection w
  /\ usersCollection (snd out) = usersCollection w
  /\ (stripe_created (snd out) = stripe_created w
      \/ exists p, stripe_created (snd out) = stripe_created w ++ [p])
  /\ (BadRequest (fst out) \/ NotFound (fst out) -> snd out = w).
Proof.
  intros out. subst out. unfold post_create_checkout_session. handler.
  destruct (JS.truthy (JS.get "bookingId" (req_body c))); step;
    [|now auto 6].
  destruct (ObjectId_new eng (JS.get "bookingId" (req_body c)))
    as [e | hex]; step; [now auto 6|].
  destruct (Mongo.findOne _ (bookingCollection w)) as [booking|];
    [|now auto 6].
  destruct (JS.truthy (amount eng booking)); step; [|now auto 6].
  unfold BadRequest, NotFound.
  destruct (Stripe.sessions_create stripe _ _); cbn [fst snd
    bookingCollection paymentCollection usersCollection stripe_created
    status].
  - repeat split; eauto. intros [H | H]; discriminate.
  - repeat split; eauto. intros [H | H]; discriminate.
Qed.

(** X14.  Nothing remembers that a payment was started: a second request for the
    same booking contacts the provider again, with the same parameters. *)
Theorem initiate_twice (c1 c2 : call) (w : world) (hex : string)
    (booking : obj) :
  JS.truthy (JS.get "bookingId" (req_body c1)) = true ->
  JS.get "bookingId" (req_body c2) = JS.get "bookingId" (req_body c1) ->
  ObjectId_new eng (JS.get "bookingId" (req_body c1)) = inr hex ->
  Mongo.findOne [("_id", VObjectId hex)] (bookingCollection w)
    = Some booking ->
  zero_or_NaN (minor_units eng (spec_price eng booking)) = false ->
  let first := post_create_checkout_session eng stripe c1 w in
  let second := post_create_checkout_session eng stripe c2 (snd first) in
  stripe_created (snd second)
  = stripe_created w
    ++ [checkout_params eng booking; checkout_params eng booking].
Proof.
  intros Ht Heq Hid Hfind Hz first second.
  destruct (initiate_charged eng stripe c1 w hex booking Ht Hid Hfind Hz)
    as (_ & Hs1 & Hb1 & _).
  fold first in Hs1, Hb1.
  assert (Ht2 : JS.truthy (JS.get "bookingId" (req_body c2)) = true)
    by now rewrite Heq.
  assert (Hid2 : ObjectId_new eng (JS.get "bookingId" (req_body c2))
                 = inr hex) by now rewrite Heq.
  assert (Hfind2 : Mongo.findOne [("_id", VObjectId hex)]
                     (bookingCollection (snd first)) = Some booking)
    by now rewrite Hb1.
  destruct (initiate_charged eng stripe c2 (snd first) hex booking
              Ht2 Hid2 Hfind2 Hz) as (_ & Hs2 & _).
  fold second in Hs2. rewrite Hs2, Hs1, <- app_assoc. reflexivity.
Qed.

(** X15.  A booking that has been paid and confirmed can be charged again: after
    the reconciler has marked it paid, a request to start a payment for it
    is sent to the provider with the same parameters as before. *)
Theorem paid_booking_charged_again (c c2 : call) (w : world)
    (session : Stripe.Session) (hex : string) (booking : obj) :
  JS.truthy (JS.get "session_id" (req_query c)) = true ->
  Stripe.sessions_retrieve stripe (JS.get "session_id" (req_query c))
    = inr session ->
  Stripe.payment_status session = "paid" ->
  Mongo.findOne
    [("transactionId", Stripe.opt_string (Stripe.payment_intent session))]
    (paymentCollection w) = None ->
  Mongo.has_id (VObjectId (fresh_id c)) (paymentCollection w) = false ->
  JS.truthy (JS.get "bookingId" (Stripe.meta session)) = true ->
  ObjectId_new eng (JS.get "bookingId" (Stripe.meta session)) = inr hex ->
  Mongo.findOne [("_id", VObjectId hex)] (bookingCollection w)
    = Some booking ->
  JS.truthy (JS.get "bookingId" (req_body c2)) = true ->
  ObjectId_new eng (JS.get "bookingId" (req_body c2)) = inr hex ->
  zero_or_NaN (minor_units eng (spec_price eng booking)) = false ->
  let paid := snd (get_booking_success eng stripe c w) in
  let out := post_create_checkout_session eng stripe c2 paid in
  (exists stored,
     Mongo.findOne [("_id", VObjectId hex)] (bookingCollection paid)
       = Some stored
     /\ JS.get "paymentStatus" stored = VStr "paid")
  /\ stripe_created (snd out)
     = stripe_created w ++ [checkout_params eng booking]
  /\ ~ InvalidAmount (fst out).
Proof.
  intros Ht Hs Hpaid Hnone Hfresh Hbid Hid Hfind Ht2 Hid2 Hz paid out.
  set (tx := Stripe.opt_string (Stripe.payment_intent session)).
  set (stored := JS.assign booking (booking_paid c tx)).
  assert (Hpaidw : paid = reconciled c session hex booking w).
  { unfold paid.
    rewrite (confirm_paid_run eng stripe c w session Ht Hs Hpaid Hnone
               Hfresh).
    now rewrite Hbid, Hid, Hfind. }
  assert (Hstored : Mongo.findOne [("_id", VObjectId hex)]
                      (bookingCollection paid) = Some stored).
  { rewrite Hpaidw. cbn [reconciled bookingCollection]. fold tx stored.
    apply (findOne_update_first _ _ booking); [exact Hfind|].
    destruct (findOne_some _ _ _ Hfind) as [_ Hm].
    unfold Mongo.matches in *. cbn [forallb fst snd] in *. unfold stored.
    rewrite booking_paid_lookup. exact Hm. }
  assert (Hcents : zero_or_NaN (minor_units eng (spec_price eng stored))
                   = false).
  { unfold minor_units, spec_price, spec_guest_count, stored, JS.get in *.
    now rewrite !booking_paid_lookup. }
  destruct (initiate_charged eng stripe c2 paid hex stored Ht2 Hid2 Hstored
              Hcents) as (_ & Hs2 & _ & Hinv).
  fold out in Hs2, Hinv.
  split; [|split; [|exact Hinv]].
  - exists stored. split; [exact Hstored|].
    unfold stored, JS.get. now rewrite booking_paid_lookup.
  - rewrite Hs2. unfold stored. rewrite checkout_params_paid.
    now rewrite Hpaidw.
Qed.

End InitiateMore.

Lemma initiate_twice_witness :
  let c := Sample.initiate (VStr Sample.booking_id) in
  let first := post_create_checkout_session Node.engine Sample.provider c
                 Sample.pending in
  let second := post_create_checkout_session Node.engine Sample.provider c
                  (snd first) in
  map Stripe.unit_amount (stripe_created (snd second))
  = [VNum 10000%float; VNum 10000%float].
Proof.
  intros c first second. unfold second, first, c.
  rewrite (initiate_twice Node.engine Sample.provider
             (Sample.initiate (VStr Sample.booking_id))
             (Sample.initiate (VStr Sample.booking_id))
             Sample.pending Sample.booking_id Sample.booking);
    reflexivity.
Defined.

Lemma paid_booking_charged_again_witness :
  let paid := snd (get_booking_success Node.engine Sample.provider
                     (Sample.confirm "cs_paid") Sample.pending) in
  let out := post_create_checkout_session Node.engine Sample.provider
               (Sample.initiate (VStr Sample.booking_id)) paid in
  map (JS.get "paymentStatus") (bookingCollection paid) = [VStr "paid"]
  /\ map Stripe.unit_amount (stripe_created (snd out)) = [VNum 10000%float]
  /\ ~ InvalidAmount (fst out).
Proof.
  destruct (paid_booking_charged_again Node.engine Sample.provider
              (Sample.confirm "cs_paid")
              (Sample.initiate (VStr Sample.booking_id))
              Sample.pending (Sample.session "paid" (Some "pi_1"))
              Sample.booking_id Sample.booking)
    as (_ & Hs & Hn); try reflexivity.
  split; [reflexivity|]. split; [now rewrite Hs | exact Hn].
Defined.

(** ** Users *)


(** Two queries that find the same document: after the first match of one
    is replaced, the other finds the replacement, if it still matches. *)
Lemma find_update_first (p1 p2 : obj -> bool) (c : Mongo.collection)
    (d d' : obj) :
  find p1 c = Some d -> find p2 c = Some d -> p2 d' = true ->
  find p2 (Mongo.update_first p1 (fun _ => d') c) = Some d'.
Proof.
  intros H1 H2 Hd'.
  assert (Hp1 : p1 d = true) by now destruct (find_some _ _ H1).
  induction c as [|x c IH]; [discriminate|].
  cbn [find Mongo.update_first] in *.
  destruct (p1 x) eqn:E1.
  - cbn [find]. now rewrite Hd'.
  - cbn [find]. destruct (p2 x) eqn:E2.
    + injection H2 as ->. congruence.
    + auto.
Qed.

Lemma find_remove_first (p1 p2 : obj -> bool) (c : Mongo.collection)
    (d : obj) :
  find p1 c = Some d -> find p2 c = Some d ->
  List.length (filter p2 c) = 1%nat ->
  find p2 (Mongo.remove_first p1 c) = None.
Proof.
  intros H1 H2 Hn.
  assert (Hp1 : p1 d = true) by now destruct (find_some _ _ H1).
  induction c as [|x c IH]; [discriminate|].
  cbn [find Mongo.remove_first filter] in *.
  destruct (p1 x) eqn:E1.
  - injection H1 as ->. destruct (p2 d) eqn:E2.
    + cbn [List.length] in Hn. injection Hn as Hn.
      clear - Hn. induction c as [|y c IH]; [reflexivity|].
      cbn [filter find] in *. destruct (p2 y); [discriminate | auto].
    + clear - H2 Hn E2. destruct (find_some _ _ H2). congruence.
  - cbn [find]. destruct (p2 x) eqn:E2.
    + injection H2 as ->. congruence.
    + auto.
Qed.




(** A user save without an email is refused and stores nothing. *)
Lemma post_users_no_email (c : call) (w : world) :
  JS.truthy (JS.get "email" (req_body c)) = false ->
  let out := post_users c w in
  BadRequest (fst out) /\ snd out = w.
Proof.
  intros H out. subst out. unfold post_users. handler. rewrite H.
  split; reflexivity.
Qed.



(** X18.  Asking for a role never fails and never answers an empty role: the
    stored role when the user exists and has one, "user" otherwise, for an
    unknown user as well. *)
Theorem get_users_role_answers (c : call) (w : world) :
  let email := JS.get "email" (req_params c) in
  let out := get_users_role c w in
  snd out = w
  /\ exists role,
       fst out = {| status := 200; body := VObject [("role", role)] |}
       /\ JS.truthy role = true
       /\ (Mongo.findOne [("email", email)] (usersCollection w) = None ->
           role = VStr "user")
       /\ (forall user,
             Mongo.findOne [("email", email)] (usersCollection w)
               = Some user ->
             role = if JS.truthy (JS.get "role" user)
                    then JS.get "role" user else VStr "user").
Proof.
  intros email out. subst out. unfold get_users_role. handler. fold email.
  split; [reflexivity|]. eexists. split; [reflexivity|].
  destruct (Mongo.findOne [("email", email)] (usersCollection w))
    as [user|].
  - unfold JS.or. destruct (JS.truthy (JS.get "role" user)) eqn:E.
    + split; [exact E|]. split; [discriminate|].
      intros u [= <-]. now rewrite E.
    + split; [reflexivity|]. split; [discriminate|].
      intros u [= <-]. now rewrite E.
  - split; [reflexivity|]. split; [reflexivity | discriminate].
Qed.




Lemma get_users_role_answers_witness :
  fst (get_users_role (Scenario.by_email "zoe@example.com" [])
         Scenario.members)
  = {| status := 200; body := VObject [("role", VStr "user")] |}.
Proof.
  destruct (get_users_role_answers (Scenario.by_email "zoe@example.com" [])
              Scenario.members) as (_ & role & Hout & _ & Hnone & _).
  rewrite Hout, Hnone; reflexivity.
Defined.

(** ** Changing and removing users *)


Section ChangeUsers.

Context (eng : Engine).



(** X21.  A change of role reaches the role the server answers: after
    [PATCH /users/:id/role] on an existing user, [GET /users/:email/role]
    for that user's email answers the role of the request, or "user" when
    the request carried none. *)
Theorem changed_role_is_answered (c c2 : call) (w : world) (hex : string)
    (user : obj) :
  ObjectId_new eng (JS.get "id" (req_params c)) = inr hex ->
  Mongo.findOne [("_id", VObjectId hex)] (usersCollection w) = Some user ->
  Mongo.findOne [("email", JS.get "email" (req_params c2))]
    (usersCollection w) = Some user ->
  let changed := snd (patch_users_role eng c w) in
  let role := JS.get "role" (req_body c) in
  fst (get_users_role c2 changed)
  = {| status := 200;
       body := VObject [("role", if JS.truthy role then role
                                 else VStr "user")] |}.
Proof.
  intros Hid Hbyid Hbyemail changed role.
  set (upd := [("role", Mongo.serialize role);
               ("updatedAt", VDate (now c))]).
  set (d := JS.assign user upd).
  assert (Hfields : forall k,
            JS.lookup k d
            = if String.eqb k "updatedAt" then Some (VDate (now c))
              else if String.eqb k "role" then Some (Mongo.serialize role)
              else JS.lookup k user).
  { intros k. unfold d, upd. rewrite lookup_assign.
    cbn [rev app JS.lookup].
    destruct (String.eqb k "updatedAt"); [reflexivity|].
    now destruct (String.eqb k "role"). }
  assert (Hkeep : Mongo.changes_id upd user = false) by reflexivity.
  assert (Hm : Mongo.matches [("email", JS.get "email" (req_params c2))] d
               = true).
  { destruct (findOne_some _ _ _ Hbyemail) as [_ Hu].
    unfold Mongo.matches in *. cbn [forallb fst snd] in *.
    now rewrite Hfields. }
  assert (Hfound : Mongo.findOne [("email", JS.get "email" (req_params c2))]
                     (usersCollection changed) = Some d).
  { unfold changed, patch_users_role. handler. rewrite Hid. step.
    fold role. fold upd. unfold Mongo.updateOne. rewrite Hbyid, Hkeep.
    step. cbn [fst snd usersCollection]. fold d.
    unfold Mongo.findOne in *.
    now apply (find_update_first _ _ _ user). }
  unfold get_users_role. handler. rewrite Hfound.
  unfold JS.get at 1. rewrite Hfields. cbn [String.eqb Ascii.eqb Bool.eqb].
  unfold JS.or. destruct role; reflexivity.
Qed.

(** X22.  [DELETE /users/:id] removes the user of that identifier and no other
    document; an unknown identifier is NotFound and one the constructor
    rejects an internal error, both without a change.  Once the only
    document of an email is removed, its profile is NotFound and its role
    is answered as "user". *)
Theorem delete_users_id_removes (c : call) (w : world) :
  let id := JS.get "id" (req_params c) in
  let out := delete_users_id eng c w in
  (forall e, ObjectId_new eng id = inl e -> Internal (fst out) /\ snd out = w)
  /\ (forall hex, ObjectId_new eng id = inr hex ->
        Mongo.findOne [("_id", VObjectId hex)] (usersCollection w) = None ->
        NotFound (fst out) /\ snd out = w)
  /\ (forall hex user, ObjectId_new eng id = inr hex ->
        Mongo.findOne [("_id", VObjectId hex)] (usersCollection w)
          = Some user ->
        status (fst out) = 200
        /\ (exists pre post,
              usersCollection w = pre ++ user :: post
              /\ usersCollection (snd out) = pre ++ post)
        /\ bookingCollection (snd out) = bookingCollection w
        /\ paymentCollection (snd out) = paymentCollection w
        /\ forall c2,
             Mongo.findOne [("email", JS.get "email" (req_params c2))]
               (usersCollection w) = Some user ->
             Mongo.countDocuments
               [("email", JS.get "email" (req_params c2))]
               (usersCollection w) = 1%nat ->
             NotFound (fst (get_users_profile c2 (snd out)))
             /\ fst (get_users_role c2 (snd out))
                = {| status := 200;
                     body := VObject [("role", VStr "user")] |}).
Proof.
  intros id out. subst out. unfold delete_users_id. handler. fold id.
  split; [|split].
  - intros e He. rewrite He. split; reflexivity.
  - intros hex Hid Hfind. rewrite Hid. step. unfold Mongo.deleteOne.
    rewrite Hfind. cbn [fst snd Z.eqb]. split; [reflexivity|].
    now destruct w.
  - intros hex user Hid Hfind. rewrite Hid. step. unfold Mongo.deleteOne.
    rewrite Hfind. cbn [fst snd Z.eqb usersCollection bookingCollection
      paymentCollection].
    split; [reflexivity|]. split; [|split; [reflexivity|split;
      [reflexivity|]]].
    + unfold Mongo.findOne in Hfind.
      destruct (remove_first_split _ _ _ Hfind) as (pre & post & H1 & _ & H2).
      now exists pre, post.
    + intros c2 Hemail Hone.
      assert (Hgone : Mongo.findOne
                [("email", JS.get "email" (req_params c2))]
                (Mongo.remove_first (Mongo.matches [("_id", VObjectId hex)])
                   (usersCollection w)) = None).
      { unfold Mongo.findOne, Mongo.countDocuments in *.
        now apply (find_remove_first _ _ _ user). }
      unfold get_users_profile, get_users_role. handler.
      cbn [usersCollection]. rewrite Hgone. split; reflexivity.
Qed.

End ChangeUsers.



Lemma changed_role_is_answered_witness :
  let changed := snd (patch_users_role Node.engine
                        (Scenario.by_id "65a1b2c3d4e5f60718293a04"
                           [("role", VStr "admin")]) Scenario.members) in
  fst (get_users_role (Scenario.by_email "bob@example.com" []) changed)
  = {| status := 200; body := VObject [("role", VStr "admin")] |}.
Proof.
  apply (changed_role_is_answered Node.engine
           (Scenario.by_id "65a1b2c3d4e5f60718293a04"
              [("role", VStr "admin")])
           (Scenario.by_email "bob@example.com" []) Scenario.members
           "65a1b2c3d4e5f60718293a04" Scenario.member); reflexivity.
Defined.

Lemma delete_users_id_removes_witness :
  let out := delete_users_id Node.engine
               (Scenario.by_id "65a1b2c3d4e5f60718293a01" [])
               Scenario.members in
  let asked := Scenario.by_email "ana@example.com" [] in
  status (fst out) = 200
  /\ NotFound (fst (get_users_profile asked (snd out)))
  /\ fst (get_users_role asked (snd out))
     = {| status := 200; body := VObject [("role", VStr "user")] |}.
Proof.
  destruct (delete_users_id_removes Node.engine
              (Scenario.by_id "65a1b2c3d4e5f60718293a01" [])
              Scenario.members) as (_ & _ & H).
  destruct (H "65a1b2c3d4e5f60718293a01" Sample.admin)
    as (Hs & _ & _ & _ & Hgone); try reflexivity.
  split; [exact Hs|].
  apply (Hgone (Scenario.by_email "ana@example.com" [])); reflexivity.
Defined.

(** ** The token check and the list of users *)

Lemma split_no_space (s : string) :
  no_space s = true -> split " " s = [s].
Proof.
  induction s as [|a s IH]; [reflexivity|].
  cbn [no_space split]. intros H. apply andb_prop in H. destruct H as [Ha Hs].
  apply negb_true_iff in Ha. rewrite Ha, (IH Hs). reflexivity.
Qed.

Lemma split_at_space (s r : string) :
  no_space s = true -> split " " (s ++ String " " r) = s :: split " " r.
Proof.
  induction s as [|a s IH]; [reflexivity|].
  cbn [no_space]. intros H. apply andb_prop in H. destruct H as [Ha Hs].
  apply negb_true_iff in Ha.
  change (String a s ++ String " " r)%string
    with (String a (s ++ String " " r)).
  cbn [split]. rewrite Ha, (IH Hs). reflexivity.
Qed.

(** X23.  The token the verifier is given is the second word of the header, and
    nothing looks at the first: any word in the place of "Bearer" does.  A
    header of one word gives [undefined]. *)
Theorem idToken_second_word (scheme token : string) :
  no_space scheme = true -> no_space token = true ->
  idToken (scheme ++ " " ++ token) = VStr token
  /\ idToken scheme = VUndefined.
Proof.
  intros Hs Ht. unfold idToken. split.
  - change (" " ++ token)%string with (String " " token).
    now rewrite (split_at_space _ _ Hs), (split_no_space _ Ht).
  - now rewrite (split_no_space _ Hs).
Qed.

Section ListUsers.

Context (db : Database) (firebase : Firebase).

(** X24.  [GET /users] answers 401 and runs nothing when the request has no
    [authorization] header, an empty one, or one whose token the verifier
    rejects. *)
Theorem get_users_rejects (authorization : option string) (c : call)
    (w : world) :
  authorization = None
  \/ authorization = Some ""
  \/ (exists token e,
        authorization = Some token
        /\ verifyIdToken firebase (idToken token) = inl e) ->
  get_users db firebase authorization c w
  = ({| status := 401; body := message "unauthorized access" |}, w).
Proof.
  unfold get_users, verifyFBToken.
  intros [-> | [-> | (token & e & -> & He)]]; [reflexivity | reflexivity |].
  destruct (negb (JS.truthy (VStr token))); [reflexivity|].
  now rewrite He.
Qed.

(** X25.  Once the verifier accepts the token, [GET /users] sends the users of
    the role asked for, or all users, in the order of the database's sort,
    and changes nothing.  Whom the token belongs to plays no part. *)
Theorem get_users_lists (token : string) (who : value) (c : call)
    (w : world) :
  sort_permutes db ->
  plain_param (JS.get "role" (req_query c)) ->
  token <> "" ->
  verifyIdToken firebase (idToken token) = inr who ->
  let out := get_users db firebase (Some token) c w in
  snd out = w
  /\ exists l,
       fst out = {| status := 200; body := VArray (map VObject l) |}
       /\ Permutation (filter (of_role c) (usersCollection w)) l
       /\ (JS.lookup "role" (req_query c) = None ->
           Permutation (usersCollection w) l).
Proof.
  intros Hsort _ Hne Hwho out. subst out. unfold get_users, verifyFBToken.
  cbn [JS.truthy]. apply String.eqb_neq in Hne. rewrite Hne. cbn [negb].
  rewrite Hwho. unfold list_users. handler. cbn [fst snd].
  split; [reflexivity|]. eexists. split; [reflexivity|].
  assert (Hfind : forall d,
            Mongo.matches
              (if JS.truthy (JS.get "role" (req_query c))
               then JS.set "role" (JS.get "role" (req_query c)) []
               else []) d = of_role c d).
  { intros d. unfold of_role.
    destruct (JS.truthy (JS.get "role" (req_query c)));
      cbn [JS.set]; unfold Mongo.matches; cbn [forallb fst snd negb orb];
      rewrite ?andb_true_r; reflexivity. }
  unfold Mongo.find. rewrite (filter_ext _ _ Hfind).
  split; [apply Hsort|]. intros Hr.
  assert (Hsame : filter (of_role c) (usersCollection w) = usersCollection w).
  { induction (usersCollection w) as [|d l IH]; [reflexivity|].
    cbn [filter]. unfold of_role at 1. rewrite (get_absent _ _ Hr).
    cbn [JS.truthy negb orb]. now rewrite IH. }
  rewrite Hsame. apply Hsort.
Qed.

End ListUsers.

Lemma idToken_second_word_witness :
  idToken "Basic tok_bob" = VStr "tok_bob" /\ idToken "Basic" = VUndefined.
Proof.
  apply (idToken_second_word "Basic" "tok_bob"); reflexivity.
Defined.

Lemma get_users_rejects_witness :
  get_users Node.database Scenario.firebase (Some "Bearer forged")
    (Scenario.listing []) Scenario.members
  = ({| status := 401; body := message "unauthorized access" |},
     Scenario.members).
Proof.
  apply get_users_rejects. right. right.
  exists "Bearer forged", "Decoding Firebase ID token failed".
  split; reflexivity.
Defined.

Lemma get_users_lists_witness :
  let out := get_users Node.database Scenario.firebase (Some "Bearer tok_bob")
               (Scenario.listing [("role", VStr "admin")])
               Scenario.members in
  JS.get "role" Scenario.member = VStr "user"
  /\ exists l,
       fst out = {| status := 200; body := VArray (map VObject l) |}
       /\ Permutation [Sample.admin] l.
Proof.
  split; [reflexivity|].
  destruct (get_users_lists Node.database Scenario.firebase "Bearer tok_bob"
              (VStr "bob@example.com")
              (Scenario.listing [("role", VStr "admin")]) Scenario.members
              node_sort_permutes I)
    as (_ & l & Hout & Hperm & _); [discriminate | reflexivity |].
  exists l. split; [exact Hout | exact Hperm].
Defined.

(** ** Payments, over every route *)

Section EveryRoute.

Context (eng : Engine) (db : Database) (firebase : Firebase)
        (stripe : Stripe.Client).

(** The routes that are not about payments leave the payments alone. *)
Lemma other_routes_payments (w w' : world) :
  handles eng db firebase stripe w w' ->
  (exists c, w' = snd (get_booking_success eng stripe c w))
  \/ paymentCollection w' = paymentCollection w.
Proof.
  intros H. destruct H as [w w' H | | | | | | | | |].
  - destruct H.
    + right. apply post_bookings_payments.
    + right. apply initiate_payments.
    + left. now exists c.
    + right. apply post_users_payments.
    + right. apply patch_users_profile_payments.
  - right. reflexivity.
  - right. unfold get_bookings_id. handler.
    destruct (ObjectId_new eng _); step; [reflexivity|].
    now destruct (Mongo.findOne _ _).
  - right. unfold patch_bookings_id. handler.
    destruct (ObjectId_new eng _); step; [reflexivity|].
    destruct (Mongo.updateOne _ _ _ _ _) as [e | r]; step; [reflexivity|].
    now destruct (_ =? _).
  - right. unfold delete_bookings_id. handler.
    destruct (ObjectId_new eng _); step; [reflexivity|].
    now destruct (_ =? _).
  - right. unfold get_users, verifyFBToken.
    destruct authorization as [token|]; [|reflexivity].
    destruct (negb _); [reflexivity|].
    now destruct (verifyIdToken firebase _).
  - right. unfold get_users_profile. handler.
    now destruct (Mongo.findOne _ _).
  - right. reflexivity.
  - right. unfold patch_users_role. handler.
    destruct (ObjectId_new eng _); step; [reflexivity|].
    now destruct (Mongo.updateOne _ _ _ _ _) as [e | r].
  - right. unfold delete_users_id. handler.
    destruct (ObjectId_new eng _); step; [reflexivity|].
    now destruct (_ =? _).
Qed.

(** X26.  No route changes or removes a recorded payment.  A call adds at most
    one payment, and only the reconciler adds one: the payment of a session,
    for a transaction that had none. *)
Theorem payments_only_grow (w w' : world) :
  handles eng db firebase stripe w w' ->
  paymentCollection w' = paymentCollection w
  \/ exists c session,
       Mongo.findOne
         [("transactionId",
           Stripe.opt_string (Stripe.payment_intent session))]
         (paymentCollection w) = None
       /\ paymentCollection w'
          = paymentCollection w ++ [stored_payment c session].
Proof.
  intros H. destruct (other_routes_payments w w' H) as [[c ->] | Hsame];
    [|now left].
  destruct (confirm_payments eng stripe c w) as [Hp | (session & Hn & Hp)];
    [now left|].
  right. now exists c, session.
Qed.

(** X27.  Whatever calls the server has handled since the payments were empty,
    and in whatever order, no transaction has two payments. *)
Theorem payments_unique_always (w : world) :
  arrives eng db firebase stripe w ->
  forall o, (payments_for (Stripe.opt_string o) w <= 1)%nat.
Proof.
  induction 1 as [w Hempty | w w' Hw IH Hstep].
  - intros o. unfold payments_for, Mongo.countDocuments.
    rewrite Hempty. cbn [filter List.length]. lia.
  - destruct (other_routes_payments w w' Hstep) as [[c ->] | Hsame].
    + now apply confirm_keeps_payments_unique.
    + intros o. unfold payments_for. rewrite Hsame. apply IH.
Qed.

End EveryRoute.

Lemma payments_only_grow_witness :
  let w' := snd (get_booking_success Node.engine Sample.provider
                   (Sample.confirm "cs_paid") Sample.pending) in
  paymentCollection w' = paymentCollection Sample.pending
  \/ exists c session,
       Mongo.findOne
         [("transactionId",
           Stripe.opt_string (Stripe.payment_intent session))]
         (paymentCollection Sample.pending) = None
       /\ paymentCollection w'
          = paymentCollection Sample.pending ++ [stored_payment c session].
Proof.
  apply (payments_only_grow Node.engine Node.database Scenario.firebase
           Sample.provider).
  apply handles_served, serves_get_booking_success.
Defined.

Lemma payments_unique_always_witness :
  let paid := snd (get_booking_success Node.engine Sample.provider
                     (Sample.confirm "cs_paid") Sample.pending) in
  let gone := snd (delete_bookings_id Node.engine
                     (Scenario.by_id Sample.booking_id []) paid) in
  let again := snd (get_booking_success Node.engine Sample.provider
                      (Sample.confirm "cs_paid") gone) in
  (payments_for (VStr "pi_1") again <= 1)%nat.
Proof.
  apply (payments_unique_always Node.engine Node.database Scenario.firebase
           Sample.provider _
           (arrives_step _ _ _ _ _ _
              (arrives_step _ _ _ _ _ _
                 (arrives_step _ _ _ _ _ _
                    (arrives_start _ _ _ _ Sample.pending eq_refl)
                    (handles_served _ _ _ _ _ _
                       (serves_get_booking_success _ _
                          (Sample.confirm "cs_paid") _)))
                 (handles_delete_bookings_id _ _ _ _
                    (Scenario.by_id Sample.booking_id []) _))
              (handles_served _ _ _ _ _ _
                 (serves_get_booking_success _ _
                    (Sample.confirm "cs_paid") _)))
           (Some "pi_1")).
Defined.

(** ** The dashboard *)

Section Dashboard.

Context (eng : Engine).

Lemma monthMap_months (bs : list obj) :
  Chart.monthMap eng bs
  = fold_left (fun m k => Chart.bump k m) (months_of eng bs) [].
Proof.
  unfold Chart.monthMap. generalize (@nil (Chart.key * Z)) as m.
  induction bs as [|b bs IH]; intros m; [reflexivity|].
  cbn [fold_left months_of flat_map]. rewrite fold_left_app.
  fold (months_of eng bs). rewrite IH.
  now destruct (Chart.month_of eng b).
Qed.

Lemma months_of_project (bs : list obj) :
  months_of eng (map Chart.project_createdAt bs) = months_of eng bs.
Proof.
  induction bs as [|b bs IH]; [reflexivity|].
  cbn [map months_of flat_map]. fold (months_of eng bs).
  fold (months_of eng (map Chart.project_createdAt bs)).
  now rewrite project_month_of, IH.
Qed.

(** The months are read off the [createdAt] of the dated bookings. *)
Lemma months_of_dates (bs : list obj) :
  months_of eng bs
  = flat_map
      (fun v => match JSDate.Date_new eng v with
                | Some t => [(JSDate.getFullYear eng t, JSDate.getMonth eng t)]
                | None => []
                end)
      (map (JS.get "createdAt") (filter (dated eng) bs)).
Proof.
  induction bs as [|b bs IH]; [reflexivity|].
  cbn [months_of flat_map filter]. fold (months_of eng bs). rewrite IH.
  unfold dated, Chart.month_of.
  destruct (JSDate.Date_new eng (JS.get "createdAt" b)) eqn:E;
    [|reflexivity].
  cbn [map flat_map]. now rewrite E.
Qed.

(** X28.  The booking chart reads nothing but the [createdAt] of the bookings
    whose [createdAt] makes a valid date: a booking without one is not
    counted, and no other field of a booking changes the chart. *)
Theorem chart_reads_dates_only (w w' : world) :
  map (JS.get "createdAt") (filter (dated eng) (bookingCollection w))
  = map (JS.get "createdAt") (filter (dated eng) (bookingCollection w')) ->
  Chart.bookingChartData eng w = Chart.bookingChartData eng w'.
Proof.
  intros H. unfold Chart.bookingChartData, Chart.chart.
  now rewrite !monthMap_months, !months_of_project, !months_of_dates, H.
Qed.

(** X29.  A booking created without a status is counted as pending by the
    dashboard: the total and the pending count go up by one, the other
    counts stay. *)
Theorem new_booking_counts_as_pending (c : call) (w : world) :
  JS.truthy (JS.get "tourId" (req_body c)) = true ->
  JS.truthy (JS.get "userEmail" (req_body c)) = true ->
  JS.truthy (JS.get "travelDate" (req_body c)) = true ->
  JS.lookup "_id" (req_body c) = None ->
  Mongo.findOne [("_id", VObjectId (fresh_id c))] (bookingCollection w)
    = None ->
  JS.truthy (JS.get "status" (req_body c)) = false ->
  let created := snd (post_bookings c w) in
  Stats.totalBookings created = S (Stats.totalBookings w)
  /\ Stats.pending created = S (Stats.pending w)
  /\ Stats.confirmed created = Stats.confirmed w
  /\ Stats.cancelled created = Stats.cancelled w
  /\ Stats.totalUsers created = Stats.totalUsers w.
Proof.
  intros H1 H2 H3 Hid Hnew Hstatus created. subst created.
  rewrite (post_bookings_run c w H1 H2 H3 Hid Hnew).
  unfold Stats.totalBookings, Stats.pending, Stats.confirmed,
    Stats.cancelled, Stats.totalUsers.
  cbn [snd with_bookings bookingCollection usersCollection].
  rewrite !count_app.
  assert (Hs : JS.lookup "status" (stored_booking c) = Some (VStr "pending")).
  { rewrite stored_booking_lookup. cbn [String.eqb Ascii.eqb Bool.eqb].
    unfold JS.or. now rewrite Hstatus. }
  assert (Hone : forall q,
            Mongo.countDocuments q [stored_booking c]
            = if Mongo.matches q (stored_booking c) then 1%nat else 0%nat).
  { intros q. unfold Mongo.countDocuments. cbn [filter].
    now destruct (Mongo.matches q (stored_booking c)). }
  rewrite !Hone. unfold Mongo.matches. cbn [forallb fst snd]. rewrite Hs.
  cbn [Mongo.match_field Mongo.value_eqb String.eqb Ascii.eqb Bool.eqb
    andb].
  repeat split; lia.
Qed.

End Dashboard.

Lemma chart_reads_dates_only_witness :
  let stripped :=
    map (fun b => [("createdAt", JS.get "createdAt" b)])
      (filter (dated Node.engine) (bookingCollection Sample.history)) in
  List.length stripped = 9%nat
  /\ Chart.bookingChartData Node.engine Sample.history
     = Chart.bookingChartData Node.engine
         (with_bookings stripped Sample.history).
Proof.
  split; [reflexivity|].
  apply (chart_reads_dates_only Node.engine Sample.history). reflexivity.
Defined.

Lemma new_booking_counts_as_pending_witness :
  let created := snd (post_bookings Scenario.book Sample.pending) in
  Stats.totalBookings created = 2%nat /\ Stats.pending created = 2%nat
  /\ Stats.confirmed created = 0%nat.
Proof.
  intros created. subst created.
  destruct (new_booking_counts_as_pending Scenario.book Sample.pending)
    as (H1 & H2 & H3 & _); try reflexivity.
  rewrite H1, H2, H3. repeat split; reflexivity.
Defined.
